(* ===== verification/_CoqProject ===== *)
-Q . S2P
Prelude.v
Regex.v
Patterns.v
Numbers.v
ProductValidation.v
SupplierValidation.v
ReceptionValidation.v
Entities.v
Store.v
Services.v
Pages.v
Hooks.v
SupplierDialogs.v
SupplierEditDialogs.v
ListFilters.v
ProductDialogs.v
ReceptionDialogs.v
SupplierCard.v
ListScreens.v
Navigation.v
PageViews.v
DeleteDialogs.v
StoreOrder.v
