(* ===== verification/Prelude.v ===== *)
(** * Medicamentos: a verification development of the validators, the
      services, the hooks and the dialogs

    The repository is a Next.js pharmaceutical-inventory application with
    three entities (suppliers, products, product receptions), declared in
    [src/lib/types.ts].  Its business rules live in three validators,
    [src/lib/validations/*.ts].  The React hooks [src/lib/hooks/use-*.ts]
    run a validator before they call a service ([src/lib/services/*.ts]),
    which sends one query to the Supabase store.  The dialogs under
    [src/components] are what the pages really use: they keep their own
    form state (for example the economic-activity codes of a supplier)
    and write to the store through the Supabase client directly, without
    the validators or the hooks.

    ** Files, and how they model the code (in [_CoqProject] order)

    - [Prelude] (this file): JavaScript values.  A string is a Stdlib
      [string] read as Latin-1 code units, so [String.length] is
      JavaScript's [.length] for Latin-1 text.  A number that reaches a
      validator is [jsnum]: [NaN] or an integer [Num z] (the producers in
      the code are [Number.parseInt], [new Date(..)] time values in
      milliseconds, and integer literals).  Truthiness and the comparisons
      [<=], [>] are written out with their NaN cases; a thrown value is a
      [js_error]; a validation result [{isValid, errors}] is the record
      [validation], and [errors.push(m)] is [push].  [run_events] folds a
      component's [step] over a list of events.
    - [Numbers]: [Number.parseInt] and [Number.prototype.toString], the
      built-ins the reception dialogs use on the quantity, written out
      after ECMAScript on integers (exponent notation from 10^21 on).
    - [Regex]: the regular-expression syntax the code uses ([\d], [\s],
      [[^..]], concatenation, [+], [{n}]), a relational semantics
      [re_match] and the Brzozowski-derivative matcher [re_matches],
      proved equal; [regexp_test] is [/^r$/.test].  [Patterns]: the three
      literals of suppliers.validation.ts and the strings each accepts.
    - [ProductValidation], [SupplierValidation], [ReceptionValidation]:
      one [Module] per class, one [Definition] per static method, the
      error list threaded through the checks in source order.  The two
      [new Date()] reads of [ReceptionValidation.validateCreate] are the
      parameters [now_r] and [now_e], and [new Date(s)] is the section
      parameter [parse_date] (the date parser is not code of the
      repository).
    - [Entities]: the records of types.ts.
    - [Store]: the Supabase tables and query operators ([.eq], [.order],
      [.single()], embedding).  src/lib/supabase is not in the repository,
      so this part is modelled from the specification.  The environment
      decides each request: whether it is refused, and the id and time
      the store assigns ([request]).
    - [Services]: each method of the six service classes is a function of
      the store and the request, returning the next store and a value or
      a thrown error; the writes together form the step relation
      [service_step].
    - [Pages]: the three data pages of src/app as their service calls in
      [await] order ([js_bind], notation [await!]) and the props they
      hand to the lists and dialogs.
    - [Hooks]: the three hooks are one generic hook over a [hook_config]
      ([useProducts], [useSuppliers], [useReceptions] are its instances).
      Each async operation is split at its [await] into [begin], [serve]
      and [finish], and [hook_step] lets the steps of several operations
      in flight interleave, as the event loop does.
    - [SupplierDialogs] (add-supplier-dialog.tsx) and
      [SupplierEditDialogs] (edit- and delete-supplier-dialog.tsx): each
      dialog is a [step] function on its React state and the store, one
      event per handler.  The browser's [required] and [type="email"]
      checks before [onSubmit] and [JSON.parse] are parameters.
    - [ProductDialogs]: the add, edit and delete product dialogs, in the
      same way.
    - [ReceptionDialogs]: the add, edit and delete reception dialogs; the
      selects accept only the values they offer, the browser's check of
      the number input is a parameter, and the clock strings and
      [new Date(..).toISOString()] are parameters.
    - [ListFilters]: the search and status filters of the three list
      screens, with [toLowerCase] on Latin-1 code units and [includes]
      as a substring test.
    - [SupplierCard]: the economic-activity block of a supplier card in
      suppliers-list.tsx, with its own [JSON.parse] of a stored string and
      the three outcomes of rendering it (badges, nothing, a [TypeError]).
    - [ListScreens]: the three list screens: their search and filter
      state as a step function whose select emits only its items, the
      cards with every field they show, and the empty-list hints.
    - [Navigation]: the routes of the app router, [MainNav] with its
      active entry, [RootLayout] and the home page's feature cards.
    - [PageViews]: what the three data pages render (heading block, the
      add dialog's select options, the list view for the list's client
      state), and [router.refresh()] after a dialog's write as the view of
      the same list state on the store the write left.
    - [DeleteDialogs]: the three delete dialogs are one component over
      three tables.  The class [DeleteDialog] states that shape and
      [spec_step] its step; each dialog module is an instance whose
      [step] is proved equal to [spec_step] ([DeleteDialogLaws]), and
      the theorems are proved once against the class.
    - [StoreOrder]: a table is a set of rows, so [db_equiv] relates
      stores that hold the same rows in any order.  The loaders are
      [Proper] for it up to row order ([result_perm]); [.order(column)]
      is a sort with one result when the column's values are distinct
      (after fiat-crypto's [StronglySorted_Permutation_unique]), with the
      transitivity of [String.leb] proved from [Ascii.compare].

    ** What the theorems show

    - Validators: each one refines an abstract acceptance predicate
      ([isValid] is true iff the predicate holds); the complete error list
      on every branch; the exact strings the NIT and e-mail checks
      accept; and the edge cases the code gets wrong (NaN quantities,
      unparseable dates, blank updates, duplicate codes).
    - Services: results sorted and filtered as the queries say; creates
      stamped by the store; updates of missing ids fail; refused requests
      throw and change nothing; every update and delete touches only the
      rows with its id and leaves the other tables alone (a frame
      property, on success and on every error path); and, given fresh
      ids from the store, every sequence of writes keeps ids unique.
    - Hooks: in every reachable state, each create or update in flight
      carries a validated record, and [loading] is false when nothing is
      in flight; each operation's outcome when it runs alone, a refused
      create included; and, for every hook, two interleavings that go
      wrong: the shared [loading] flag is false with a load in flight,
      and a load served before a create but finishing after it replaces
      the list with its stale answer.
    - Dialogs: the add dialog's code list stays duplicate-free and
      four-digit in every reachable state, and its add button's guard is
      the regular-expression test alone.  Any form the browser lets
      through is stored as typed, so a record the validator rejects is
      stored.  The edit dialog writes absent optional fields back as
      empty strings and treats an update of a missing row as success.  On the
      receptions page every reception the add dialog stores references a
      product that was active and a supplier that existed, and the edit
      dialog keeps a reception's own product or moves it to an active one.  The add-product
      dialog stores any form with a non-empty code and name, as typed;
      deactivating a product in its edit dialog removes it from
      [getActive].  The add-reception dialog stores an expired reception
      the validator rejects, and stores a quantity typed as [1e3] as 1;
      saving an untouched edit-reception form keeps the quantity
      ([parseInt] of [toString] is the identity below 10^21).
    - List filters: a term found in a field, in any case, shows the
      item; the search ignores letter case; with no term and the filter
      on "all" every item is shown; the "active" filter selects the rows
      [getActive] selects.  The supplier card agrees with the edit
      dialog on stored arrays, but a stored string that parses to a
      non-array shows no badge or throws while rendering.
    - List screens: the start-adding hint shows exactly in the initial
      state on an empty list; the reception dialogs keep every stored
      state among the three offered, and then the receptions screen's
      three state views partition its "all" view (up to order), with
      the matching bound on the number of cards.  The add dialog never
      stays loading: while loading, the store's answer is enabled and
      ends it.
    - Navigation: exactly one entry is active on a route, none
      elsewhere.
    - Pages and refresh: after a product delete and the refresh, the
      products page in the same list state shows the cards it showed
      minus the product's; after an add, the new row's card; after a
      product or supplier delete no receptions card names the deleted row
      and the add dialog stops offering it (whatever the database does
      with the receptions); after a deactivation the add dialog stops
      offering the product while the products page shows it "Inactivo".
    - Row order: with unique ids and distinct sort keys the three pages
      render the same on any two stores equal up to row order.  With
      equal keys the order is left open by SQL, so nothing is claimed.
    - Delete dialogs: under any sequence of events, each dialog leaves its
      table untouched or without exactly its item's rows, and sends one
      delete at a time (the [disabled={loading}] guard).

    ** Bounds and fuel

    One definition takes fuel: [Numbers.decimal_digits] is given the bit
    length of its argument, which bounds its number of decimal digits,
    so it never runs out: a theorem of [JsNumberFacts] shows that any
    fuel from there on gives what the well-founded [decimal_digits_wf]
    (Equations, measure [Z.to_nat n]) gives.  The others recurse
    structurally: the matcher on the input word, the activity-code loop
    on the list, [run_events] on the event list, and the hook and store
    relations are closed under [rtc].  Integers are unbounded [Z]: the
    code's numbers (quantities, millisecond time values) stay far below
    2^53, where JavaScript numbers are exact; [toString] switches to
    exponent notation at 10^21, and the quantity round trip is stated
    below that bound.

    ** Not modelled

    Icons, styling classes (except the ones that encode a state) and
    the static texts of the home page's cards are markup only.  The
    locale formatting of dates ([toLocaleDateString]) is a parameter.
    [console.error] has no state the client reads; [router.refresh()]
    is modelled by re-rendering the page on the new store (PageViews),
    not by Next.js's reconciliation.  The database schema (constraints, cascades, triggers)
    is not in the repository, nor are the Supabase client factories
    [createClient]/[createServerClient] (cookies, keys, authentication,
    row-level security): their whole effect on the code is whether a
    request is refused, which [Store.request] leaves to the environment.
    The imports and the [export const ..Service = new ..()] singletons
    have no behaviour to model. *)

From Stdlib Require Import ZArith String Ascii List.
From stdpp Require Import base list strings.

(** ** JavaScript numbers *)

(** A number as it reaches the validators: [NaN] (from [Number.parseInt]
    of a non-numeric string, or the time value of an invalid [Date]) or a
    finite integer. *)
Inductive jsnum : Type :=
| NaN
| Num (z : Z).

#[export] Instance jsnum_eq_dec : EqDecision jsnum.
Proof. solve_decision. Defined.

(** [!!n]: a number is falsy when it is [0] or [NaN]. *)
Definition num_truthy (n : jsnum) : bool :=
  match n with
  | NaN => false
  | Num z => negb (Z.eqb z 0)
  end.

(** [a <= b] and [a > b] on numbers: any comparison with [NaN] is false. *)
Definition js_le (a b : jsnum) : bool :=
  match a, b with
  | Num x, Num y => Z.leb x y
  | _, _ => false
  end.

Definition js_gt (a b : jsnum) : bool :=
  match a, b with
  | Num x, Num y => Z.ltb y x
  | _, _ => false
  end.

(** ** JavaScript strings *)

(** [!!s] for a string: only the empty string is falsy. *)
Definition str_truthy (s : string) : bool :=
  negb (String.eqb s EmptyString).

(** [!!o] for an optional string field: [undefined] is falsy too. *)
Definition opt_truthy (o : option string) : bool :=
  match o with
  | Some s => str_truthy s
  | None => false
  end.

(** [data.x && p(data.x)] for an optional string field [x]: false when
    the field is [undefined] or empty, [p] of it otherwise. *)
Definition opt_and (o : option string) (p : string -> bool) : bool :=
  match o with
  | Some s => str_truthy s && p s
  | None => false
  end.

(** [status: "active" | "inactive"] of [src/lib/types.ts]. *)
Inductive status : Type :=
| active
| inactive.

#[export] Instance status_eq_dec : EqDecision status.
Proof. solve_decision. Defined.

(** ** Exceptions *)

(** A thrown value: an [Error] object with its [message], or a value that
    is not an [Error] (for which the hooks fall back to a fixed text). *)
Inductive js_error : Type :=
| JsError (message : string)
| NonError.

(** The outcome of an async call: its value, or what it threw. *)
Inductive js_result (A : Type) : Type :=
| Ok (a : A)
| Throw (e : js_error).
Arguments Ok {A} a.
Arguments Throw {A} e.

(** [err instanceof Error ? err.message : default] *)
Definition error_message (e : js_error) (default : string) : string :=
  match e with
  | JsError m => m
  | NonError => default
  end.

(** [xs.join(sep)] *)
Fixpoint js_join (sep : string) (xs : list string) : string :=
  match xs with
  | [] => EmptyString
  | [x] => x
  | x :: rest => (x ++ sep ++ js_join sep rest)%string
  end.

(** ** Validation results *)

(** The object [{ isValid, errors }] every validator returns. *)
Record validation : Type := mk_validation {
  isValid : bool;
  errors : list string
}.

(** [return { isValid: errors.length === 0, errors }] *)
Definition result_of (errs : list string) : validation :=
  {| isValid := Nat.eqb (length errs) 0; errors := errs |}.

(** [errors.push(m)] *)
Definition push (errs : list string) (m : string) : list string :=
  errs ++ [m].

(** [if (b) errors.push(m)] *)
Definition push_if (b : bool) (m : string) (errs : list string) : list string :=
  if b then push errs m else errs.

(** What a validator class offers its clients (the hooks of
    [src/lib/hooks]): a check of a full candidate record and a check of a
    partial update.  The law every validator of the code satisfies:
    [isValid] is exactly the emptiness of [errors]. *)
Class EntityValidation (C U : Type) := {
  validate_create : C -> validation;
  validate_update : U -> validation
}.

Class EntityValidationLaws (C U : Type) `{EntityValidation C U} := {
  validate_create_valid : forall d, isValid (validate_create d) = true <-> errors (validate_create d) = [];
  validate_update_valid : forall d, isValid (validate_update d) = true <-> errors (validate_update d) = []
}.

Declare Scope js_scope.
Delimit Scope js_scope with js.
Notation "errs '<<!' m" := (push errs m) (at level 50, left associativity) : js_scope.

(** [const x = await m; k]: an exception thrown by [m] propagates. *)
Definition js_bind {A B : Type} (m : js_result A) (k : A -> js_result B) : js_result B :=
  match m with
  | Ok a => k a
  | Throw e => Throw e
  end.

Notation "'await!' x ':=' m 'in' k" := (js_bind m (fun x => k))
  (at level 10, x name, m at level 100, k at level 200) : js_scope.

(** [x || ""] on an optional string field, as the edit dialogs
    initialise their forms. *)
Definition or_empty (o : option string) : string :=
  match o with
  | Some v => if str_truthy v then v else ""
  | None => ""
  end.

(** ** Event-driven components *)

(** A component driven by events: [step] answers the next state, or
    [None] for an event that cannot happen in that state (a hidden control,
    a disabled button, a submission the browser blocks). *)
Fixpoint run_events {S E : Type} (step : S -> E -> option S) (s : S) (evs : list E) : option S :=
  match evs with
  | [] => Some s
  | ev :: evs' =>
      match step s ev with
      | Some s' => run_events step s' evs'
      | None => None
      end
  end.

(** ** Shared lemmas *)

Create HintDb js discriminated.
Create Rewrite HintDb js_rw.

Lemma str_truthy_false (s : string) : str_truthy s = false <-> s = EmptyString.
Proof.
  unfold str_truthy. destruct (String.eqb_spec s EmptyString); subst; simpl; split; congruence.
Qed.

Lemma str_truthy_true (s : string) : str_truthy s = true <-> s <> EmptyString.
Proof.
  unfold str_truthy. destruct (String.eqb_spec s EmptyString); simpl; split; congruence.
Qed.

Lemma str_truthy_empty : str_truthy EmptyString = false.
Proof. reflexivity. Qed.

Lemma str_truthy_cons (c : ascii) (s : string) : str_truthy (String c s) = true.
Proof. reflexivity. Qed.

Lemma js_bind_ok {A B : Type} (m : js_result A) (k : A -> js_result B) (b : B) :
  js_bind m k = Ok b <-> exists a, m = Ok a /\ k a = Ok b.
Proof. destruct m as [a|e]; simpl; [split; [eauto | by intros (? & [= ->] & ?)] | split; [discriminate | by intros (? & ? & _)]]. Qed.

Lemma result_of_errors (errs : list string) : errors (result_of errs) = errs.
Proof. reflexivity. Qed.

Lemma result_of_valid (errs : list string) : isValid (result_of errs) = true <-> errs = [].
Proof. destruct errs; simpl; split; congruence. Qed.

Lemma isValid_false_of_In (errs : list string) (m : string) :
  In m errs -> isValid (result_of errs) = false.
Proof. destruct errs; [done | reflexivity]. Qed.

(** A check pushes nothing iff its guard is false. *)
Lemma cond_nil (b : bool) (m : string) : (if b then [m] else []) = [] <-> b = false.
Proof. destruct b; split; congruence. Qed.

Lemma in_cond (b : bool) (m m' : string) : In m (if b then [m'] else []) <-> b = true /\ m' = m.
Proof. destruct b; simpl; intuition congruence. Qed.

Lemma not_truthy_false (s : string) : negb (str_truthy s) = false <-> s <> EmptyString.
Proof. rewrite negb_false_iff. apply str_truthy_true. Qed.

Lemma push_if_true (m : string) (errs : list string) : push_if true m errs = errs ++ [m].
Proof. reflexivity. Qed.

Lemma push_if_false (m : string) (errs : list string) : push_if false m errs = errs.
Proof. reflexivity. Qed.

(** Accumulation does not depend on what was pushed before: the errors of a
    run of checks are the initial list followed by what the checks add. *)
Lemma push_if_app (b : bool) (m : string) (e1 e2 : list string) :
  push_if b m (e1 ++ e2) = e1 ++ push_if b m e2.
Proof. destruct b; unfold push_if, push; simpl; [by rewrite app_assoc | done]. Qed.

Lemma push_if_nil (b : bool) (m : string) (errs : list string) :
  push_if b m errs = errs ++ (if b then [m] else []).
Proof. destruct b; unfold push_if, push; simpl; [done | by rewrite app_nil_r]. Qed.

Lemma opt_and_true (o : option string) (p : string -> bool) :
  opt_and o p = true <-> exists s, o = Some s /\ s <> EmptyString /\ p s = true.
Proof.
  destruct o as [s|]; simpl; [|split; [discriminate | by intros (? & ? & _)]].
  rewrite andb_true_iff, str_truthy_true. split.
  - intros [? ?]. eauto.
  - by intros (? & [= <-] & ? & ?).
Qed.

Lemma opt_and_none (p : string -> bool) : opt_and None p = false.
Proof. reflexivity. Qed.

Lemma js_le_zero (z : Z) : js_le (Num z) (Num 0) = true <-> (z <= 0)%Z.
Proof. simpl. apply Z.leb_le. Qed.

Lemma num_truthy_iff (n : jsnum) : num_truthy n = true <-> exists z, n = Num z /\ z <> 0%Z.
Proof.
  destruct n as [|z]; simpl; split.
  - discriminate.
  - intros (? & ? & _); discriminate.
  - intros H. exists z. split; [done|]. intros ->. discriminate.
  - intros (z' & [= <-] & Hz). by apply negb_true_iff, Z.eqb_neq.
Qed.

Lemma string_length_list (s : string) : String.length s = length (list_ascii_of_string s).
Proof. induction s; simpl; auto. Qed.

Lemma list_ascii_of_string_append (a b : string) :
  list_ascii_of_string (a ++ b) = list_ascii_of_string a ++ list_ascii_of_string b.
Proof. induction a as [|c a IH]; simpl; [done | by rewrite IH]. Qed.

(** A string is determined by its code units. *)
Lemma list_ascii_of_string_inj (a b : string) :
  list_ascii_of_string a = list_ascii_of_string b -> a = b.
Proof.
  intros H. by rewrite <- (string_of_list_ascii_of_string a), H, string_of_list_ascii_of_string.
Qed.

Lemma string_nonempty_list (s : string) : s <> EmptyString <-> list_ascii_of_string s <> [].
Proof. destruct s; simpl; split; congruence. Qed.

#[export] Hint Rewrite push_if_true push_if_false result_of_errors opt_and_none : js_rw.
#[export] Hint Resolve str_truthy_empty str_truthy_cons : js.

(** [open_checks] exposes the error list of a validator whose definition
    was unfolded: it inlines the [let errors := ...] steps and turns each
    [push_if] into an append. *)
Ltac open_checks :=
  cbv zeta; rewrite ?result_of_valid, ?result_of_errors, ?push_if_nil, ?app_nil_l.

(** [split_ltb] cases on every [a <? b] of the goal. *)
Ltac split_ltb :=
  repeat match goal with
  | |- context [Nat.ltb ?a ?b] => destruct (Nat.ltb_spec a b)
  end.

(** [simpl_checks] evaluates the boolean guards of a run of checks and
    splits the goal on the ones that stay symbolic. *)
Ltac simpl_checks :=
  repeat (autorewrite with js_rw; simpl;
          match goal with
          | |- context [if ?b then _ else _] => destruct b eqn:?
          end).

(** A property every step preserves holds in every state a run reaches. *)
Lemma run_events_inv {S E : Type} (step : S -> E -> option S) (P : S -> Prop) :
  (forall s ev s', step s ev = Some s' -> P s -> P s') ->
  forall evs s s', run_events step s evs = Some s' -> P s -> P s'.
Proof.
  intros Hstep evs. induction evs as [|ev evs IH]; simpl; intros s s' Hrun Hs.
  - by injection Hrun as <-.
  - destruct (step s ev) as [s1|] eqn:Hs1; [|discriminate]. eauto.
Qed.
