(* ===== verification/Regex.v ===== *)
(** * Regex: the fragment of JavaScript regular expressions the code uses

    The validators of [src/lib/validations/suppliers.validation.ts] and the
    supplier dialogs call [RegExp.prototype.test] on three anchored
    literals, [/^\d{4}$/], [/^\d{9}-\d{1}$/] and
    [/^[^\s@]+@[^\s@]+\.[^\s@]+$/].  None has the [g], [y] or [u] flag,
    so [test] is stateless and reads code units.  An anchored literal
    [/^r$/] accepts exactly the strings [r] matches as a whole.

    This file gives the syntax that occurs a relational semantics
    [re_match] (the language of the pattern), an executable matcher
    [re_matches] by Brzozowski derivatives, and proves that the matcher
    decides the semantics ([re_matches_correct]).  It ends with the
    inversion lemmas for the shapes [r{n}], [r+] and single classes that
    [Patterns] uses. *)

From Stdlib Require Import Ascii String List NArith.
From stdpp Require Import base list strings.
From S2P Require Import Prelude.

(** ** Character classes *)

(** [\d] is [[0-9]] without the [u] flag. *)
Definition is_digit (c : ascii) : bool :=
  let n := N_of_ascii c in (48 <=? n)%N && (n <=? 57)%N.

(** [\s] restricted to Latin-1 code units: tab, line feed, vertical tab,
    form feed, carriage return, space and no-break space (U+00A0). *)
Definition is_space (c : ascii) : bool :=
  let n := N_of_ascii c in
  ((9 <=? n)%N && (n <=? 13)%N) || (n =? 32)%N || (n =? 160)%N.

Inductive cclass : Type :=
| CLit (c : ascii)              (* a literal character, e.g. [@], [\.], [-] *)
| CDigit                        (* [\d] *)
| CSpace                        (* [\s] *)
| CUnion (a b : cclass)         (* [[ab]] *)
| CNeg (a : cclass).            (* [[^a]] *)

Fixpoint cls_mem (k : cclass) (c : ascii) : bool :=
  match k with
  | CLit d => Ascii.eqb c d
  | CDigit => is_digit c
  | CSpace => is_space c
  | CUnion a b => cls_mem a c || cls_mem b c
  | CNeg a => negb (cls_mem a c)
  end.

(** ** Patterns *)

Inductive regex : Type :=
| RNull                         (* matches nothing *)
| REps                          (* the empty pattern *)
| RChr (k : cclass)             (* one character of a class *)
| RCat (r1 r2 : regex)          (* [r1 r2] *)
| RAlt (r1 r2 : regex)          (* [r1|r2] *)
| RStar (r : regex).            (* [r*] *)

(** [r+] *)
Definition RPlus (r : regex) : regex := RCat r (RStar r).

(** [r{n}] *)
Fixpoint RRepeat (n : nat) (r : regex) : regex :=
  match n with
  | O => REps
  | S n' => RCat r (RRepeat n' r)
  end.

(** The language of a pattern. *)
Inductive re_match : regex -> list ascii -> Prop :=
| MEps : re_match REps []
| MChr (k : cclass) (c : ascii) : cls_mem k c = true -> re_match (RChr k) [c]
| MCat (r1 r2 : regex) (s1 s2 : list ascii) :
    re_match r1 s1 -> re_match r2 s2 -> re_match (RCat r1 r2) (s1 ++ s2)
| MAltL (r1 r2 : regex) (s : list ascii) : re_match r1 s -> re_match (RAlt r1 r2) s
| MAltR (r1 r2 : regex) (s : list ascii) : re_match r2 s -> re_match (RAlt r1 r2) s
| MStar0 (r : regex) : re_match (RStar r) []
| MStarS (r : regex) (s1 s2 : list ascii) :
    re_match r s1 -> re_match (RStar r) s2 -> re_match (RStar r) (s1 ++ s2).

#[export] Hint Constructors re_match : js.

(** ** The derivative matcher *)

Fixpoint nullable (r : regex) : bool :=
  match r with
  | RNull => false
  | REps => true
  | RChr _ => false
  | RCat r1 r2 => nullable r1 && nullable r2
  | RAlt r1 r2 => nullable r1 || nullable r2
  | RStar _ => true
  end.

Fixpoint deriv (c : ascii) (r : regex) : regex :=
  match r with
  | RNull => RNull
  | REps => RNull
  | RChr k => if cls_mem k c then REps else RNull
  | RCat r1 r2 =>
      if nullable r1 then RAlt (RCat (deriv c r1) r2) (deriv c r2)
      else RCat (deriv c r1) r2
  | RAlt r1 r2 => RAlt (deriv c r1) (deriv c r2)
  | RStar r1 => RCat (deriv c r1) (RStar r1)
  end.

Fixpoint re_matches (r : regex) (s : list ascii) : bool :=
  match s with
  | [] => nullable r
  | c :: s' => re_matches (deriv c r) s'
  end.

(** [/^r$/.test(s)] *)
Definition regexp_test (r : regex) (s : string) : bool :=
  re_matches r (list_ascii_of_string s).

(** ** Shapes built from one class *)

Definition all_in (k : cclass) (s : list ascii) : Prop :=
  Forall (fun c => cls_mem k c = true) s.

(** ** Correctness of the matcher *)

Lemma nullable_correct (r : regex) : nullable r = true <-> re_match r [].
Proof.
  split.
  - induction r as [| | k | r1 IH1 r2 IH2 | r1 IH1 r2 IH2 | r1 IH1]; simpl; intros H;
      try discriminate; eauto with js.
    + apply andb_prop in H as [H1 H2]. apply (MCat _ _ [] []); auto.
    + apply orb_prop in H as [H1|H2]; eauto with js.
  - remember [] as s eqn:Hs. intros H. induction H; simpl; subst; try done.
    + apply app_eq_nil in Hs as [-> ->]. rewrite IHre_match1, IHre_match2; done.
    + by rewrite IHre_match.
    + rewrite IHre_match; [apply orb_true_r | done].
Qed.

(** A word [c :: s] in [r*] starts with a non-empty word of [r]. *)
Lemma star_cons_inv (r : regex) (c : ascii) (s : list ascii) :
  re_match (RStar r) (c :: s) ->
  exists s1 s2, s = s1 ++ s2 /\ re_match r (c :: s1) /\ re_match (RStar r) s2.
Proof.
  remember (RStar r) as rr eqn:Hr. remember (c :: s) as w eqn:Hw.
  intros H. revert s Hw. induction H; intros t Hw; try discriminate.
  injection Hr as <-. destruct s1 as [|c' s1'].
  - exact (IHre_match2 eq_refl t Hw).
  - injection Hw as -> <-. eauto.
Qed.

Lemma cat_inv (r1 r2 : regex) (s : list ascii) :
  re_match (RCat r1 r2) s <-> exists s1 s2, s = s1 ++ s2 /\ re_match r1 s1 /\ re_match r2 s2.
Proof.
  split.
  - intros H. inversion H; subst. eauto.
  - intros (s1 & s2 & -> & H1 & H2). by constructor.
Qed.

Lemma chr_inv (k : cclass) (s : list ascii) :
  re_match (RChr k) s <-> exists c, s = [c] /\ cls_mem k c = true.
Proof.
  split.
  - intros H. inversion H; subst. eauto.
  - intros (c & -> & Hc). by constructor.
Qed.

Lemma deriv_correct (c : ascii) (r : regex) (s : list ascii) :
  re_match (deriv c r) s <-> re_match r (c :: s).
Proof.
  revert s. induction r as [| | k | r1 IH1 r2 IH2 | r1 IH1 r2 IH2 | r1 IH1]; intros s; simpl.
  - split; intros H; inversion H.
  - split; intros H; inversion H.
  - destruct (cls_mem k c) eqn:Hk; split; intros H; inversion H; subst; eauto with js;
      congruence.
  - assert (Hleft : re_match (RCat (deriv c r1) r2) s -> re_match (RCat r1 r2) (c :: s)).
    { rewrite !cat_inv. intros (s1 & s2 & -> & H1 & H2). exists (c :: s1), s2.
      rewrite <- IH1. auto. }
    split.
    + destruct (nullable r1) eqn:Hn; [|exact Hleft].
      intros H. inversion H as [| | | ? ? ? HL | ? ? ? HR | |]; subst; [by apply Hleft|].
      apply (MCat _ _ [] (c :: s)); [by apply nullable_correct | by apply IH2].
    + rewrite cat_inv. intros ([|c' s1] & s2 & Hs & H1 & H2).
      * apply nullable_correct in H1. rewrite H1. simpl in Hs; subst.
        apply MAltR, IH2, H2.
      * injection Hs as <- ->.
        assert (Hd : re_match (RCat (deriv c r1) r2) (s1 ++ s2))
          by (apply MCat; [apply IH1|]; done).
        destruct (nullable r1); [by apply MAltL | done].
  - split; intros H; inversion H; subst.
    + apply MAltL, IH1; done.
    + apply MAltR, IH2; done.
    + apply MAltL, IH1; done.
    + apply MAltR, IH2; done.
  - split.
    + rewrite cat_inv. intros (s1 & s2 & -> & H1 & H2).
      apply (MStarS _ (c :: s1) s2); [by apply IH1 | done].
    + intros H. apply star_cons_inv in H as (s1 & s2 & -> & H1 & H2).
      apply MCat; [apply IH1|]; done.
Qed.

(** The executable matcher decides the language. *)
Theorem re_matches_correct (r : regex) (s : list ascii) :
  re_matches r s = true <-> re_match r s.
Proof.
  revert r. induction s as [|c s IH]; intros r; simpl.
  - apply nullable_correct.
  - rewrite IH. apply deriv_correct.
Qed.

#[export] Instance re_match_dec (r : regex) (s : list ascii) : Decision (re_match r s).
Proof.
  destruct (re_matches r s) eqn:H.
  - left. by apply re_matches_correct.
  - right. intros Hm. apply re_matches_correct in Hm. congruence.
Defined.

Lemma all_in_forallb (k : cclass) (s : list ascii) : all_in k s <-> forallb (cls_mem k) s = true.
Proof. unfold all_in. rewrite List.Forall_forall, forallb_forall. done. Qed.

Lemma all_in_app (k : cclass) (s t : list ascii) : all_in k (s ++ t) <-> all_in k s /\ all_in k t.
Proof. apply Forall_app. Qed.

Lemma repeat_chr_match (n : nat) (k : cclass) (s : list ascii) :
  re_match (RRepeat n (RChr k)) s <-> length s = n /\ all_in k s.
Proof.
  unfold all_in. revert s. induction n as [|n IH]; intros s; simpl.
  - split.
    + intros H. inversion H. auto.
    + intros [Hl _]. destruct s; [constructor | discriminate].
  - rewrite cat_inv. split.
    + intros (s1 & s2 & -> & H1 & H2). apply chr_inv in H1 as (c & -> & Hc).
      apply IH in H2 as [Hl Hall]. simpl. auto.
    + intros [Hl Hall]. destruct s as [|c s]; [discriminate|].
      inversion Hall; subst. exists [c], s. split; [done|].
      split; [by constructor | apply IH; auto].
Qed.

Lemma star_chr_match (k : cclass) (s : list ascii) :
  re_match (RStar (RChr k)) s <-> all_in k s.
Proof.
  unfold all_in. split.
  - remember (RStar (RChr k)) as rr eqn:Hr. intros H.
    induction H; try discriminate; [constructor|].
    injection Hr as ->. apply Forall_app. split; [|auto].
    apply chr_inv in H as (c & -> & Hc). auto.
  - induction s as [|c s IH]; intros Hall; [constructor|].
    inversion Hall; subst. apply (MStarS _ [c] s); [by constructor | auto].
Qed.

Lemma plus_chr_match (k : cclass) (s : list ascii) :
  re_match (RPlus (RChr k)) s <-> s <> [] /\ all_in k s.
Proof.
  unfold RPlus. rewrite cat_inv. split.
  - intros (s1 & s2 & -> & H1 & H2). apply chr_inv in H1 as (c & -> & Hc).
    apply star_chr_match in H2. split; [done|]. by constructor.
  - intros [Hne Hall]. destruct s as [|c s]; [done|].
    inversion Hall; subst. exists [c], s.
    split; [done|]. split; [by constructor | by apply star_chr_match].
Qed.
