(* ===== verification/Patterns.v ===== *)
(** * Patterns: the regular-expression literals of the supplier rules

    [src/lib/validations/suppliers.validation.ts] tests economic-activity
    codes against [/^\d{4}$/] (lines 33 and 58, also
    [add-supplier-dialog.tsx] line 37), NIT numbers against
    [/^\d{9}-\d{1}$/] (line 74) and e-mail addresses against
    [/^[^\s@]+@[^\s@]+\.[^\s@]+$/] (line 68).  This file writes the three
    literals in the syntax of [Regex] and states exactly which strings
    each accepts, as shapes of the code-unit list of the string. *)

From Stdlib Require Import Ascii String List.
From stdpp Require Import base list strings.
From S2P Require Import Prelude Regex.

(** ** The literals *)

(** [/^\d{4}$/] *)
Definition activity_code_re : regex := RRepeat 4 (RChr CDigit).

(** [/^\d{9}-\d{1}$/] *)
Definition nit_re : regex :=
  RCat (RRepeat 9 (RChr CDigit)) (RCat (RChr (CLit "-"%char)) (RRepeat 1 (RChr CDigit))).

(** [[^\s@]] *)
Definition not_space_at : cclass := CNeg (CUnion CSpace (CLit "@"%char)).

(** [/^[^\s@]+@[^\s@]+\.[^\s@]+$/] *)
Definition email_re : regex :=
  RCat (RPlus (RChr not_space_at))
    (RCat (RChr (CLit "@"%char))
       (RCat (RPlus (RChr not_space_at))
          (RCat (RChr (CLit "."%char)) (RPlus (RChr not_space_at))))).

(** ** Helpers *)

Lemma regexp_test_spec (r : regex) (s : string) :
  regexp_test r s = true <-> re_match r (list_ascii_of_string s).
Proof. apply re_matches_correct. Qed.

Lemma lit_match (c : ascii) (s : list ascii) : re_match (RChr (CLit c)) s <-> s = [c].
Proof.
  rewrite chr_inv. split.
  - intros (d & -> & Hd). simpl in Hd. by apply Ascii.eqb_eq in Hd as ->.
  - intros ->. exists c. simpl. split; [done | apply Ascii.eqb_refl].
Qed.

Lemma not_space_at_mem (c : ascii) :
  cls_mem not_space_at c = true <-> is_space c = false /\ c <> "@"%char.
Proof.
  simpl. rewrite negb_true_iff, orb_false_iff.
  destruct (Ascii.eqb_spec c "@"%char); split; intros [? ?]; split; congruence.
Qed.

#[export] Hint Rewrite regexp_test_spec lit_match : js_rw.

(** ** What each literal accepts *)

(** An activity code is accepted iff it is four code units, all decimal
    digits. *)
Lemma activity_code_lang (s : string) :
  regexp_test activity_code_re s = true <->
  String.length s = 4 /\ all_in CDigit (list_ascii_of_string s).
Proof.
  rewrite regexp_test_spec, string_length_list. apply repeat_chr_match.
Qed.

(** A NIT is accepted iff it is nine digits, a hyphen and one digit. *)
Lemma nit_lang (s : string) :
  regexp_test nit_re s = true <->
  exists (a : list ascii) (d : ascii),
    list_ascii_of_string s = a ++ "-"%char :: [d] /\
    length a = 9 /\ all_in CDigit a /\ is_digit d = true.
Proof.
  rewrite regexp_test_spec. unfold nit_re. rewrite cat_inv. split.
  - intros (a & w & -> & Ha & Hw). apply repeat_chr_match in Ha as [Hl Ha].
    apply cat_inv in Hw as (h & t & -> & Hh & Ht). apply lit_match in Hh as ->.
    apply repeat_chr_match in Ht as [Ht Hall].
    destruct t as [|d [|? ?]]; try discriminate. inversion Hall; subst.
    exists a, d. auto.
  - intros (a & d & -> & Hl & Ha & Hd). exists a, ("-"%char :: [d]).
    split; [done|]. split; [by apply repeat_chr_match|].
    apply (MCat _ _ ["-"%char] [d]); [by apply lit_match|].
    apply repeat_chr_match. split; [done|]. by constructor.
Qed.

(** An e-mail address is accepted iff it is a non-empty local part, [@],
    a non-empty domain, a dot and a non-empty suffix, none of the three
    parts containing white space or [@]; the domain may contain dots. *)
Lemma email_lang (s : string) :
  regexp_test email_re s = true <->
  exists l d t : list ascii,
    list_ascii_of_string s = l ++ "@"%char :: d ++ "."%char :: t /\
    l <> [] /\ d <> [] /\ t <> [] /\
    all_in not_space_at l /\ all_in not_space_at d /\ all_in not_space_at t.
Proof.
  rewrite regexp_test_spec. unfold email_re. split.
  - intros H.
    apply cat_inv in H as (l & w1 & -> & Hl & H).
    apply cat_inv in H as (a & w2 & -> & Ha & H). apply lit_match in Ha as ->.
    apply cat_inv in H as (d & w3 & -> & Hd & H).
    apply cat_inv in H as (p & t & -> & Hp & Ht). apply lit_match in Hp as ->.
    apply plus_chr_match in Hl as [? ?], Hd as [? ?], Ht as [? ?].
    exists l, d, t. auto 10.
  - intros (l & d & t & -> & Hl & Hd & Ht & Al & Ad & At).
    apply MCat; [by apply plus_chr_match|].
    apply (MCat _ _ ["@"%char]); [by apply lit_match|].
    apply MCat; [by apply plus_chr_match|].
    apply (MCat _ _ ["."%char]); [by apply lit_match | by apply plus_chr_match].
Qed.

(** An accepted activity code has length four, so the dialog's extra
    [newActivityCode.length === 4] test adds nothing. *)
Lemma activity_code_length (s : string) :
  regexp_test activity_code_re s = true -> String.length s = 4.
Proof. rewrite activity_code_lang. tauto. Qed.
