(* ===== verification/Numbers.v ===== *)
(** * Numbers: [Number.parseInt] and [Number.prototype.toString]

    The reception dialogs turn the quantity input into a number with
    [Number.parseInt(formData.quantity)] and fill the edit form with
    [reception.quantity.toString()].  Both are JavaScript built-ins, not
    code of the repository; they are written out here after ECMAScript
    (sections 21.1.2.13 and 21.1.3.6) on the integers the model uses:

    - [parseInt]: skip leading white space, read one sign, take radix 16
      after a [0x] or [0X] prefix and 10 otherwise, then read the longest
      prefix of digits of the radix.  No digit gives [NaN].  A negative
      zero is [0] here, since [jsnum] has no signed zero.
    - [number_to_string]: [NaN] prints as ["NaN"], an integer in
      decimal with a leading ["-"] when negative, and from 10^21 on in
      exponent notation ([2.5e+21]).  The model's integers are exact, so
      the digits printed there are all the significant ones.

    The round trip [parseInt (number_to_string x) = x] holds below
    10^21 ([below_exponent]). *)

From Stdlib Require Import ZArith String Ascii List Lia.
From stdpp Require Import base tactics.
From Equations Require Import Equations.
From S2P Require Import Prelude Regex.
Import ListNotations.

Module JsNumber.

Local Open Scope Z_scope.
Local Open Scope bool_scope.

(** The value of a code unit as a digit of [radix] (digits, then
    letters in either case), if it is one. *)
Definition digit_value (radix : Z) (c : ascii) : option Z :=
  let n := Z.of_N (N_of_ascii c) in
  let v := if (48 <=? n) && (n <=? 57) then Some (n - 48)
           else if (97 <=? n) && (n <=? 122) then Some (n - 87)
           else if (65 <=? n) && (n <=? 90) then Some (n - 55)
           else None in
  match v with
  | Some d => if d <? radix then Some d else None
  | None => None
  end.

(** The longest prefix of digits of [radix], as digit values. *)
Fixpoint digits_prefix (radix : Z) (l : list ascii) : list Z :=
  match l with
  | [] => []
  | c :: r =>
      match digit_value radix c with
      | Some d => d :: digits_prefix radix r
      | None => []
      end
  end.

Definition value_of (radix : Z) (ds : list Z) : Z :=
  fold_left (fun acc d => acc * radix + d) ds 0.

Fixpoint drop_spaces (l : list ascii) : list ascii :=
  match l with
  | c :: r => if is_space c then drop_spaces r else l
  | [] => []
  end.

(** One leading sign: [true] for ["-"]. *)
Definition split_sign (l : list ascii) : bool * list ascii :=
  match l with
  | c :: r =>
      if Ascii.eqb c "-" then (true, r)
      else if Ascii.eqb c "+" then (false, r)
      else (false, l)
  | [] => (false, [])
  end.

(** The [0x] prefix selects radix 16. *)
Definition split_radix (l : list ascii) : Z * list ascii :=
  match l with
  | c :: x :: r =>
      if Ascii.eqb c "0" && (Ascii.eqb x "x" || Ascii.eqb x "X") then (16, r) else (10, l)
  | _ => (10, l)
  end.

(** [Number.parseInt(s)] *)
Definition parseInt (s : string) : jsnum :=
  let '(neg, l) := split_sign (drop_spaces (list_ascii_of_string s)) in
  let '(radix, l') := split_radix l in
  match digits_prefix radix l' with
  | [] => NaN
  | ds => Num (if neg then - value_of radix ds else value_of radix ds)
  end.

Definition digit_char (d : Z) : ascii := ascii_of_N (Z.to_N (48 + d)).

(** The decimal digits of [n >= 0], most significant first; [fuel]
    bounds the number of digits. *)
Fixpoint decimal_digits (fuel : nat) (n : Z) : list ascii :=
  match fuel with
  | O => []
  | S f => if n <? 10 then [digit_char n] else decimal_digits f (n / 10) ++ [digit_char (n mod 10)]
  end.

(** The bit length of [n], a bound on its number of decimal digits. *)
Definition digits_fuel (n : Z) : nat := Pos.to_nat (Pos.size (Z.to_pos n)).

(** The digits without their trailing zeros. *)
Definition strip_zeros (l : list ascii) : list ascii :=
  rev ((fix drop (r : list ascii) : list ascii :=
          match r with
          | c :: r' => if Ascii.eqb c "0" then drop r' else r
          | [] => []
          end) (rev l)).

(** [n >= 10^21] in exponent notation: the first digit, the remaining
    significant digits after a ["."], then ["e+"] and the exponent. *)
Definition exponent_form (n : Z) : list ascii :=
  match decimal_digits (digits_fuel n) n with
  | d :: rest =>
      let e := Z.of_nat (length rest) in
      d :: (match strip_zeros rest with [] => [] | frac => "."%char :: frac end) ++
        ["e"%char; "+"%char] ++ decimal_digits (digits_fuel e) e
  | [] => []
  end.

(** The digits of [n >= 0]: decimal below 10^21, exponent notation from
    there on (Number::toString, step 6 to 9). *)
Definition magnitude_string (n : Z) : list ascii :=
  if n <? 10 ^ 21 then decimal_digits (digits_fuel n) n else exponent_form n.

(** [x.toString()] *)
Definition number_to_string (x : jsnum) : string :=
  match x with
  | NaN => "NaN"
  | Num z =>
      if z <? 0 then String "-" (string_of_list_ascii (magnitude_string (- z)))
      else string_of_list_ascii (magnitude_string z)
  end.

(** The decimal digits of [n] by well-founded recursion on [n], without
    fuel: the reference [decimal_digits] is checked against. *)
Equations? decimal_digits_wf (n : Z) : list ascii by wf (Z.to_nat n) lt :=
  decimal_digits_wf n with Z_lt_dec n 10 := {
    | left _ := [digit_char n];
    | right _ := decimal_digits_wf (n / 10) ++ [digit_char (n mod 10)] }.
Proof.
  pose proof (Z.div_lt n 10). pose proof (Z.div_pos n 10). lia.
Defined.

(** The numbers [toString] prints in decimal. *)
Definition below_exponent (x : jsnum) : Prop :=
  match x with
  | NaN => True
  | Num z => Z.abs z < 10 ^ 21
  end.

(** ** The round trip *)

Definition is_decimal (c : ascii) : Prop := exists d, 0 <= d < 10 /\ c = digit_char d.

Lemma digit_char_value (d : Z) : 0 <= d < 10 -> digit_value 10 (digit_char d) = Some d.
Proof.
  intros Hd. unfold digit_value, digit_char.
  rewrite N_ascii_embedding by lia. rewrite Z2N.id by lia.
  replace (48 <=? 48 + d) with true by lia. replace (48 + d <=? 57) with true by lia. simpl.
  replace (48 + d - 48) with d by lia. replace (d <? 10) with true by lia. reflexivity.
Qed.

Lemma digit_char_not_space (d : Z) : 0 <= d < 10 -> is_space (digit_char d) = false.
Proof.
  intros Hd. unfold is_space, digit_char. rewrite N_ascii_embedding by lia.
  apply not_true_iff_false. intros H.
  apply Bool.orb_true_iff in H as [H|H]; [apply Bool.orb_true_iff in H as [H|H]|];
    [apply andb_true_iff in H as [H1 H2]; apply N.leb_le in H1, H2 | apply N.eqb_eq in H
    | apply N.eqb_eq in H]; lia.
Qed.

Lemma digit_char_neq (d : Z) (c : ascii) :
  0 <= d < 10 -> (N_of_ascii c < 48 \/ 57 < N_of_ascii c)%N -> Ascii.eqb (digit_char d) c = false.
Proof.
  intros Hd Hc. apply Ascii.eqb_neq. intros Heq.
  apply (f_equal N_of_ascii) in Heq. unfold digit_char in Heq.
  rewrite N_ascii_embedding in Heq by lia. lia.
Qed.

Lemma value_of_snoc (ds : list Z) (d : Z) : value_of 10 (ds ++ [d]) = value_of 10 ds * 10 + d.
Proof. unfold value_of. by rewrite fold_left_app. Qed.

Lemma digits_prefix_app (l : list ascii) (c : ascii) :
  Forall is_decimal (l ++ [c]) ->
  digits_prefix 10 (l ++ [c]) = digits_prefix 10 l ++ digits_prefix 10 [c].
Proof.
  induction l as [|c' l IH]; simpl; intros H; [reflexivity|].
  inversion H as [|? ? (d & Hd & ->) Hl]; subst. rewrite digit_char_value by done.
  simpl. f_equal. by apply IH.
Qed.

(** One step of [decimal_digits] on [n >= 10] with fuel [S f]: [f] is
    still at least 1 and bounds [n / 10]. *)
Lemma digits_step_bound (f : nat) (n : Z) :
  10 <= n -> n < 2 ^ Z.of_nat (S f) -> (1 <= f)%nat /\ 0 <= n / 10 < 2 ^ Z.of_nat f.
Proof.
  intros Hge Hn. split; [destruct f as [|[|[|f]]]; simpl in Hn; lia|].
  split; [apply Z.div_pos; lia|]. apply Z.div_lt_upper_bound; [lia|].
  rewrite Nat2Z.inj_succ, Z.pow_succ_r in Hn by lia. lia.
Qed.

(** With fuel bounding the bit length, [decimal_digits] computes what
    the well-founded [decimal_digits_wf] does. *)
Lemma decimal_digits_fuel_wf (fuel : nat) (n : Z) :
  (1 <= fuel)%nat -> 0 <= n < 2 ^ Z.of_nat fuel -> decimal_digits fuel n = decimal_digits_wf n.
Proof.
  revert n. induction fuel as [|f IH]; intros n Hf Hn; [lia|]. simpl. simp decimal_digits_wf.
  destruct (Z_lt_dec n 10) as [Hlt|Hge]; simpl.
  - by rewrite (proj2 (Z.ltb_lt _ _) Hlt).
  - replace (n <? 10) with false by lia. destruct (digits_step_bound f n) as [Hf3 Hdiv]; [lia | lia |].
    by rewrite IH.
Qed.

Lemma decimal_digits_spec (fuel : nat) (n : Z) :
  (1 <= fuel)%nat -> 0 <= n < 2 ^ Z.of_nat fuel ->
  decimal_digits fuel n <> [] /\ Forall is_decimal (decimal_digits fuel n) /\
  value_of 10 (digits_prefix 10 (decimal_digits fuel n)) = n.
Proof.
  revert n. induction fuel as [|f IH]; intros n Hf Hn; [lia|]. simpl.
  destruct (Z.ltb_spec n 10) as [Hlt|Hge].
  - split; [discriminate|]. split; [repeat constructor; exists n; split; [lia | done]|].
    simpl. rewrite digit_char_value by lia. reflexivity.
  - destruct (digits_step_bound f n) as [Hf3 Hdiv]; [lia | lia |].
    destruct (IH (n / 10) Hf3 Hdiv) as (Hne & Hall & Hval).
    assert (Hm : 0 <= n mod 10 < 10) by (apply Z.mod_pos_bound; lia).
    assert (Hall' : Forall is_decimal (decimal_digits f (n / 10) ++ [digit_char (n mod 10)])).
    { apply Forall_app. split; [done|]. repeat constructor. by exists (n mod 10). }
    split; [by destruct (decimal_digits f (n / 10))|]. split; [done|].
    rewrite digits_prefix_app by done. simpl. rewrite digit_char_value by done.
    rewrite value_of_snoc, Hval. pose proof (Z.div_mod n 10). lia.
Qed.

Lemma digits_fuel_spec (n : Z) : 0 < n -> (1 <= digits_fuel n)%nat /\ n < 2 ^ Z.of_nat (digits_fuel n).
Proof.
  intros Hn. unfold digits_fuel. split; [lia|].
  rewrite positive_nat_Z. destruct n as [|p|p]; try lia. simpl.
  pose proof (Pos.size_gt p) as H. apply Pos2Z.pos_lt_pos in H. by rewrite Pos2Z.inj_pow in H.
Qed.

(** The decimal digits of [n >= 0]: non-empty, all digits, and read back
    as [n]. *)
Lemma to_decimal_spec (n : Z) :
  0 <= n ->
  decimal_digits (digits_fuel n) n <> [] /\ Forall is_decimal (decimal_digits (digits_fuel n) n) /\
  value_of 10 (digits_prefix 10 (decimal_digits (digits_fuel n) n)) = n.
Proof.
  intros Hn. destruct (Z.eq_dec n 0) as [->|Hne]; [repeat split; [discriminate | repeat constructor; by exists 0]|].
  destruct (digits_fuel_spec n) as [Hf Hlt]; [lia|]. apply decimal_digits_spec; [done | lia].
Qed.

Arguments split_radix : simpl never.

(** [parseInt] reads a non-empty run of decimal digits, after an
    optional minus sign, as its value. *)
Lemma parseInt_digits (neg : bool) (l : list ascii) :
  l <> [] -> Forall is_decimal l ->
  parseInt (string_of_list_ascii ((if neg then ["-"%char] else []) ++ l)) =
  Num (if neg then - value_of 10 (digits_prefix 10 l) else value_of 10 (digits_prefix 10 l)).
Proof.
  intros Hne Hall. unfold parseInt. rewrite list_ascii_of_string_of_list_ascii.
  destruct l as [|c l]; [done|]. inversion Hall as [|? ? (d & Hd & ->) Hl]; subst.
  assert (Hsplit : split_radix (digit_char d :: l) = (10, digit_char d :: l)).
  { unfold split_radix. destruct l as [|x r]; [done|].
    inversion Hl as [|? ? (e & He & ->) _]; subst.
    rewrite (digit_char_neq e "x"), (digit_char_neq e "X") by (done || (simpl; lia)).
    by rewrite andb_false_r. }
  destruct neg; simpl.
  - rewrite Hsplit. simpl. rewrite digit_char_value by done. reflexivity.
  - rewrite digit_char_not_space by done. unfold split_sign.
    rewrite (digit_char_neq d "-"), (digit_char_neq d "+") by (done || (simpl; lia)).
    rewrite Hsplit. simpl. rewrite digit_char_value by done. reflexivity.
Qed.

End JsNumber.

(** ** Facts *)

Module JsNumberFacts.

Import JsNumber.

(** [Number.parseInt] reads back what [toString] prints in decimal:
    [parseInt(x.toString())] is [x] below 10^21. *)
Lemma parseInt_toString (x : jsnum) : below_exponent x -> parseInt (number_to_string x) = x.
Proof.
  destruct x as [|z]; [reflexivity|]. simpl. intros Hb. unfold number_to_string, magnitude_string.
  destruct (Z.ltb_spec z 0) as [Hneg|Hpos].
  - replace ((- z <? 10 ^ 21)%Z) with true by lia. destruct (to_decimal_spec (- z)) as (Hne & Hall & Hval); [lia|].
    pose proof (parseInt_digits true _ Hne Hall) as H. simpl in H. rewrite H, Hval. f_equal. lia.
  - replace ((z <? 10 ^ 21)%Z) with true by lia. destruct (to_decimal_spec z) as (Hne & Hall & Hval); [lia|].
    pose proof (parseInt_digits false _ Hne Hall) as H. simpl in H. by rewrite H, Hval.
Qed.

(** What [parseInt] gives on the inputs the dialogs can send: leading
    white space and a sign are read, the first non-digit ends the number
    (so ["1e3"] reads as 1, although a number input holds 1000), a [0x]
    prefix reads hexadecimal, and no digit gives [NaN].  From 10^21 on
    [toString] prints an exponent, which [parseInt] stops at. *)
Lemma parseInt_examples :
  parseInt "  -42abc" = Num (-42) /\ parseInt "1e3" = Num 1 /\ parseInt "0x1F" = Num 31 /\
  parseInt "" = NaN /\ parseInt "abc" = NaN /\ parseInt "007" = Num 7 /\
  number_to_string (Num (25 * 10 ^ 20)%Z) = "2.5e+21"%string /\ parseInt "2.5e+21" = Num 2.
Proof. vm_compute. repeat split. Qed.

(** [decimal_digits] never runs out of fuel: for every [n >= 0] and
    every fuel from the bit length of [n] on (the fuel [toString] gives
    it), it returns what the fuel-free, well-founded [decimal_digits_wf]
    returns. *)
Theorem decimal_digits_fuel_enough (fuel : nat) (n : Z) :
  (0 <= n)%Z -> (digits_fuel n <= fuel)%nat -> decimal_digits fuel n = decimal_digits_wf n.
Proof.
  intros Hn Hf. apply decimal_digits_fuel_wf; [unfold digits_fuel in Hf; lia|]. split; [done|].
  destruct (Z.eq_dec n 0) as [->|Hne]; [apply Z.pow_pos_nonneg; lia|].
  destruct (digits_fuel_spec n) as [_ Hlt]; [lia|].
  eapply Z.lt_le_trans; [exact Hlt|]. apply Z.pow_le_mono_r; lia.
Qed.

End JsNumberFacts.
