(* ===== verification/ProductValidation.v ===== *)
(** * ProductValidation: [src/lib/validations/products.validation.ts]

    The candidate records [CreateProductData] and [UpdateProductData]
    (lines 1-10) and the two static methods of the class
    [ProductValidation] (lines 12-48).  A create candidate has the
    required [code] and [name]; an update is [Partial<CreateProductData>]
    plus an optional [status], so every field is an [option].

    Theorems: the acceptance condition of each method, the number of
    errors a create candidate gets (one per bad field, never two), the
    scenario of the specification, and that a create-valid record passes
    the update check. *)

From Stdlib Require Import String List Arith Lia.
From stdpp Require Import base list strings.
From S2P Require Import Prelude.

Module ProductValidation.

Module CreateProductData.
Record t : Type := mk {
  code : string;
  name : string;
  description : option string;
  laboratory : option string
}.
End CreateProductData.

Module UpdateProductData.
Record t : Type := mk {
  code : option string;
  name : option string;
  description : option string;
  laboratory : option string;
  status : option Prelude.status
}.
End UpdateProductData.

Definition msg_code_required : string := "Código del producto es requerido"%string.
Definition msg_name_required : string := "Nombre del producto es requerido"%string.
Definition msg_code_short : string := "El código debe tener al menos 3 caracteres"%string.
Definition msg_name_short : string := "El nombre debe tener al menos 2 caracteres"%string.

(** [ProductValidation.validateCreate] *)
Definition validateCreate (data : CreateProductData.t) : validation :=
  let code := CreateProductData.code data in
  let name := CreateProductData.name data in
  let errors := [] in
  let errors := push_if (negb (str_truthy code)) msg_code_required errors in
  let errors := push_if (negb (str_truthy name)) msg_name_required errors in
  let errors := push_if (str_truthy code && (String.length code <? 3)) msg_code_short errors in
  let errors := push_if (str_truthy name && (String.length name <? 2)) msg_name_short errors in
  result_of errors.

(** [ProductValidation.validateUpdate] *)
Definition validateUpdate (data : UpdateProductData.t) : validation :=
  let errors := [] in
  let errors := push_if (opt_and (UpdateProductData.code data) (fun c => String.length c <? 3))
                  msg_code_short errors in
  let errors := push_if (opt_and (UpdateProductData.name data) (fun n => String.length n <? 2))
                  msg_name_short errors in
  result_of errors.

#[export] Instance product_validation :
  EntityValidation CreateProductData.t UpdateProductData.t :=
  {| validate_create := validateCreate; validate_update := validateUpdate |}.

(** ** Abstract acceptance conditions *)

(** A product may be created iff its code has at least three code units
    and its name at least two. *)
Definition create_ok (data : CreateProductData.t) : Prop :=
  3 <= String.length (CreateProductData.code data) /\
  2 <= String.length (CreateProductData.name data).

(** A non-empty [s] of at least [n] code units, or no field at all; an
    empty string passes too, since it is falsy. *)
Definition field_ok (n : nat) (o : option string) : Prop :=
  forall s, o = Some s -> s <> EmptyString -> n <= String.length s.

Definition update_ok (data : UpdateProductData.t) : Prop :=
  field_ok 3 (UpdateProductData.code data) /\ field_ok 2 (UpdateProductData.name data).

(** ** Lemmas *)

Lemma opt_len_check_false (n : nat) (o : option string) :
  opt_and o (fun s => String.length s <? n) = false <-> field_ok n o.
Proof.
  unfold field_ok. destruct o as [s|]; simpl.
  - destruct (str_truthy s) eqn:Ht; simpl.
    + apply str_truthy_true in Ht. rewrite Nat.ltb_ge. split.
      * intros H s' [= <-] _. done.
      * intros H. by apply H.
    + apply str_truthy_false in Ht as ->. split; [|done]. intros _ s' [= <-]. done.
  - split; [intros _ s' [=] | done].
Qed.

Lemma nonempty_of_length (s : string) (n : nat) : 0 < n -> n <= String.length s -> s <> EmptyString.
Proof. intros Hn Hl ->. simpl in Hl. lia. Qed.

Lemma str_truthy_of_length (s : string) (n : nat) :
  0 < n -> n <= String.length s -> str_truthy s = true.
Proof. intros Hn Hl. apply str_truthy_true. by apply (nonempty_of_length s n). Qed.

(** ** Theorems *)

(** Helper: the create check decides [create_ok]. *)
Lemma product_create_iff (data : CreateProductData.t) :
  isValid (validateCreate data) = true <-> create_ok data.
Proof.
  destruct data as [code name desc lab]. unfold validateCreate, create_ok.
  open_checks; simpl.
  destruct code, name; simpl; split_ltb; simpl; split; intros; try discriminate; try done; lia.
Qed.

(** C3: [validateCreate] accepts a candidate exactly when its code has at
    least three code units and its name at least two: the "required"
    checks are subsumed by the length checks. *)
Theorem product_create_correct (data : CreateProductData.t) :
  isValid (validateCreate data) = true <-> create_ok data.
Proof. apply product_create_iff. Qed.

(** a create candidate gets one error per short field, never both the
    "required" and the "too short" message for the same field. *)
Theorem product_create_error_count (data : CreateProductData.t) :
  length (errors (validateCreate data)) =
  (if String.length (CreateProductData.code data) <? 3 then 1 else 0) +
  (if String.length (CreateProductData.name data) <? 2 then 1 else 0).
Proof.
  destruct data as [code name desc lab]. unfold validateCreate. open_checks.
  rewrite !length_app. destruct code, name; simpl; split_ltb; reflexivity.
Qed.

(** Helper: the update check decides [update_ok]. *)
Lemma product_update_iff (data : UpdateProductData.t) :
  isValid (validateUpdate data) = true <-> update_ok data.
Proof.
  unfold validateUpdate, update_ok. open_checks; simpl.
  rewrite <- !opt_len_check_false.
  destruct (opt_and _ _), (opt_and _ _); simpl; split; intros H; try discriminate;
    try done; by destruct H.
Qed.

(** [validateUpdate] accepts a partial record exactly when each field it
    carries non-empty is long enough. *)
Theorem product_update_correct (data : UpdateProductData.t) :
  isValid (validateUpdate data) = true <-> update_ok data.
Proof. apply product_update_iff. Qed.

(** the update of a record that would be valid on creation is valid:
    the update check is weaker than the create check on every field. *)
Theorem product_create_implies_update (data : CreateProductData.t) (st : option Prelude.status) :
  isValid (validateCreate data) = true ->
  isValid (validateUpdate (UpdateProductData.mk
    (Some (CreateProductData.code data)) (Some (CreateProductData.name data))
    (CreateProductData.description data) (CreateProductData.laboratory data) st)) = true.
Proof.
  rewrite product_create_iff, product_update_iff.
  intros [Hc Hn]. split; intros s [= <-] _; done.
Qed.

(** an update may blank the required code and name: an empty string is
    falsy, so neither length check runs. *)
Theorem product_update_accepts_empty_fields :
  isValid (validateUpdate (UpdateProductData.mk (Some ""%string) (Some ""%string) None None None)) = true.
Proof. reflexivity. Qed.

(** the scenario of the specification: code ["ME"] is rejected, name
    ["A"] is rejected, [MED001] with a real name is accepted with no
    error. *)
Theorem product_spec_scenario :
  errors (validateCreate (CreateProductData.mk "ME"%string "Acetaminofén"%string None None)) = [msg_code_short] /\
  errors (validateCreate (CreateProductData.mk "MED001"%string "A"%string None None)) = [msg_name_short] /\
  validateCreate (CreateProductData.mk "MED001"%string "Acetaminofén"%string None None) = mk_validation true [].
Proof. split; [|split]; reflexivity. Qed.

#[export] Instance product_validation_laws :
  EntityValidationLaws CreateProductData.t UpdateProductData.t.
Proof. split; intros d; apply result_of_valid. Qed.

Lemma product_create_implies_update_witness :
  create_ok (CreateProductData.mk "MED001"%string "Acetaminofén"%string None None) /\
  isValid (validateUpdate (UpdateProductData.mk (Some "MED001"%string) (Some "Acetaminofén"%string) None None (Some active))) = true.
Proof.
  split; [split; simpl; lia|].
  apply (product_create_implies_update (CreateProductData.mk "MED001"%string "Acetaminofén"%string None None) (Some active)).
  reflexivity.
Defined.

End ProductValidation.
