(* ===== verification/SupplierValidation.v ===== *)
(** * SupplierValidation: [src/lib/validations/suppliers.validation.ts]

    The candidate records (lines 1-14) and the class [SupplierValidation]
    (lines 16-77): [validateCreate], [validateUpdate] and the private
    helpers [isValidEmail] and [isValidNIT].  The [for .. of] loop over
    the economic-activity codes is the fixpoint [check_activity_codes],
    which threads the error list the way the loop body pushes onto it.

    [id_type] is a [string]: the union type ["CC" | "NIT" | "CE" | "PP"]
    is erased at run time, and the add dialog starts it at [""], the
    value the [!data.id_type] test is there to catch.

    Theorems: the error list of each method as the concatenation of what
    each group of checks pushes; the abstract acceptance condition, with
    the accepted NIT, e-mail and activity-code shapes of [Patterns]; the
    create check as the required checks around the update check; and the
    scenarios of the specification. *)

From Stdlib Require Import Ascii String List Arith Lia.
From stdpp Require Import base list strings.
From S2P Require Import Prelude Regex Patterns.

Module SupplierValidation.

Module CreateSupplierData.
Record t : Type := mk {
  id_type : string;
  id_number : string;
  name : string;
  address : option string;
  phone : option string;
  email : option string;
  contact_person : option string;
  economic_activity : option (list string)
}.
End CreateSupplierData.

Module UpdateSupplierData.
Record t : Type := mk {
  id_type : option string;
  id_number : option string;
  name : option string;
  address : option string;
  phone : option string;
  email : option string;
  contact_person : option string;
  economic_activity : option (list string);
  status : option Prelude.status
}.
End UpdateSupplierData.

Definition msg_id_type_required : string := "Tipo de documento es requerido"%string.
Definition msg_id_number_required : string := "Número de documento es requerido"%string.
Definition msg_name_required : string := "Nombre del proveedor es requerido"%string.
Definition msg_email_invalid : string := "Formato de email inválido"%string.
Definition msg_nit_invalid : string := "Formato de NIT inválido"%string.

(** [`Código de actividad económica inválido: ${code}`] *)
Definition msg_activity_invalid (code : string) : string :=
  ("Código de actividad económica inválido: " ++ code)%string.

(** [SupplierValidation.isValidEmail] *)
Definition isValidEmail (email : string) : bool := regexp_test email_re email.

(** [SupplierValidation.isValidNIT] *)
Definition isValidNIT (nit : string) : bool := regexp_test nit_re nit.

(** [for (const code of data.economic_activity) { if (!/^\d{4}$/.test(code))
    errors.push(..) }] *)
Fixpoint check_activity_codes (codes : list string) (errors : list string) : list string :=
  match codes with
  | [] => errors
  | code :: rest =>
      check_activity_codes rest
        (push_if (negb (regexp_test activity_code_re code)) (msg_activity_invalid code) errors)
  end.

(** [if (data.economic_activity) { for ... }]: an array is always truthy. *)
Definition check_economic_activity (ea : option (list string)) (errors : list string) : list string :=
  match ea with
  | Some codes => check_activity_codes codes errors
  | None => errors
  end.

(** [SupplierValidation.validateCreate] *)
Definition validateCreate (data : CreateSupplierData.t) : validation :=
  let id_type := CreateSupplierData.id_type data in
  let id_number := CreateSupplierData.id_number data in
  let errors := [] in
  let errors := push_if (negb (str_truthy id_type)) msg_id_type_required errors in
  let errors := push_if (negb (str_truthy id_number)) msg_id_number_required errors in
  let errors := push_if (negb (str_truthy (CreateSupplierData.name data))) msg_name_required errors in
  let errors := push_if (opt_and (CreateSupplierData.email data) (fun e => negb (isValidEmail e)))
                  msg_email_invalid errors in
  let errors := check_economic_activity (CreateSupplierData.economic_activity data) errors in
  let errors := push_if (String.eqb id_type "NIT" && negb (isValidNIT id_number))
                  msg_nit_invalid errors in
  result_of errors.

(** [SupplierValidation.validateUpdate] *)
Definition validateUpdate (data : UpdateSupplierData.t) : validation :=
  let errors := [] in
  let errors := push_if (opt_and (UpdateSupplierData.email data) (fun e => negb (isValidEmail e)))
                  msg_email_invalid errors in
  let errors := check_economic_activity (UpdateSupplierData.economic_activity data) errors in
  result_of errors.

#[export] Instance supplier_validation :
  EntityValidation CreateSupplierData.t UpdateSupplierData.t :=
  {| validate_create := validateCreate; validate_update := validateUpdate |}.

#[export] Instance supplier_validation_laws :
  EntityValidationLaws CreateSupplierData.t UpdateSupplierData.t.
Proof. split; intros d; apply result_of_valid. Qed.

(** The partial record carrying every field of a create candidate. *)
Definition to_update (data : CreateSupplierData.t) (st : option Prelude.status) : UpdateSupplierData.t :=
  UpdateSupplierData.mk (Some (CreateSupplierData.id_type data)) (Some (CreateSupplierData.id_number data))
    (Some (CreateSupplierData.name data)) (CreateSupplierData.address data)
    (CreateSupplierData.phone data) (CreateSupplierData.email data)
    (CreateSupplierData.contact_person data) (CreateSupplierData.economic_activity data) st.

(** ** Abstract acceptance conditions *)

(** The codes the loop rejects, in order. *)
Definition bad_codes (codes : list string) : list string :=
  List.filter (fun c => negb (regexp_test activity_code_re c)) codes.

(** A well-formed activity code: four decimal digits. *)
Definition code_shape (c : string) : Prop :=
  String.length c = 4 /\ all_in CDigit (list_ascii_of_string c).

(** A well-formed NIT: nine digits, a hyphen, one digit. *)
Definition nit_shape (s : string) : Prop :=
  exists (a : list ascii) (d : ascii),
    list_ascii_of_string s = a ++ "-"%char :: [d] /\
    length a = 9 /\ all_in CDigit a /\ is_digit d = true.

(** A well-formed e-mail address: [local@domain.suffix], no part empty,
    no white space or [@] inside a part. *)
Definition email_shape (s : string) : Prop :=
  exists l d t : list ascii,
    list_ascii_of_string s = l ++ "@"%char :: d ++ "."%char :: t /\
    l <> [] /\ d <> [] /\ t <> [] /\
    all_in not_space_at l /\ all_in not_space_at d /\ all_in not_space_at t.

(** The checks shared by create and update. *)
Definition fields_ok (email : option string) (ea : option (list string)) : Prop :=
  (forall e, email = Some e -> e <> EmptyString -> email_shape e) /\
  (forall codes, ea = Some codes -> Forall code_shape codes).

Definition create_ok (data : CreateSupplierData.t) : Prop :=
  CreateSupplierData.id_type data <> EmptyString /\
  CreateSupplierData.id_number data <> EmptyString /\
  CreateSupplierData.name data <> EmptyString /\
  fields_ok (CreateSupplierData.email data) (CreateSupplierData.economic_activity data) /\
  (CreateSupplierData.id_type data = "NIT"%string -> nit_shape (CreateSupplierData.id_number data)).

Definition update_ok (data : UpdateSupplierData.t) : Prop :=
  fields_ok (UpdateSupplierData.email data) (UpdateSupplierData.economic_activity data).

(** The candidate with its activity codes replaced. *)
Definition with_activity (data : CreateSupplierData.t) (codes : list string) : CreateSupplierData.t :=
  CreateSupplierData.mk (CreateSupplierData.id_type data) (CreateSupplierData.id_number data)
    (CreateSupplierData.name data) (CreateSupplierData.address data) (CreateSupplierData.phone data)
    (CreateSupplierData.email data) (CreateSupplierData.contact_person data) (Some codes).

(** ** Lemmas on the loop and the helpers *)

Lemma check_activity_codes_app (codes : list string) (errs : list string) :
  check_activity_codes codes errs = errs ++ map msg_activity_invalid (bad_codes codes).
Proof.
  revert errs. unfold bad_codes.
  induction codes as [|c codes IH]; intros errs; simpl; [by rewrite app_nil_r|].
  rewrite IH, push_if_nil. destruct (regexp_test activity_code_re c); simpl;
    by rewrite ?app_nil_r, <- ?app_assoc.
Qed.

Lemma check_economic_activity_app (ea : option (list string)) (errs : list string) :
  check_economic_activity ea errs =
  errs ++ map msg_activity_invalid (match ea with Some codes => bad_codes codes | None => [] end).
Proof.
  destruct ea as [codes|]; simpl; [apply check_activity_codes_app | by rewrite app_nil_r].
Qed.

Lemma bad_codes_nil (codes : list string) : bad_codes codes = [] <-> Forall code_shape codes.
Proof.
  unfold bad_codes, code_shape.
  induction codes as [|c codes IH]; simpl; [split; auto|].
  rewrite Forall_cons, <- IH, <- activity_code_lang.
  destruct (regexp_test activity_code_re c); simpl; intuition congruence.
Qed.

Lemma exists_bad_code (codes : list string) :
  Exists (fun c => ~ code_shape c) codes <-> ~ Forall code_shape codes.
Proof.
  rewrite <- bad_codes_nil. unfold bad_codes, code_shape.
  induction codes as [|c codes IH]; simpl.
  - rewrite Exists_nil. tauto.
  - rewrite Exists_cons, IH, <- activity_code_lang.
    destruct (regexp_test activity_code_re c); simpl; intuition congruence.
Qed.

Lemma isValidEmail_spec (e : string) : isValidEmail e = true <-> email_shape e.
Proof. apply email_lang. Qed.

Lemma isValidNIT_spec (s : string) : isValidNIT s = true <-> nit_shape s.
Proof. apply nit_lang. Qed.

Lemma email_check_false (email : option string) :
  opt_and email (fun e => negb (isValidEmail e)) = false <->
  (forall e, email = Some e -> e <> EmptyString -> email_shape e).
Proof.
  destruct email as [e|]; simpl; [|split; [intros _ ? [=] | done]].
  split.
  - intros H e' [= <-] Hne. apply str_truthy_true in Hne. rewrite Hne in H.
    by apply isValidEmail_spec, negb_false_iff.
  - intros H. destruct (str_truthy e) eqn:Ht; [|done]. simpl.
    apply negb_false_iff, isValidEmail_spec, H; [done|]. by apply str_truthy_true.
Qed.

Lemma map_msg_nil (l : list string) : map msg_activity_invalid l = [] <-> l = [].
Proof. destruct l; simpl; split; congruence. Qed.

Lemma check_fields_nil (email : option string) (ea : option (list string)) :
  (if opt_and email (fun e => negb (isValidEmail e)) then [msg_email_invalid] else []) ++
  map msg_activity_invalid (match ea with Some codes => bad_codes codes | None => [] end) = [] <->
  fields_ok email ea.
Proof.
  unfold fields_ok. rewrite app_nil, map_msg_nil, <- email_check_false.
  destruct (opt_and _ _); [split; intros [H _]; discriminate|].
  destruct ea as [codes|].
  - rewrite bad_codes_nil. split; intros [_ H]; split; try done.
    + by intros ? [= <-].
    + by apply H.
  - split; intros _; split; try done.
Qed.

Lemma nit_check_false (id_type id_number : string) :
  String.eqb id_type "NIT" && negb (isValidNIT id_number) = false <->
  (id_type = "NIT"%string -> nit_shape id_number).
Proof.
  rewrite <- isValidNIT_spec. destruct (String.eqb_spec id_type "NIT"); simpl;
    destruct (isValidNIT id_number); simpl; intuition congruence.
Qed.

(** ** Theorems *)

(** C8: [isValidNIT] accepts exactly nine decimal digits, a hyphen and
    one decimal digit. *)
Theorem isValidNIT_correct (s : string) :
  isValidNIT s = true <->
  exists (digits : string) (d : ascii),
    s = (digits ++ String "-" (String d EmptyString))%string /\
    String.length digits = 9 /\ forallb is_digit (list_ascii_of_string digits) = true /\
    is_digit d = true.
Proof.
  rewrite isValidNIT_spec. unfold nit_shape. split.
  - intros (a & d & Hs & Hl & Ha & Hd). exists (string_of_list_ascii a), d.
    rewrite string_length_list, list_ascii_of_string_of_list_ascii, <- (all_in_forallb CDigit).
    split_and!; [|done..]. apply list_ascii_of_string_inj.
    by rewrite Hs, list_ascii_of_string_append, list_ascii_of_string_of_list_ascii.
  - intros (digits & d & -> & Hl & Ha & Hd). exists (list_ascii_of_string digits), d.
    rewrite <- string_length_list, (all_in_forallb CDigit).
    split_and!; [|done..]. by rewrite list_ascii_of_string_append.
Qed.

(** C9: [isValidEmail] accepts exactly [local@domain.suffix] with the
    three parts non-empty and free of white space and [@]; the domain may
    itself contain dots. *)
Theorem isValidEmail_correct (s : string) :
  isValidEmail s = true <->
  exists l d t : string,
    s = (l ++ "@" ++ d ++ "." ++ t)%string /\
    l <> EmptyString /\ d <> EmptyString /\ t <> EmptyString /\
    forallb (cls_mem not_space_at) (list_ascii_of_string (l ++ d ++ t)) = true.
Proof.
  rewrite isValidEmail_spec. unfold email_shape. setoid_rewrite <- all_in_forallb. split.
  - intros (l & d & t & Hs & Hl & Hd & Ht & Al & Ad & At).
    exists (string_of_list_ascii l), (string_of_list_ascii d), (string_of_list_ascii t).
    rewrite !string_nonempty_list, !list_ascii_of_string_append, !list_ascii_of_string_of_list_ascii,
      !all_in_app.
    split_and!; [|done..]. apply list_ascii_of_string_inj.
    by rewrite Hs, !list_ascii_of_string_append, !list_ascii_of_string_of_list_ascii.
  - intros (l & d & t & -> & Hl & Hd & Ht & A).
    rewrite !list_ascii_of_string_append, !all_in_app in A. destruct A as (Al & Ad & At).
    exists (list_ascii_of_string l), (list_ascii_of_string d), (list_ascii_of_string t).
    rewrite <- !string_nonempty_list.
    split_and!; [|done..]. by rewrite !list_ascii_of_string_append.
Qed.

(** Helper: the create errors, split by check. *)
Lemma supplier_create_errors_eq (data : CreateSupplierData.t) (st : option Prelude.status) :
  errors (validateCreate data) =
  (if str_truthy (CreateSupplierData.id_type data) then [] else [msg_id_type_required]) ++
  (if str_truthy (CreateSupplierData.id_number data) then [] else [msg_id_number_required]) ++
  (if str_truthy (CreateSupplierData.name data) then [] else [msg_name_required]) ++
  errors (validateUpdate (to_update data st)) ++
  (if String.eqb (CreateSupplierData.id_type data) "NIT" &&
      negb (isValidNIT (CreateSupplierData.id_number data))
   then [msg_nit_invalid] else []).
Proof.
  unfold validateCreate, validateUpdate, to_update. open_checks; simpl.
  rewrite !check_economic_activity_app.
  destruct (str_truthy _), (str_truthy _), (str_truthy _); simpl;
    by rewrite <- !app_assoc.
Qed.

(** the create check is the three required-field checks, then exactly
    the update check of the same fields, then the NIT check. *)
Theorem supplier_create_errors (data : CreateSupplierData.t) (st : option Prelude.status) :
  errors (validateCreate data) =
  (if str_truthy (CreateSupplierData.id_type data) then [] else [msg_id_type_required]) ++
  (if str_truthy (CreateSupplierData.id_number data) then [] else [msg_id_number_required]) ++
  (if str_truthy (CreateSupplierData.name data) then [] else [msg_name_required]) ++
  errors (validateUpdate (to_update data st)) ++
  (if String.eqb (CreateSupplierData.id_type data) "NIT" &&
      negb (isValidNIT (CreateSupplierData.id_number data))
   then [msg_nit_invalid] else []).
Proof. apply supplier_create_errors_eq. Qed.

(** Helper: the create check decides [create_ok]. *)
Lemma supplier_create_iff (data : CreateSupplierData.t) :
  isValid (validateCreate data) = true <-> create_ok data.
Proof.
  unfold validateCreate, create_ok; open_checks.
  rewrite check_economic_activity_app, <- !app_assoc, !app_nil.
  rewrite <- nit_check_false.
  destruct data as [id_type id_number name ad ph email cp ea]; simpl.
  rewrite <- (check_fields_nil email ea), !app_nil.
  rewrite <- !str_truthy_true.
  destruct (str_truthy id_type), (str_truthy id_number), (str_truthy name),
    (String.eqb id_type "NIT" && _); simpl; intuition congruence.
Qed.

(** C1: [validateCreate] accepts a candidate exactly when the required
    fields are non-empty, a non-empty e-mail has the shape
    [local@domain.suffix], every activity code is four digits, and a NIT
    is nine digits, a hyphen and a check digit. *)
Theorem supplier_create_correct (data : CreateSupplierData.t) :
  isValid (validateCreate data) = true <-> create_ok data.
Proof. apply supplier_create_iff. Qed.

(** Helper: the update check decides [update_ok]. *)
Lemma supplier_update_iff (data : UpdateSupplierData.t) :
  isValid (validateUpdate data) = true <-> update_ok data.
Proof.
  unfold validateUpdate, update_ok. open_checks.
  rewrite check_economic_activity_app. simpl.
  apply check_fields_nil.
Qed.

(** C35: the update check accepts a partial record exactly when its e-mail,
    if non-empty, and its activity codes, if present, are well formed; it
    never asks for the required fields. *)
Theorem supplier_update_correct (data : UpdateSupplierData.t) :
  isValid (validateUpdate data) = true <-> update_ok data.
Proof. apply supplier_update_iff. Qed.

(** C10: on the economic-activity codes alone, the update check reports one
    message per non-conforming code, naming it, in the order of the list;
    it fails iff some code is not four digits. *)
Theorem supplier_activity_errors (codes : list string) :
  let data := UpdateSupplierData.mk None None None None None None None (Some codes) None in
  errors (validateUpdate data) = map msg_activity_invalid (bad_codes codes) /\
  (isValid (validateUpdate data) = false <-> Exists (fun c => ~ code_shape c) codes).
Proof.
  cbv zeta. split.
  - unfold validateUpdate. open_checks. simpl. by rewrite check_activity_codes_app.
  - rewrite <- not_true_iff_false, supplier_update_iff. unfold update_ok, fields_ok; simpl.
    rewrite exists_bad_code. split.
    + intros H Hall. apply H. split; [by intros ? ? | by intros ? [= <-]].
    + intros H [_ Hc]. by apply H, Hc.
Qed.

(** a candidate without a name is rejected with the missing-name
    message. *)
Theorem supplier_missing_name_rejected (data : CreateSupplierData.t) :
  CreateSupplierData.name data = EmptyString ->
  isValid (validateCreate data) = false /\ In msg_name_required (errors (validateCreate data)).
Proof.
  intros Hn. assert (Hin : In msg_name_required (errors (validateCreate data))).
  { rewrite (supplier_create_errors_eq data None), Hn. simpl.
    apply in_or_app; right. apply in_or_app; right. left. done. }
  split; [|done]. unfold validateCreate. cbv zeta.
  apply (isValid_false_of_In _ msg_name_required). exact Hin.
Qed.

Lemma supplier_missing_name_witness :
  CreateSupplierData.name (CreateSupplierData.mk "NIT" "900123456-1" "" None None None None None) = EmptyString /\
  isValid (validateCreate (CreateSupplierData.mk "NIT" "900123456-1" "" None None None None None)) = false.
Proof.
  split; [reflexivity|].
  exact (proj1 (supplier_missing_name_rejected (CreateSupplierData.mk "NIT" "900123456-1" "" None None None None None) eq_refl)).
Defined.

(** the NIT rule of the specification: [900123456-1] is accepted and
    [900123456] (no check digit) is rejected with the NIT message, while
    the same digits under another document type are not format-checked. *)
Theorem supplier_nit_scenario :
  validateCreate (CreateSupplierData.mk "NIT" "900123456-1" "Droguería" None None None None None)
    = mk_validation true [] /\
  validateCreate (CreateSupplierData.mk "NIT" "900123456" "Droguería" None None None None None)
    = mk_validation false [msg_nit_invalid] /\
  validateCreate (CreateSupplierData.mk "CC" "900123456" "Droguería" None None None None None)
    = mk_validation true [].
Proof. split; [|split]; vm_compute; reflexivity. Qed.

(** repeated activity codes are not rejected: a candidate whose code
    list is repeated is accepted exactly when the candidate with the list
    once is. *)
Theorem supplier_duplicate_codes_accepted (data : CreateSupplierData.t) (codes : list string) :
  isValid (validateCreate (with_activity data (codes ++ codes))) =
  isValid (validateCreate (with_activity data codes)).
Proof.
  apply eq_bool_prop_intro. rewrite !Is_true_true, !supplier_create_iff.
  unfold create_ok, fields_ok; simpl.
  split; intros (? & ? & ? & [He Hc] & ?); repeat split; try done.
  - intros ? [= <-]. specialize (Hc _ eq_refl). by apply Forall_app in Hc as [? _].
  - intros ? [= <-]. specialize (Hc _ eq_refl). by apply Forall_app.
Qed.

End SupplierValidation.
