(* ===== verification/ReceptionValidation.v ===== *)
(** * ReceptionValidation: [src/lib/validations/receptions.validation.ts]

    The candidate records (lines 1-14) and the class [ReceptionValidation]
    (lines 16-56).  The code reads the ambient clock and parses dates:

    - [new Date(s)] is the section parameter [parse_date]: it returns the
      time value of the parsed date in milliseconds, or [NaN] when the
      string does not parse (the JavaScript parser is not code of the
      repository, so every theorem holds for any parser);
    - each [new Date()] is one read of the clock: [validateCreate] reads
      it twice, [now_r] for the reception-date rule (line 29) and [now_e]
      for the expiration rule (line 34); [validateUpdate] once.

    [quantity] is a [jsnum]: the dialogs produce it with
    [Number.parseInt], which gives [NaN] on an empty field.

    Theorems: the acceptance condition of both methods; the quantity rule
    and the strict-future expiration rule on every branch; the behaviour
    on dates that do not parse and on a [NaN] quantity. *)

From Stdlib Require Import String List ZArith Lia.
From stdpp Require Import base list strings.
From S2P Require Import Prelude.

Module ReceptionValidation.

Module CreateReceptionData.
Record t : Type := mk {
  reception_date : string;
  product_id : string;
  supplier_id : string;
  invoice_number : string;
  quantity : jsnum;
  batch_number : option string;
  invima_registration : option string;
  expiration_date : option string;
  presentation_state : string;
  notes : option string
}.
End CreateReceptionData.

Module UpdateReceptionData.
Record t : Type := mk {
  reception_date : option string;
  product_id : option string;
  supplier_id : option string;
  invoice_number : option string;
  quantity : option jsnum;
  batch_number : option string;
  invima_registration : option string;
  expiration_date : option string;
  presentation_state : option string;
  notes : option string
}.
End UpdateReceptionData.

Definition msg_date_required : string := "Fecha de recepción es requerida"%string.
Definition msg_product_required : string := "Producto es requerido"%string.
Definition msg_supplier_required : string := "Proveedor es requerido"%string.
Definition msg_invoice_required : string := "Número de factura es requerido"%string.
Definition msg_quantity : string := "Cantidad debe ser mayor a 0"%string.
Definition msg_state_required : string := "Estado de presentación es requerido"%string.
Definition msg_future_reception : string := "La fecha de recepción no puede ser futura"%string.
Definition msg_expiration : string := "La fecha de vencimiento debe ser futura"%string.

(** [!data.quantity || data.quantity <= 0] *)
Definition quantity_invalid (q : jsnum) : bool := negb (num_truthy q) || js_le q (Num 0).

(** [data.quantity !== undefined && data.quantity <= 0] *)
Definition quantity_update_invalid (q : option jsnum) : bool :=
  match q with
  | Some q => js_le q (Num 0)
  | None => false
  end.

(** A date parser for the examples: it knows two instants (2025-01-01
    and 2025-01-02 at midnight UTC, in milliseconds) and nothing else. *)
Definition example_parse (s : string) : jsnum :=
  if String.eqb s "2025-01-01" then Num 1735689600000
  else if String.eqb s "2025-01-02" then Num 1735776000000
  else NaN.

(** ** Witnesses *)

Definition example_reception (exp : option string) (q : jsnum) : CreateReceptionData.t :=
  CreateReceptionData.mk "2025-01-01" "p1" "s1" "F-001" q None None exp "bueno" None.

Section WithDateParser.

(** [new Date(s)], as a time value. *)
Context (parse_date : string -> jsnum).

(** [data.expiration_date && new Date(data.expiration_date) <= new Date()] *)
Definition expiration_invalid (now : Z) (exp : option string) : bool :=
  opt_and exp (fun e => js_le (parse_date e) (Num now)).

(** [ReceptionValidation.validateCreate] *)
Definition validateCreate (now_r now_e : Z) (data : CreateReceptionData.t) : validation :=
  let rd := CreateReceptionData.reception_date data in
  let errors := [] in
  let errors := push_if (negb (str_truthy rd)) msg_date_required errors in
  let errors := push_if (negb (str_truthy (CreateReceptionData.product_id data))) msg_product_required errors in
  let errors := push_if (negb (str_truthy (CreateReceptionData.supplier_id data))) msg_supplier_required errors in
  let errors := push_if (negb (str_truthy (CreateReceptionData.invoice_number data))) msg_invoice_required errors in
  let errors := push_if (quantity_invalid (CreateReceptionData.quantity data)) msg_quantity errors in
  let errors := push_if (negb (str_truthy (CreateReceptionData.presentation_state data))) msg_state_required errors in
  let errors := push_if (str_truthy rd && js_gt (parse_date rd) (Num now_r)) msg_future_reception errors in
  let errors := push_if (expiration_invalid now_e (CreateReceptionData.expiration_date data)) msg_expiration errors in
  result_of errors.

(** [ReceptionValidation.validateUpdate] *)
Definition validateUpdate (now_e : Z) (data : UpdateReceptionData.t) : validation :=
  let errors := [] in
  let errors := push_if (quantity_update_invalid (UpdateReceptionData.quantity data)) msg_quantity errors in
  let errors := push_if (expiration_invalid now_e (UpdateReceptionData.expiration_date data)) msg_expiration errors in
  result_of errors.

(** ** Abstract acceptance conditions *)

(** The expiration rule: a non-empty expiration date that parses is
    strictly after the clock; one that does not parse passes. *)
Definition expiration_ok (now : Z) (exp : option string) : Prop :=
  forall e t, exp = Some e -> e <> EmptyString -> parse_date e = Num t -> (now < t)%Z.

Definition create_ok (now_r now_e : Z) (data : CreateReceptionData.t) : Prop :=
  CreateReceptionData.reception_date data <> EmptyString /\
  CreateReceptionData.product_id data <> EmptyString /\
  CreateReceptionData.supplier_id data <> EmptyString /\
  CreateReceptionData.invoice_number data <> EmptyString /\
  (exists z, CreateReceptionData.quantity data = Num z /\ (0 < z)%Z) /\
  CreateReceptionData.presentation_state data <> EmptyString /\
  (forall t, parse_date (CreateReceptionData.reception_date data) = Num t -> (t <= now_r)%Z) /\
  expiration_ok now_e (CreateReceptionData.expiration_date data).

Definition update_ok (now_e : Z) (data : UpdateReceptionData.t) : Prop :=
  (forall q, UpdateReceptionData.quantity data = Some q -> js_le q (Num 0) = false) /\
  expiration_ok now_e (UpdateReceptionData.expiration_date data).

(** ** Lemmas *)

Lemma quantity_invalid_false (q : jsnum) :
  quantity_invalid q = false <-> exists z, q = Num z /\ (0 < z)%Z.
Proof.
  unfold quantity_invalid. destruct q as [|z]; simpl.
  - split; [discriminate | by intros (? & ? & _)].
  - rewrite orb_false_iff, negb_false_iff, negb_true_iff, Z.eqb_neq, Z.leb_gt. split.
    + intros [_ H]. eauto.
    + intros (z' & [= <-] & H). lia.
Qed.

Lemma expiration_invalid_false (now : Z) (exp : option string) :
  expiration_invalid now exp = false <-> expiration_ok now exp.
Proof.
  unfold expiration_invalid, expiration_ok. destruct exp as [e|]; simpl;
    [|split; [by intros _ ? ? [=] | done]].
  destruct (str_truthy e) eqn:Ht; simpl.
  - apply str_truthy_true in Ht. split.
    + intros H e' t [= <-] _ Hp. rewrite Hp in H. simpl in H. by apply Z.leb_gt.
    + intros H. destruct (parse_date e) as [|t] eqn:Hp; [done|]. simpl.
      apply Z.leb_gt. by apply (H e).
  - apply str_truthy_false in Ht as ->. split; [|done]. by intros _ e' t [= <-].
Qed.

Lemma future_check_false (rd : string) (now : Z) :
  str_truthy rd && js_gt (parse_date rd) (Num now) = false <->
  (rd <> EmptyString -> forall t, parse_date rd = Num t -> (t <= now)%Z).
Proof.
  destruct (str_truthy rd) eqn:Ht; simpl.
  - apply str_truthy_true in Ht. destruct (parse_date rd) as [|t]; simpl.
    + split; [by intros _ _ ? [=] | done].
    + rewrite Z.ltb_ge. split; [by intros H _ t' [= <-] | intros H; by apply H].
  - split; [|done]. apply str_truthy_false in Ht as ->. by intros _ [].
Qed.

(** ** Theorems *)

(** C2: [validateCreate] accepts a candidate exactly when the five text
    fields are non-empty, the quantity is a positive number, a reception
    date that parses is not after the first clock read, and an
    expiration date that parses is strictly after the second one. *)
Theorem reception_create_correct (now_r now_e : Z) (data : CreateReceptionData.t) :
  isValid (validateCreate now_r now_e data) = true <-> create_ok now_r now_e data.
Proof.
  unfold validateCreate, create_ok. open_checks.
  rewrite <- !app_assoc, !app_nil, !cond_nil, !not_truthy_false.
  rewrite quantity_invalid_false, expiration_invalid_false, future_check_false.
  intuition.
Qed.

Lemma quantity_invalid_num (z : Z) : quantity_invalid (Num z) = true <-> (z <= 0)%Z.
Proof.
  unfold quantity_invalid; simpl. rewrite orb_true_iff, negb_true_iff, negb_false_iff, Z.eqb_eq, Z.leb_le.
  lia.
Qed.

(** Locates one message in the error list of [validateCreate]: every
    other check pushes a different message. *)
Lemma in_create_errors (now_r now_e : Z) (data : CreateReceptionData.t) (m : string) :
  In m (errors (validateCreate now_r now_e data)) <->
  (negb (str_truthy (CreateReceptionData.reception_date data)) = true /\ msg_date_required = m) \/
  (negb (str_truthy (CreateReceptionData.product_id data)) = true /\ msg_product_required = m) \/
  (negb (str_truthy (CreateReceptionData.supplier_id data)) = true /\ msg_supplier_required = m) \/
  (negb (str_truthy (CreateReceptionData.invoice_number data)) = true /\ msg_invoice_required = m) \/
  (quantity_invalid (CreateReceptionData.quantity data) = true /\ msg_quantity = m) \/
  (negb (str_truthy (CreateReceptionData.presentation_state data)) = true /\ msg_state_required = m) \/
  (str_truthy (CreateReceptionData.reception_date data) &&
     js_gt (parse_date (CreateReceptionData.reception_date data)) (Num now_r) = true /\
   msg_future_reception = m) \/
  (expiration_invalid now_e (CreateReceptionData.expiration_date data) = true /\ msg_expiration = m).
Proof.
  unfold validateCreate. open_checks. rewrite <- !app_assoc, !in_app_iff, !in_cond. done.
Qed.

Ltac msgs_differ :=
  unfold msg_date_required, msg_product_required, msg_supplier_required, msg_invoice_required,
    msg_quantity, msg_state_required, msg_future_reception, msg_expiration;
  intuition discriminate.

(** Helper: the quantity message and the quantity. *)
Lemma reception_quantity_iff (now_r now_e : Z) (data : CreateReceptionData.t) :
  In msg_quantity (errors (validateCreate now_r now_e data)) <->
  match CreateReceptionData.quantity data with
  | NaN => True
  | Num z => (z <= 0)%Z
  end.
Proof.
  rewrite in_create_errors.
  assert (Hq : quantity_invalid (CreateReceptionData.quantity data) = true <->
               match CreateReceptionData.quantity data with NaN => True | Num z => (z <= 0)%Z end)
    by (destruct (CreateReceptionData.quantity data); [done | apply quantity_invalid_num]).
  rewrite <- Hq. split; [msgs_differ | tauto].
Qed.

(** the quantity rule on every branch: the quantity message is
    reported iff the quantity is [NaN] or not positive; so [0] and [-5]
    are rejected and [1] passes the rule. *)
Theorem reception_quantity_rule (now_r now_e : Z) (data : CreateReceptionData.t) :
  In msg_quantity (errors (validateCreate now_r now_e data)) <->
  match CreateReceptionData.quantity data with
  | NaN => True
  | Num z => (z <= 0)%Z
  end.
Proof. apply reception_quantity_iff. Qed.

(** C11: the expiration rule is strict: an expiration date that parses to
    [t] is reported iff [t] is not after the clock read, so an expiration
    equal to the current instant is rejected. *)
Theorem reception_expiration_rule (now_r now_e t : Z) (e : string) (data : CreateReceptionData.t) :
  CreateReceptionData.expiration_date data = Some e -> e <> EmptyString -> parse_date e = Num t ->
  (In msg_expiration (errors (validateCreate now_r now_e data)) <-> (t <= now_e)%Z).
Proof.
  intros He Hne Hp. rewrite in_create_errors.
  assert (Hx : expiration_invalid now_e (CreateReceptionData.expiration_date data) = true <-> (t <= now_e)%Z).
  { unfold expiration_invalid. rewrite He. simpl. apply str_truthy_true in Hne.
    rewrite Hne, Hp. simpl. apply Z.leb_le. }
  rewrite <- Hx. split; [msgs_differ | tauto].
Qed.

(** C37: a reception date or an expiration date that does not parse
    ([new Date(s)] is an invalid date, whose time value is [NaN]) passes
    both date rules, since every comparison with [NaN] is false. *)
Theorem reception_unparseable_dates_pass (now_r now_e : Z) (data : CreateReceptionData.t) :
  parse_date (CreateReceptionData.reception_date data) = NaN ->
  (forall e, CreateReceptionData.expiration_date data = Some e -> parse_date e = NaN) ->
  ~ In msg_future_reception (errors (validateCreate now_r now_e data)) /\
  ~ In msg_expiration (errors (validateCreate now_r now_e data)).
Proof.
  intros Hr He.
  assert (Hf : js_gt (parse_date (CreateReceptionData.reception_date data)) (Num now_r) = false)
    by (by rewrite Hr).
  assert (Hx : expiration_invalid now_e (CreateReceptionData.expiration_date data) = false).
  { unfold expiration_invalid.
    destruct (CreateReceptionData.expiration_date data) as [e|]; [|done]. simpl.
    rewrite (He e eq_refl). apply andb_false_r. }
  rewrite !in_create_errors, Hf, Hx, andb_false_r. split; msgs_differ.
Qed.

(** C36: [validateUpdate] accepts a partial record exactly when a quantity
    it carries is not [<= 0] and its expiration date, if non-empty and
    parseable, is strictly after the clock. *)
Theorem reception_update_correct (now_e : Z) (data : UpdateReceptionData.t) :
  isValid (validateUpdate now_e data) = true <-> update_ok now_e data.
Proof.
  unfold validateUpdate, update_ok. open_checks.
  rewrite !app_nil, !cond_nil, expiration_invalid_false.
  destruct (UpdateReceptionData.quantity data) as [q|]; simpl.
  - split.
    + intros [Hq Hx]. split; [by intros ? [= <-] | done].
    + intros [Hq Hx]. split; [by apply Hq | done].
  - split; [intros [_ Hx]; split; [by intros ? ? | done] | intros [_ Hx]; done].
Qed.

(** C38: a [NaN] quantity (what [Number.parseInt] returns for an empty or
    non-numeric field) is rejected on creation but accepted by the update
    check, because [NaN <= 0] is false. *)
Theorem reception_nan_quantity (now_r now_e : Z) (c : CreateReceptionData.t) (u : UpdateReceptionData.t) :
  CreateReceptionData.quantity c = NaN ->
  UpdateReceptionData.quantity u = Some NaN ->
  In msg_quantity (errors (validateCreate now_r now_e c)) /\
  ~ In msg_quantity (errors (validateUpdate now_e u)).
Proof.
  intros Hc Hu. split.
  - apply reception_quantity_iff. by rewrite Hc.
  - unfold validateUpdate. open_checks. rewrite Hu. simpl.
    unfold expiration_invalid. destruct (opt_and _ _); simpl; unfold msg_expiration, msg_quantity;
      intuition discriminate.
Qed.

End WithDateParser.

Lemma reception_expiration_rule_witness :
  In msg_expiration (errors (validateCreate example_parse 1735689600000 1735689600000
                              (example_reception (Some "2025-01-01") (Num 1)))) /\
  ~ In msg_expiration (errors (validateCreate example_parse 1735689600000 1735689600000
                              (example_reception (Some "2025-01-02") (Num 1)))).
Proof.
  split.
  - apply (proj2 (reception_expiration_rule example_parse 1735689600000 1735689600000 1735689600000
                    "2025-01-01" (example_reception (Some "2025-01-01") (Num 1)) eq_refl ltac:(discriminate) eq_refl)).
    lia.
  - rewrite (reception_expiration_rule example_parse 1735689600000 1735689600000 1735776000000
               "2025-01-02" (example_reception (Some "2025-01-02") (Num 1)) eq_refl ltac:(discriminate) eq_refl).
    lia.
Defined.

Lemma reception_unparseable_dates_witness :
  ~ In msg_future_reception (errors (validateCreate example_parse 0 0
        (CreateReceptionData.mk "mañana" "p1" "s1" "F-001" (Num 1) None None (Some "ayer") "bueno" None))) /\
  ~ In msg_expiration (errors (validateCreate example_parse 0 0
        (CreateReceptionData.mk "mañana" "p1" "s1" "F-001" (Num 1) None None (Some "ayer") "bueno" None))).
Proof.
  apply (reception_unparseable_dates_pass example_parse 0 0
           (CreateReceptionData.mk "mañana" "p1" "s1" "F-001" (Num 1) None None (Some "ayer") "bueno" None)
           eq_refl).
  intros e [= <-]. reflexivity.
Defined.

Lemma reception_nan_quantity_witness :
  In msg_quantity (errors (validateCreate example_parse 0 0 (example_reception None NaN))) /\
  ~ In msg_quantity (errors (validateUpdate example_parse 0
        (UpdateReceptionData.mk None None None None (Some NaN) None None None None None))).
Proof.
  apply (reception_nan_quantity example_parse 0 0 (example_reception None NaN)
           (UpdateReceptionData.mk None None None None (Some NaN) None None None None None) eq_refl eq_refl).
Defined.

End ReceptionValidation.
