(* ===== verification/Entities.v ===== *)
(** * Entities: the records of [src/lib/types.ts]

    The three interfaces the store returns and the services pass around:
    [Supplier] (lines 1-14), [Product] (lines 16-25) and
    [ProductReception] (lines 27-44), whose optional [product] and
    [supplier] fields are the relations the reception queries join in.
    Optional fields ([x?: T]) are [option]s; [quantity: number] is a
    [jsnum]; timestamps are the ISO strings the store returns. *)

From Stdlib Require Import String List.
From stdpp Require Import base list strings.
From S2P Require Import Prelude.

Module Supplier.
Record t : Type := mk {
  id : string;
  id_type : string;
  id_number : string;
  name : string;
  address : option string;
  phone : option string;
  email : option string;
  contact_person : option string;
  economic_activity : option (list string);
  status : Prelude.status;
  created_at : string;
  updated_at : string
}.
End Supplier.

Module Product.
Record t : Type := mk {
  id : string;
  code : string;
  name : string;
  description : option string;
  laboratory : option string;
  status : Prelude.status;
  created_at : string;
  updated_at : string
}.
End Product.

Module ProductReception.
Record t : Type := mk {
  id : string;
  reception_date : string;
  product_id : string;
  supplier_id : string;
  invoice_number : string;
  quantity : jsnum;
  batch_number : option string;
  invima_registration : option string;
  expiration_date : option string;
  presentation_state : string;
  notes : option string;
  created_at : string;
  updated_at : string;
  product : option Product.t;
  supplier : option Supplier.t
}.
End ProductReception.
