(* ===== verification/Store.v ===== *)
(** * Store: the Supabase tables the services and dialogs query

    The store is not code of the repository: [src/lib/supabase] is absent
    and the database schema is not included.  What this file states is
    what the services rely on, as the specification describes it (section
    6): three tables of rows keyed by an opaque [id]; an insert gets its
    [id], [created_at] and [updated_at] from the store; a select can keep
    the rows equal on a column ([.eq]), sort them ([.order]) and embed
    the row a foreign key names ([product:products( * )]); [.single()]
    asks for exactly one row.

    Every request may be refused (network, row-level security, a
    constraint): the environment decides it, and also the id and the time
    the store assigns.  That is the record [request].

    [delete_where_id] removes rows of one table only: the repository
    declares no foreign key and no cascade (the schema is not included),
    so the model takes none.  Whether the database also deletes the
    receptions of a deleted product or supplier is open; the delete
    dialogs' texts say it does.  Results that depend on what a delete
    leaves in another table hold for this model only.

    The table operations are generic over the row type; the sort is a
    stable insertion sort whose result is proved sorted and a permutation
    of the table. *)

From Stdlib Require Import String List Sorted Permutation.
From stdpp Require Import base list strings.
From S2P Require Import Prelude Entities.

(** What the environment decides for one request. *)
Record request : Type := mk_request {
  refused : option js_error;    (* the error object the client returns, if any *)
  fresh_id : string;            (* the id the store gives an inserted row *)
  stamp : string                (* the store's [now()] *)
}.

(** The three tables. *)
Record db : Type := mk_db {
  suppliers : list Supplier.t;
  products : list Product.t;
  product_receptions : list ProductReception.t
}.

(** The column default of [status] for a row inserted without one: the
    specification (section 3) says a new record is active. *)
Definition default_status : Prelude.status := active.

(** PostgREST's answer to [.single()] on zero or several rows. *)
Definition msg_single : string :=
  "JSON object requested, multiple (or no) rows returned"%string.

Section Tables.

Context {R : Type}.

(** ** Sorting ([.order(column, ...)]) *)

Fixpoint insert_by (le : R -> R -> bool) (x : R) (l : list R) : list R :=
  match l with
  | [] => [x]
  | y :: l' => if le x y then x :: l else y :: insert_by le x l'
  end.

Fixpoint sort_by (le : R -> R -> bool) (l : list R) : list R :=
  match l with
  | [] => []
  | x :: l' => insert_by le x (sort_by le l')
  end.

(** ** Filters on the key column ([.eq("id", id)]) *)

Context (row_id : R -> string).

Definition where_id (id : string) (t : list R) : list R :=
  List.filter (fun r => String.eqb (row_id r) id) t.

Definition update_where_id (id : string) (f : R -> R) (t : list R) : list R :=
  map (fun r => if String.eqb (row_id r) id then f r else r) t.

Definition delete_where_id (id : string) (t : list R) : list R :=
  List.filter (fun r => negb (String.eqb (row_id r) id)) t.

Definition find_by_id (id : string) (t : list R) : option R :=
  List.find (fun r => String.eqb (row_id r) id) t.

(** [.single()] *)
Definition single (rows : list R) : js_result R :=
  match rows with
  | [r] => Ok r
  | _ => Throw (JsError msg_single)
  end.

(** The store keeps ids unique. *)
Definition ids_unique (t : list R) : Prop := NoDup (map row_id t).

(** ** Lemmas *)

Lemma insert_by_perm (le : R -> R -> bool) (x : R) (l : list R) :
  Permutation (insert_by le x l) (x :: l).
Proof.
  induction l as [|y l IH]; simpl; [done|].
  destruct (le x y); [done|].
  rewrite IH. apply perm_swap.
Qed.

Lemma sort_by_perm (le : R -> R -> bool) (l : list R) : Permutation (sort_by le l) l.
Proof.
  induction l as [|x l IH]; simpl; [done|].
  rewrite insert_by_perm, IH. done.
Qed.

Section Total.
Context (le : R -> R -> bool) (le_total : forall a b, le a b = false -> le b a = true).

Lemma insert_by_sorted (x : R) (l : list R) :
  Sorted (fun a b => le a b = true) l -> Sorted (fun a b => le a b = true) (insert_by le x l).
Proof.
  induction 1 as [|y l Hs IH Hhd]; simpl; [repeat constructor|].
  destruct (le x y) eqn:Hxy; [by repeat constructor|].
  constructor; [done|]. apply le_total in Hxy.
  destruct l as [|z l]; simpl; [by repeat constructor|].
  inversion Hhd; subst. destruct (le x z); by constructor.
Qed.

Lemma sort_by_sorted (l : list R) : Sorted (fun a b => le a b = true) (sort_by le l).
Proof. induction l; simpl; [constructor | by apply insert_by_sorted]. Qed.

End Total.

Lemma filter_all_false (f : R -> bool) (l : list R) :
  (forall x, In x l -> f x = false) -> List.filter f l = [].
Proof.
  induction l as [|x l IH]; simpl; intros H; [done|].
  rewrite H by auto. apply IH. auto.
Qed.

Lemma where_id_spec (id : string) (t : list R) (r : R) :
  In r (where_id id t) <-> In r t /\ row_id r = id.
Proof. unfold where_id. rewrite filter_In. by rewrite String.eqb_eq. Qed.

Lemma delete_where_id_spec (id : string) (t : list R) (r : R) :
  In r (delete_where_id id t) <-> In r t /\ row_id r <> id.
Proof.
  unfold delete_where_id. rewrite filter_In, negb_true_iff, String.eqb_neq. done.
Qed.

(** A second delete of the same id removes nothing more. *)
Lemma delete_where_id_idem (id : string) (t : list R) :
  delete_where_id id (delete_where_id id t) = delete_where_id id t.
Proof.
  unfold delete_where_id. induction t as [|r t IH]; simpl; [done|].
  destruct (String.eqb (row_id r) id) eqn:E; simpl; rewrite ?E; simpl; by rewrite IH.
Qed.

Lemma update_where_id_other (id : string) (f : R -> R) (t : list R) (r : R) :
  row_id r <> id -> In r t -> In r (update_where_id id f t).
Proof.
  intros Hne Hin. unfold update_where_id. apply in_map_iff. exists r.
  split; [|done]. by apply String.eqb_neq in Hne as ->.
Qed.

Lemma update_where_id_this (id : string) (f : R -> R) (t : list R) (r : R) :
  row_id r = id -> In r t -> In (f r) (update_where_id id f t).
Proof.
  intros Hid Hin. unfold update_where_id. apply in_map_iff. exists r.
  split; [|done]. by rewrite Hid, String.eqb_refl.
Qed.

(** A row of an updated table with the updated id is an updated row. *)
Lemma update_where_id_in (id : string) (f : R -> R) (t : list R) (p : R) :
  (forall r, row_id (f r) = row_id r) -> In p (update_where_id id f t) -> row_id p = id ->
  exists r, In r t /\ p = f r.
Proof.
  intros Hf Hin Hid. unfold update_where_id in Hin. apply in_map_iff in Hin as (r & Hp & Hr).
  destruct (String.eqb_spec (row_id r) id) as [_|Hne]; [by exists r|].
  subst p. congruence.
Qed.

(** A row of an updated table was there before or is an updated row. *)
Lemma update_where_id_cases (id : string) (f : R -> R) (t : list R) (p : R) :
  In p (update_where_id id f t) -> In p t \/ exists r, In r t /\ p = f r.
Proof.
  unfold update_where_id. intros (r & Hp & Hr)%in_map_iff.
  destruct (String.eqb (row_id r) id); [right; by exists r | left; by subst].
Qed.

(** The same, naming the id of the updated row. *)
Lemma update_where_id_cases_id (id : string) (f : R -> R) (t : list R) (p : R) :
  In p (update_where_id id f t) -> In p t \/ exists r, In r t /\ row_id r = id /\ p = f r.
Proof.
  unfold update_where_id. intros (r & Hp & Hr)%in_map_iff.
  destruct (String.eqb_spec (row_id r) id); [right; by exists r | left; by subst].
Qed.

Lemma update_where_id_length (id : string) (f : R -> R) (t : list R) :
  length (update_where_id id f t) = length t.
Proof. apply length_map. Qed.

Lemma update_where_id_none (id : string) (f : R -> R) (t : list R) :
  where_id id t = [] -> update_where_id id f t = t.
Proof.
  unfold where_id, update_where_id. induction t as [|r t IH]; simpl; [done|].
  destruct (String.eqb (row_id r) id); [discriminate|]. intros H. by rewrite IH.
Qed.

Lemma where_id_unique (id : string) (t : list R) :
  ids_unique t -> length (where_id id t) <= 1.
Proof.
  unfold ids_unique, where_id. induction t as [|r t IH]; simpl; [lia|].
  intros Hnd. apply NoDup_cons in Hnd as [Hnot Hnd].
  destruct (String.eqb_spec (row_id r) id) as [<-|Hne]; simpl; [|by apply IH].
  assert (List.filter (fun r' => String.eqb (row_id r') (row_id r)) t = []) as ->; [|simpl; lia].
  apply filter_all_false. intros r' Hr'. apply String.eqb_neq.
  intros Heq. apply Hnot. rewrite <- Heq. apply list_elem_of_In. by apply in_map.
Qed.

Lemma update_where_id_ids (id : string) (f : R -> R) (t : list R) :
  (forall r, row_id (f r) = row_id r) -> map row_id (update_where_id id f t) = map row_id t.
Proof.
  intros Hf. unfold update_where_id. rewrite map_map. apply map_ext.
  intros r. by destruct (String.eqb (row_id r) id).
Qed.

Lemma delete_where_id_unique (id : string) (t : list R) :
  ids_unique t -> ids_unique (delete_where_id id t).
Proof.
  unfold ids_unique, delete_where_id. induction t as [|r t IH]; simpl; [done|].
  intros Hnd. apply NoDup_cons in Hnd as [Hnot Hnd].
  destruct (negb (String.eqb (row_id r) id)); simpl; [|by apply IH].
  constructor; [|by apply IH]. intros Hin. apply Hnot.
  apply list_elem_of_In in Hin. apply list_elem_of_In.
  apply in_map_iff in Hin as (r' & Heq & Hr'). apply filter_In in Hr' as [Hr' _].
  rewrite <- Heq. by apply in_map.
Qed.

Lemma append_unique (t : list R) (r : R) :
  ids_unique t -> ~ In (row_id r) (map row_id t) -> ids_unique (t ++ [r]).
Proof.
  unfold ids_unique. intros Hnd Hnot. rewrite map_app. simpl.
  apply NoDup_app. split; [done|]. split; [|apply NoDup_singleton].
  intros x Hx Hy. apply list_elem_of_singleton in Hy as ->. apply Hnot. by apply list_elem_of_In.
Qed.

Lemma sorted_perm_in (le : R -> R -> bool) (l : list R) (r : R) : In r (sort_by le l) <-> In r l.
Proof. split; apply Permutation_in; [|symmetry]; apply sort_by_perm. Qed.

Lemma where_id_single (id : string) (t : list R) (r : R) :
  ids_unique t -> In r t -> row_id r = id -> where_id id t = [r].
Proof.
  intros Hu Hin Hid. pose proof (where_id_unique id t Hu) as Hl.
  assert (Hr : In r (where_id id t)) by (by apply where_id_spec).
  destruct (where_id id t) as [|r' [|? ?]] eqn:E; simpl in *; [done| |lia].
  destruct Hr as [->|[]]. done.
Qed.

Lemma find_by_id_none (id : string) (t : list R) :
  (forall r, In r t -> row_id r <> id) -> find_by_id id t = None.
Proof.
  unfold find_by_id. induction t as [|r t IH]; simpl; intros H; [done|].
  destruct (String.eqb_spec (row_id r) id) as [Heq|_]; [exfalso; by apply (H r); auto|].
  apply IH. auto.
Qed.

End Tables.

Arguments single {R} rows.
