(* ===== verification/Services.v ===== *)
(** * Services: [src/lib/services/*.service.ts]

    Each service class wraps one table of the store.  A method builds one
    query, awaits it, throws the client's [error] if there is one and
    returns the data.  A read is a function of the store and the request
    environment; a write also returns the next store.

    - [ProductsService] (products.service.ts lines 6-51): [getAll],
      [getActive], [create] (which adds [status: "active"]), [update]
      (which adds [updated_at]) and [delete]; [ProductsServerService]
      (lines 54-74) repeats [getAll] and [getActive] on the server client.
    - [SuppliersService] (suppliers.service.ts lines 6-44) and
      [SuppliersServerService] (lines 47-59): the same without
      [getActive].
    - [ReceptionsService] (receptions.service.ts lines 5-58) and
      [ReceptionsServerService] (lines 60-79): every read embeds the
      product and the supplier a reception references and orders by
      [reception_date]; [create] sends the record as given.

    [Partial<T>] (the argument of [update]) is a record of options;
    [{ ...data, updated_at }] overrides the fields the partial record
    carries and the timestamp.  A [.select().single()] after an update
    that matched no row fails, and the statement is rolled back. *)

From Stdlib Require Import String List Sorted Permutation.
From stdpp Require Import base list strings relations.
From S2P Require Import Prelude Entities Store ProductValidation SupplierValidation ReceptionValidation.

Import ProductValidation SupplierValidation ReceptionValidation.

(** [{...p}]: a field the partial record carries replaces the row's. *)
Definition patch_field {A : Type} (p : option A) (x : A) : A :=
  match p with
  | Some v => v
  | None => x
  end.

Definition patch_opt {A : Type} (p : option A) (x : option A) : option A :=
  match p with
  | Some v => Some v
  | None => x
  end.

Definition set_products (d : db) (t : list Product.t) : db :=
  mk_db (suppliers d) t (product_receptions d).
Definition set_suppliers (d : db) (t : list Supplier.t) : db :=
  mk_db t (products d) (product_receptions d).
Definition set_receptions (d : db) (t : list ProductReception.t) : db :=
  mk_db (suppliers d) (products d) t.

(** [.order("created_at", { ascending: false })], [.order("name")] and
    [.order("reception_date", { ascending: false })]: ISO timestamps and
    names compare as strings. *)
Definition product_created_desc (a b : Product.t) : bool :=
  String.leb (Product.created_at b) (Product.created_at a).
Definition product_name_asc (a b : Product.t) : bool :=
  String.leb (Product.name a) (Product.name b).
Definition supplier_created_desc (a b : Supplier.t) : bool :=
  String.leb (Supplier.created_at b) (Supplier.created_at a).
Definition reception_date_desc (a b : ProductReception.t) : bool :=
  String.leb (ProductReception.reception_date b) (ProductReception.reception_date a).

(** ** Products *)

Module ProductPatch.
Record t : Type := mk {
  id : option string;
  code : option string;
  name : option string;
  description : option string;
  laboratory : option string;
  status : option Prelude.status;
  created_at : option string;
  updated_at : option string
}.
End ProductPatch.

(** [{ ...productData, updated_at: now }] applied to a row. *)
Definition apply_product_patch (p : ProductPatch.t) (now : string) (r : Product.t) : Product.t :=
  Product.mk (patch_field (ProductPatch.id p) (Product.id r))
    (patch_field (ProductPatch.code p) (Product.code r))
    (patch_field (ProductPatch.name p) (Product.name r))
    (patch_opt (ProductPatch.description p) (Product.description r))
    (patch_opt (ProductPatch.laboratory p) (Product.laboratory r))
    (patch_field (ProductPatch.status p) (Product.status r))
    (patch_field (ProductPatch.created_at p) (Product.created_at r))
    now.

Module ProductsService.

(** [getAll]: [select("*").order("created_at", { ascending: false })] *)
Definition getAll (d : db) (rq : request) : js_result (list Product.t) :=
  match refused rq with
  | Some e => Throw e
  | None => Ok (sort_by product_created_desc (products d))
  end.

(** [getActive]: [select("*").eq("status", "active").order("name")] *)
Definition getActive (d : db) (rq : request) : js_result (list Product.t) :=
  match refused rq with
  | Some e => Throw e
  | None =>
      Ok (sort_by product_name_asc
            (List.filter (fun p => bool_decide (Product.status p = active)) (products d)))
  end.

(** [create]: [insert([{ ...productData, status: "active" }]).select().single()] *)
Definition create (d : db) (rq : request) (productData : CreateProductData.t)
  : db * js_result Product.t :=
  match refused rq with
  | Some e => (d, Throw e)
  | None =>
      let row := Product.mk (fresh_id rq) (CreateProductData.code productData)
                   (CreateProductData.name productData) (CreateProductData.description productData)
                   (CreateProductData.laboratory productData) active (stamp rq) (stamp rq) in
      (set_products d (products d ++ [row]), single [row])
  end.

(** [update]: [update({ ...productData, updated_at: now }).eq("id", id).select().single()] *)
Definition update (d : db) (rq : request) (now : string) (id : string) (productData : ProductPatch.t)
  : db * js_result Product.t :=
  match refused rq with
  | Some e => (d, Throw e)
  | None =>
      let f := apply_product_patch productData now in
      match single (map f (where_id Product.id id (products d))) with
      | Ok r => (set_products d (update_where_id Product.id id f (products d)), Ok r)
      | Throw e => (d, Throw e)
      end
  end.

(** [delete]: [delete().eq("id", id)] *)
Definition delete (d : db) (rq : request) (id : string) : db * js_result unit :=
  match refused rq with
  | Some e => (d, Throw e)
  | None => (set_products d (delete_where_id Product.id id (products d)), Ok tt)
  end.

End ProductsService.

Module ProductsServerService.

Definition getAll (d : db) (rq : request) : js_result (list Product.t) :=
  match refused rq with
  | Some e => Throw e
  | None => Ok (sort_by product_created_desc (products d))
  end.

Definition getActive (d : db) (rq : request) : js_result (list Product.t) :=
  match refused rq with
  | Some e => Throw e
  | None =>
      Ok (sort_by product_name_asc
            (List.filter (fun p => bool_decide (Product.status p = active)) (products d)))
  end.

End ProductsServerService.

(** ** Suppliers *)

Module SupplierPatch.
Record t : Type := mk {
  id : option string;
  id_type : option string;
  id_number : option string;
  name : option string;
  address : option string;
  phone : option string;
  email : option string;
  contact_person : option string;
  economic_activity : option (list string);
  status : option Prelude.status;
  created_at : option string;
  updated_at : option string
}.
End SupplierPatch.

Definition apply_supplier_patch (p : SupplierPatch.t) (now : string) (r : Supplier.t) : Supplier.t :=
  Supplier.mk (patch_field (SupplierPatch.id p) (Supplier.id r))
    (patch_field (SupplierPatch.id_type p) (Supplier.id_type r))
    (patch_field (SupplierPatch.id_number p) (Supplier.id_number r))
    (patch_field (SupplierPatch.name p) (Supplier.name r))
    (patch_opt (SupplierPatch.address p) (Supplier.address r))
    (patch_opt (SupplierPatch.phone p) (Supplier.phone r))
    (patch_opt (SupplierPatch.email p) (Supplier.email r))
    (patch_opt (SupplierPatch.contact_person p) (Supplier.contact_person r))
    (patch_opt (SupplierPatch.economic_activity p) (Supplier.economic_activity r))
    (patch_field (SupplierPatch.status p) (Supplier.status r))
    (patch_field (SupplierPatch.created_at p) (Supplier.created_at r))
    now.

Module SuppliersService.

(** [getAll]: [select("*").order("created_at", { ascending: false })] *)
Definition getAll (d : db) (rq : request) : js_result (list Supplier.t) :=
  match refused rq with
  | Some e => Throw e
  | None => Ok (sort_by supplier_created_desc (suppliers d))
  end.

(** [create]: [insert([{ ...supplierData, status: "active" }]).select().single()] *)
Definition create (d : db) (rq : request) (supplierData : CreateSupplierData.t)
  : db * js_result Supplier.t :=
  match refused rq with
  | Some e => (d, Throw e)
  | None =>
      let row := Supplier.mk (fresh_id rq) (CreateSupplierData.id_type supplierData)
                   (CreateSupplierData.id_number supplierData) (CreateSupplierData.name supplierData)
                   (CreateSupplierData.address supplierData) (CreateSupplierData.phone supplierData)
                   (CreateSupplierData.email supplierData) (CreateSupplierData.contact_person supplierData)
                   (CreateSupplierData.economic_activity supplierData) active (stamp rq) (stamp rq) in
      (set_suppliers d (suppliers d ++ [row]), single [row])
  end.

(** [update]: [update({ ...supplierData, updated_at: now }).eq("id", id).select().single()] *)
Definition update (d : db) (rq : request) (now : string) (id : string) (supplierData : SupplierPatch.t)
  : db * js_result Supplier.t :=
  match refused rq with
  | Some e => (d, Throw e)
  | None =>
      let f := apply_supplier_patch supplierData now in
      match single (map f (where_id Supplier.id id (suppliers d))) with
      | Ok r => (set_suppliers d (update_where_id Supplier.id id f (suppliers d)), Ok r)
      | Throw e => (d, Throw e)
      end
  end.

(** [delete]: [delete().eq("id", id)] *)
Definition delete (d : db) (rq : request) (id : string) : db * js_result unit :=
  match refused rq with
  | Some e => (d, Throw e)
  | None => (set_suppliers d (delete_where_id Supplier.id id (suppliers d)), Ok tt)
  end.

End SuppliersService.

Module SuppliersServerService.

Definition getAll (d : db) (rq : request) : js_result (list Supplier.t) :=
  match refused rq with
  | Some e => Throw e
  | None => Ok (sort_by supplier_created_desc (suppliers d))
  end.

End SuppliersServerService.

(** ** Receptions *)

(** [*, product:products( * ), supplier:suppliers( * )]: the row with the
    product and the supplier its keys reference, [null] when none does. *)
Definition embed_relations (d : db) (r : ProductReception.t) : ProductReception.t :=
  ProductReception.mk (ProductReception.id r) (ProductReception.reception_date r)
    (ProductReception.product_id r) (ProductReception.supplier_id r)
    (ProductReception.invoice_number r) (ProductReception.quantity r)
    (ProductReception.batch_number r) (ProductReception.invima_registration r)
    (ProductReception.expiration_date r) (ProductReception.presentation_state r)
    (ProductReception.notes r) (ProductReception.created_at r) (ProductReception.updated_at r)
    (find_by_id Product.id (ProductReception.product_id r) (products d))
    (find_by_id Supplier.id (ProductReception.supplier_id r) (suppliers d)).

(** [Partial<ProductReception>] without the embedded relations, which are
    not columns. *)
Module ReceptionPatch.
Record t : Type := mk {
  id : option string;
  reception_date : option string;
  product_id : option string;
  supplier_id : option string;
  invoice_number : option string;
  quantity : option jsnum;
  batch_number : option string;
  invima_registration : option string;
  expiration_date : option string;
  presentation_state : option string;
  notes : option string;
  created_at : option string;
  updated_at : option string
}.
End ReceptionPatch.

Definition apply_reception_patch (p : ReceptionPatch.t) (now : string) (r : ProductReception.t)
  : ProductReception.t :=
  ProductReception.mk (patch_field (ReceptionPatch.id p) (ProductReception.id r))
    (patch_field (ReceptionPatch.reception_date p) (ProductReception.reception_date r))
    (patch_field (ReceptionPatch.product_id p) (ProductReception.product_id r))
    (patch_field (ReceptionPatch.supplier_id p) (ProductReception.supplier_id r))
    (patch_field (ReceptionPatch.invoice_number p) (ProductReception.invoice_number r))
    (patch_field (ReceptionPatch.quantity p) (ProductReception.quantity r))
    (patch_opt (ReceptionPatch.batch_number p) (ProductReception.batch_number r))
    (patch_opt (ReceptionPatch.invima_registration p) (ProductReception.invima_registration r))
    (patch_opt (ReceptionPatch.expiration_date p) (ProductReception.expiration_date r))
    (patch_field (ReceptionPatch.presentation_state p) (ProductReception.presentation_state r))
    (patch_opt (ReceptionPatch.notes p) (ProductReception.notes r))
    (patch_field (ReceptionPatch.created_at p) (ProductReception.created_at r))
    now None None.

Module ReceptionsService.

(** [getAll]: the embedding select, [.order("reception_date", { ascending: false })] *)
Definition getAll (d : db) (rq : request) : js_result (list ProductReception.t) :=
  match refused rq with
  | Some e => Throw e
  | None => Ok (map (embed_relations d) (sort_by reception_date_desc (product_receptions d)))
  end.

(** [create]: [insert([receptionData]).select(embedding).single()] *)
Definition create (d : db) (rq : request) (receptionData : CreateReceptionData.t)
  : db * js_result ProductReception.t :=
  match refused rq with
  | Some e => (d, Throw e)
  | None =>
      let row := ProductReception.mk (fresh_id rq) (CreateReceptionData.reception_date receptionData)
                   (CreateReceptionData.product_id receptionData) (CreateReceptionData.supplier_id receptionData)
                   (CreateReceptionData.invoice_number receptionData) (CreateReceptionData.quantity receptionData)
                   (CreateReceptionData.batch_number receptionData)
                   (CreateReceptionData.invima_registration receptionData)
                   (CreateReceptionData.expiration_date receptionData)
                   (CreateReceptionData.presentation_state receptionData)
                   (CreateReceptionData.notes receptionData) (stamp rq) (stamp rq) None None in
      let d' := set_receptions d (product_receptions d ++ [row]) in
      (d', single [embed_relations d' row])
  end.

(** [update]: [update({ ...receptionData, updated_at: now }).eq("id", id).select(embedding).single()] *)
Definition update (d : db) (rq : request) (now : string) (id : string) (receptionData : ReceptionPatch.t)
  : db * js_result ProductReception.t :=
  match refused rq with
  | Some e => (d, Throw e)
  | None =>
      let f := apply_reception_patch receptionData now in
      match single (map (fun r => embed_relations d (f r)) (where_id ProductReception.id id (product_receptions d))) with
      | Ok r => (set_receptions d (update_where_id ProductReception.id id f (product_receptions d)), Ok r)
      | Throw e => (d, Throw e)
      end
  end.

(** [delete]: [delete().eq("id", id)] *)
Definition delete (d : db) (rq : request) (id : string) : db * js_result unit :=
  match refused rq with
  | Some e => (d, Throw e)
  | None => (set_receptions d (delete_where_id ProductReception.id id (product_receptions d)), Ok tt)
  end.

End ReceptionsService.

Module ReceptionsServerService.

Definition getAll (d : db) (rq : request) : js_result (list ProductReception.t) :=
  match refused rq with
  | Some e => Throw e
  | None => Ok (map (embed_relations d) (sort_by reception_date_desc (product_receptions d)))
  end.

End ReceptionsServerService.

(** ** The services as steps of the store *)

(** A write the services can make, with what the store guarantees: the
    id it gives a new row is fresh, and [update] is not asked to change a
    row's id (the hooks pass the [UpdateXData] records, which have no
    [id]). *)
Inductive service_step : db -> db -> Prop :=
| StepCreateProduct d rq data d' r :
    ~ In (fresh_id rq) (map Product.id (products d)) ->
    ProductsService.create d rq data = (d', r) -> service_step d d'
| StepUpdateProduct d rq now id p d' r :
    ProductPatch.id p = None -> ProductsService.update d rq now id p = (d', r) -> service_step d d'
| StepDeleteProduct d rq id d' r :
    ProductsService.delete d rq id = (d', r) -> service_step d d'
| StepCreateSupplier d rq data d' r :
    ~ In (fresh_id rq) (map Supplier.id (suppliers d)) ->
    SuppliersService.create d rq data = (d', r) -> service_step d d'
| StepUpdateSupplier d rq now id p d' r :
    SupplierPatch.id p = None -> SuppliersService.update d rq now id p = (d', r) -> service_step d d'
| StepDeleteSupplier d rq id d' r :
    SuppliersService.delete d rq id = (d', r) -> service_step d d'
| StepCreateReception d rq data d' r :
    ~ In (fresh_id rq) (map ProductReception.id (product_receptions d)) ->
    ReceptionsService.create d rq data = (d', r) -> service_step d d'
| StepUpdateReception d rq now id p d' r :
    ReceptionPatch.id p = None -> ReceptionsService.update d rq now id p = (d', r) -> service_step d d'
| StepDeleteReception d rq id d' r :
    ReceptionsService.delete d rq id = (d', r) -> service_step d d'.

(** Every table keeps its ids unique. *)
Definition store_wf (d : db) : Prop :=
  ids_unique Supplier.id (suppliers d) /\ ids_unique Product.id (products d) /\
  ids_unique ProductReception.id (product_receptions d).

(** What an [update(..).eq("id", id)] may do to a table: every row with
    another id stays, and every row after is a row before or the patch
    of a row with that id. *)
Definition update_frame {R : Type} (row_id : R -> string) (id : string) (f : R -> R) (t t' : list R) : Prop :=
  (forall q, In q t -> row_id q <> id -> In q t') /\
  (forall q, In q t' -> In q t \/ exists o, In o t /\ row_id o = id /\ q = f o).

(** What a [delete().eq("id", id)] may do to a table: every row with
    another id stays, and no row appears. *)
Definition delete_frame {R : Type} (row_id : R -> string) (id : string) (t t' : list R) : Prop :=
  (forall q, In q t -> row_id q <> id -> In q t') /\ (forall q, In q t' -> In q t).

(** ** Examples *)

Definition example_product (id name created : string) (st : Prelude.status) : Product.t :=
  Product.mk id "MED001" name None None st created created.

Definition example_db : db :=
  mk_db [] [example_product "p1" "Ibuprofeno" "2025-01-01T10:00:00Z" active;
            example_product "p2" "Acetaminofen" "2025-01-03T10:00:00Z" inactive;
            example_product "p3" "Amoxicilina" "2025-01-02T10:00:00Z" active]
        [ProductReception.mk "r1" "2025-01-04" "p2" "s9" "F-1" (Num 5) None None None "bueno" None
           "2025-01-04" "2025-01-04" None None].

Definition example_request (id : string) : request := mk_request None id "2025-01-05T10:00:00Z".

Definition code_patch : ProductPatch.t := ProductPatch.mk None (Some "MED009") None None None None None None.

(** ** Theorems *)

Lemma leb_total_false (a b : string) : String.leb a b = false -> String.leb b a = true.
Proof. intros H. destruct (String.leb_total a b); congruence. Qed.

(** [ProductsService.getAll] returns every product exactly once, the
    newest ([created_at]) first. *)
Theorem products_getAll_sorted (d : db) (rq : request) (l : list Product.t) :
  ProductsService.getAll d rq = Ok l ->
  Permutation l (products d) /\
  Sorted (fun a b => String.leb (Product.created_at b) (Product.created_at a) = true) l.
Proof.
  unfold ProductsService.getAll. destruct (refused rq); [discriminate|]. intros [= <-].
  split; [apply sort_by_perm|]. apply (sort_by_sorted product_created_desc).
  intros a b. apply leb_total_false.
Qed.

(** [getActive] returns exactly the active products, ordered by name. *)
Theorem products_getActive_spec (d : db) (rq : request) (l : list Product.t) :
  ProductsService.getActive d rq = Ok l ->
  (forall p, In p l <-> In p (products d) /\ Product.status p = active) /\
  Sorted (fun a b => String.leb (Product.name a) (Product.name b) = true) l.
Proof.
  unfold ProductsService.getActive. destruct (refused rq); [discriminate|]. intros [= <-].
  split.
  - intros p. rewrite sorted_perm_in, filter_In, bool_decide_eq_true. done.
  - apply (sort_by_sorted product_name_asc). intros a b. apply leb_total_false.
Qed.

(** a created product is appended with the id and timestamps the store
    gives it and status [active], whatever the caller sent; the other
    tables are untouched. *)
Theorem products_create_spec (d d' : db) (rq : request) (data : CreateProductData.t) (p : Product.t) :
  ProductsService.create d rq data = (d', Ok p) ->
  Product.status p = active /\ Product.id p = fresh_id rq /\
  Product.created_at p = stamp rq /\
  Product.code p = CreateProductData.code data /\ Product.name p = CreateProductData.name data /\
  products d' = products d ++ [p] /\ suppliers d' = suppliers d /\
  product_receptions d' = product_receptions d.
Proof.
  unfold ProductsService.create. destruct (refused rq); [discriminate|].
  intros [= <- <-]. simpl. auto 10.
Qed.

(** updating an id that no row has fails with the [.single()] error
    and leaves the store as it was. *)
Theorem products_update_missing (d : db) (rq : request) (now id : string) (p : ProductPatch.t) :
  refused rq = None -> where_id Product.id id (products d) = [] ->
  ProductsService.update d rq now id p = (d, Throw (JsError msg_single)).
Proof. intros Hr Hw. unfold ProductsService.update. rewrite Hr, Hw. reflexivity. Qed.

(** updating the row with a given id returns it patched, stamped with
    the client's time, and changes no other row. *)
Theorem products_update_spec (d : db) (rq : request) (now id : string) (p : ProductPatch.t) (r : Product.t) :
  refused rq = None -> ids_unique Product.id (products d) -> In r (products d) -> Product.id r = id ->
  ProductsService.update d rq now id p =
    (set_products d (update_where_id Product.id id (apply_product_patch p now) (products d)),
     Ok (apply_product_patch p now r)) /\
  Product.updated_at (apply_product_patch p now r) = now.
Proof.
  intros Hr Hu Hin Hid. unfold ProductsService.update. rewrite Hr.
  rewrite (where_id_single Product.id id (products d) r Hu Hin Hid). done.
Qed.

(** deleting a product removes exactly the rows with its id and does
    not cascade: the receptions that reference it stay, and their
    embedded [product] becomes [null]. *)
Theorem products_delete_no_cascade (d d' : db) (rq : request) (id : string) :
  ProductsService.delete d rq id = (d', Ok tt) ->
  (forall p, In p (products d') <-> In p (products d) /\ Product.id p <> id) /\
  product_receptions d' = product_receptions d /\
  (forall r, ProductReception.product_id r = id -> ProductReception.product (embed_relations d' r) = None).
Proof.
  unfold ProductsService.delete. destruct (refused rq); [discriminate|]. intros [= <-].
  split; [intros p; apply delete_where_id_spec|]. split; [done|].
  intros r Hr. simpl. rewrite Hr. apply find_by_id_none.
  intros q Hq. by apply delete_where_id_spec in Hq as [_ ?].
Qed.

(** a request the store refuses makes every service method throw the
    store's error and leaves the store unchanged. *)
Theorem services_refused (d : db) (rq : request) (e : js_error) :
  refused rq = Some e ->
  ProductsService.getAll d rq = Throw e /\ ProductsService.getActive d rq = Throw e /\
  SuppliersService.getAll d rq = Throw e /\ ReceptionsService.getAll d rq = Throw e /\
  (forall data, ProductsService.create d rq data = (d, Throw e)) /\
  (forall now id p, ProductsService.update d rq now id p = (d, Throw e)) /\
  (forall id, ProductsService.delete d rq id = (d, Throw e)) /\
  (forall data, SuppliersService.create d rq data = (d, Throw e)) /\
  (forall now id p, SuppliersService.update d rq now id p = (d, Throw e)) /\
  (forall id, SuppliersService.delete d rq id = (d, Throw e)) /\
  (forall data, ReceptionsService.create d rq data = (d, Throw e)) /\
  (forall now id p, ReceptionsService.update d rq now id p = (d, Throw e)) /\
  (forall id, ReceptionsService.delete d rq id = (d, Throw e)).
Proof.
  intros H. unfold ProductsService.getAll, ProductsService.getActive, SuppliersService.getAll,
    ReceptionsService.getAll, ProductsService.create, ProductsService.update, ProductsService.delete,
    SuppliersService.create, SuppliersService.update, SuppliersService.delete,
    ReceptionsService.create, ReceptionsService.update, ReceptionsService.delete.
  rewrite H. repeat split.
Qed.

Lemma product_patch_keeps_id (p : ProductPatch.t) (now : string) (r : Product.t) :
  ProductPatch.id p = None -> Product.id (apply_product_patch p now r) = Product.id r.
Proof. intros H. unfold apply_product_patch. simpl. by rewrite H. Qed.

Lemma supplier_patch_keeps_id (p : SupplierPatch.t) (now : string) (r : Supplier.t) :
  SupplierPatch.id p = None -> Supplier.id (apply_supplier_patch p now r) = Supplier.id r.
Proof. intros H. unfold apply_supplier_patch. simpl. by rewrite H. Qed.

Lemma reception_patch_keeps_id (p : ReceptionPatch.t) (now : string) (r : ProductReception.t) :
  ReceptionPatch.id p = None -> ProductReception.id (apply_reception_patch p now r) = ProductReception.id r.
Proof. intros H. unfold apply_reception_patch. simpl. by rewrite H. Qed.

(** The three shapes of a write: refused, applied, or rolled back. *)
Ltac write_cases H :=
  repeat match type of H with
  | (match ?x with _ => _ end) = _ => destruct x; try (injection H as <- _)
  | (_, _) = (_, _) => injection H as <- _
  end.

Lemma store_wf_step (d d' : db) : service_step d d' -> store_wf d -> store_wf d'.
Proof.
  intros Hs (Hsu & Hpr & Hre).
  destruct Hs as [d rq data d' r Hf H|d rq now id p d' r Hp H|d rq id d' r H
                 |d rq data d' r Hf H|d rq now id p d' r Hp H|d rq id d' r H
                 |d rq data d' r Hf H|d rq now id p d' r Hp H|d rq id d' r H].
  - unfold ProductsService.create in H. write_cases H; repeat split; try done.
    by apply append_unique.
  - unfold ProductsService.update in H. write_cases H; repeat split; try done.
    unfold ids_unique. simpl. rewrite update_where_id_ids; [done|].
    intros. by apply product_patch_keeps_id.
  - unfold ProductsService.delete in H. write_cases H; repeat split; try done.
    by apply delete_where_id_unique.
  - unfold SuppliersService.create in H. write_cases H; repeat split; try done.
    by apply append_unique.
  - unfold SuppliersService.update in H. write_cases H; repeat split; try done.
    unfold ids_unique. simpl. rewrite update_where_id_ids; [done|].
    intros. by apply supplier_patch_keeps_id.
  - unfold SuppliersService.delete in H. write_cases H; repeat split; try done.
    by apply delete_where_id_unique.
  - unfold ReceptionsService.create in H. write_cases H; repeat split; try done.
    by apply append_unique.
  - unfold ReceptionsService.update in H. write_cases H; repeat split; try done.
    unfold ids_unique. simpl. rewrite update_where_id_ids; [done|].
    intros. by apply reception_patch_keeps_id.
  - unfold ReceptionsService.delete in H. write_cases H; repeat split; try done.
    by apply delete_where_id_unique.
Qed.

Lemma update_frame_of {R : Type} (row_id : R -> string) (id : string) (f : R -> R) (t t' : list R) :
  t' = t \/ t' = update_where_id row_id id f t -> update_frame row_id id f t t'.
Proof.
  intros [-> | ->]; split; intros q Hq; auto.
  - intros Hne. by apply update_where_id_other.
  - by apply update_where_id_cases_id.
Qed.

Lemma delete_frame_of {R : Type} (row_id : R -> string) (id : string) (t t' : list R) :
  t' = t \/ t' = delete_where_id row_id id t -> delete_frame row_id id t t'.
Proof.
  intros [-> | ->]; split; intros q Hq; auto.
  - intros Hne. by apply delete_where_id_spec.
  - by apply delete_where_id_spec in Hq as [? _].
Qed.

(** C5: each update and delete of the three services touches only the
    rows with its id ([.eq("id", id)]): every row with another id is
    kept, an update adds nothing but patched rows of that id, a delete
    adds nothing, and the other two tables are untouched, on success,
    on a refused request and on a failed [.single()] alike. *)
Theorem service_writes_frame (d d' : db) (rq : request) (now id : string) :
  (forall p r, ProductsService.update d rq now id p = (d', r) ->
     update_frame Product.id id (apply_product_patch p now) (products d) (products d') /\
     suppliers d' = suppliers d /\ product_receptions d' = product_receptions d) /\
  (forall r, ProductsService.delete d rq id = (d', r) ->
     delete_frame Product.id id (products d) (products d') /\
     suppliers d' = suppliers d /\ product_receptions d' = product_receptions d) /\
  (forall p r, SuppliersService.update d rq now id p = (d', r) ->
     update_frame Supplier.id id (apply_supplier_patch p now) (suppliers d) (suppliers d') /\
     products d' = products d /\ product_receptions d' = product_receptions d) /\
  (forall r, SuppliersService.delete d rq id = (d', r) ->
     delete_frame Supplier.id id (suppliers d) (suppliers d') /\
     products d' = products d /\ product_receptions d' = product_receptions d) /\
  (forall p r, ReceptionsService.update d rq now id p = (d', r) ->
     update_frame ProductReception.id id (apply_reception_patch p now) (product_receptions d)
       (product_receptions d') /\
     suppliers d' = suppliers d /\ products d' = products d) /\
  (forall r, ReceptionsService.delete d rq id = (d', r) ->
     delete_frame ProductReception.id id (product_receptions d) (product_receptions d') /\
     suppliers d' = suppliers d /\ products d' = products d).
Proof.
  unfold ProductsService.update, ProductsService.delete, SuppliersService.update, SuppliersService.delete,
    ReceptionsService.update, ReceptionsService.delete.
  split_and!; intros * H; write_cases H; simpl; split_and!; try done;
    first [apply update_frame_of | apply delete_frame_of]; auto.
Qed.

(** every sequence of service writes keeps the ids of every table
    unique, given fresh ids from the store and updates that do not
    rewrite an id. *)
Theorem store_wf_reachable (d d' : db) :
  rtc service_step d d' -> store_wf d -> store_wf d'.
Proof. induction 1; [done|]. intros Hwf. eauto using store_wf_step. Qed.

(** ** Witnesses *)

Lemma products_getAll_sorted_witness :
  exists l, ProductsService.getAll example_db (example_request "x") = Ok l /\
  Permutation l (products example_db) /\
  Sorted (fun a b => String.leb (Product.created_at b) (Product.created_at a) = true) l.
Proof.
  eexists. split; [reflexivity|].
  apply (products_getAll_sorted example_db (example_request "x")). reflexivity.
Defined.

Lemma products_getActive_witness :
  exists l, ProductsService.getActive example_db (example_request "x") = Ok l /\
  map Product.name l = ["Amoxicilina"; "Ibuprofeno"]%string /\
  (forall p, In p l <-> In p (products example_db) /\ Product.status p = active).
Proof.
  eexists. split; [reflexivity|]. split; [reflexivity|].
  apply (products_getActive_spec example_db (example_request "x")). reflexivity.
Defined.

Lemma products_create_witness :
  Product.status (example_product "p4" "Loratadina" "2025-01-05T10:00:00Z" active) = active /\
  products (set_products example_db
              (products example_db ++ [example_product "p4" "Loratadina" "2025-01-05T10:00:00Z" active])) =
  products example_db ++ [example_product "p4" "Loratadina" "2025-01-05T10:00:00Z" active].
Proof.
  pose proof (products_create_spec example_db
    (set_products example_db (products example_db ++ [example_product "p4" "Loratadina" "2025-01-05T10:00:00Z" active]))
    (example_request "p4") (CreateProductData.mk "MED001" "Loratadina" None None)
    (example_product "p4" "Loratadina" "2025-01-05T10:00:00Z" active) eq_refl) as H.
  destruct H as (Hs & _ & _ & _ & _ & Hp & _). split; [exact Hs | exact Hp].
Defined.

Lemma products_update_missing_witness :
  ProductsService.update example_db (example_request "x") "2025-01-06" "zz"
    (ProductPatch.mk None (Some "MED009") None None None None None None) =
  (example_db, Throw (JsError msg_single)).
Proof. apply products_update_missing; reflexivity. Defined.

Lemma products_update_witness :
  Product.updated_at (apply_product_patch (ProductPatch.mk None (Some "MED009") None None None None None None)
                        "2025-01-06" (example_product "p1" "Ibuprofeno" "2025-01-01T10:00:00Z" active)) =
  "2025-01-06"%string.
Proof.
  apply (products_update_spec example_db (example_request "x") "2025-01-06" "p1"
           (ProductPatch.mk None (Some "MED009") None None None None None None)
           (example_product "p1" "Ibuprofeno" "2025-01-01T10:00:00Z" active));
    [reflexivity | unfold ids_unique; apply (bool_decide_unpack _); vm_compute; exact I | simpl; auto | reflexivity].
Defined.

Lemma products_delete_no_cascade_witness :
  ProductReception.product
    (embed_relations (set_products example_db (delete_where_id Product.id "p2" (products example_db)))
       (ProductReception.mk "r1" "2025-01-04" "p2" "s9" "F-1" (Num 5) None None None "bueno" None
          "2025-01-04" "2025-01-04" None None)) = None.
Proof.
  apply (products_delete_no_cascade example_db _ (example_request "x") "p2"); reflexivity.
Defined.

Lemma services_refused_witness :
  ProductsService.delete example_db (mk_request (Some (JsError "offline")) "x" "t") "p1" =
  (example_db, Throw (JsError "offline")).
Proof. apply (services_refused example_db _ (JsError "offline")). reflexivity. Defined.

Lemma service_writes_frame_witness :
  update_frame Product.id "p1" (apply_product_patch code_patch "2025-01-06") (products example_db)
    (products (fst (ProductsService.update example_db (example_request "x") "2025-01-06" "p1" code_patch))) /\
  suppliers (fst (ProductsService.update example_db (example_request "x") "2025-01-06" "p1" code_patch)) =
    suppliers example_db /\
  product_receptions (fst (ProductsService.update example_db (example_request "x") "2025-01-06" "p1" code_patch)) =
    product_receptions example_db.
Proof.
  apply (proj1 (service_writes_frame example_db
    (fst (ProductsService.update example_db (example_request "x") "2025-01-06" "p1" code_patch))
    (example_request "x") "2025-01-06" "p1") code_patch
    (snd (ProductsService.update example_db (example_request "x") "2025-01-06" "p1" code_patch))).
  reflexivity.
Defined.

Lemma store_wf_reachable_witness :
  store_wf (set_products (mk_db [] [] []) [example_product "p1" "Ibuprofeno" "2025-01-05T10:00:00Z" active]).
Proof.
  apply (store_wf_reachable (mk_db [] [] [])).
  - eapply rtc_l; [|apply rtc_refl].
    apply (StepCreateProduct (mk_db [] [] []) (mk_request None "p1" "2025-01-05T10:00:00Z")
             (CreateProductData.mk "MED001" "Ibuprofeno" None None) _
             (Ok (example_product "p1" "Ibuprofeno" "2025-01-05T10:00:00Z" active))); [simpl; tauto | reflexivity].
  - unfold store_wf, ids_unique; simpl; repeat split; constructor.
Defined.
