(* ===== verification/Pages.v ===== *)
(** * Pages: the data pages of [src/app]

    The three data pages are async server components.  Each awaits the
    server services in order and passes their results, with
    [data || []], to the list component and the add dialog.  A service
    that throws makes the page throw, so Next.js renders its error
    page: a [Throw].  [|| []] has no effect, since a service returns an
    array or throws.

    - [ProductsPage] (products/page.tsx): [productsServerService.getAll()],
      all products, inactive ones included.
    - [SuppliersPage] (suppliers/page.tsx): [suppliersServerService.getAll()].
    - [ReceptionsPage] (receptions/page.tsx): [receptionsServerService
      .getAll()], [productsServerService.getActive()] and
      [suppliersServerService.getAll()], one request each.  The three
      reads see the store [d], taken as one snapshot. *)

From Stdlib Require Import String List.
From stdpp Require Import base list.
From S2P Require Import Prelude Entities Store Services.

Local Open Scope js_scope.

Module Pages.

(** [<ProductsList products={products || []} />] *)
Definition ProductsPage (d : db) (rq : request) : js_result (list Product.t) :=
  await! products := ProductsServerService.getAll d rq in Ok products.

(** [<SuppliersList suppliers={suppliers || []} />] *)
Definition SuppliersPage (d : db) (rq : request) : js_result (list Supplier.t) :=
  await! suppliers := SuppliersServerService.getAll d rq in Ok suppliers.

(** What the receptions page hands to [AddReceptionDialog] and
    [ReceptionsList], which passes [products] and [suppliers] on to each
    [EditReceptionDialog]. *)
Record receptions_props : Type := mk_receptions_props {
  receptions : list ProductReception.t;
  products : list Product.t;
  suppliers : list Supplier.t
}.

(** [ReceptionsPage]: three awaits in order. *)
Definition ReceptionsPage (d : db) (rq1 rq2 rq3 : request) : js_result receptions_props :=
  await! receptions := ReceptionsServerService.getAll d rq1 in
  await! products := ProductsServerService.getActive d rq2 in
  await! suppliers := SuppliersServerService.getAll d rq3 in
  Ok (mk_receptions_props receptions products suppliers).

End Pages.

Module PageFacts.

Import Pages.

(** What a loaded receptions page offers: its product options are the
    active products of the store, its supplier options all suppliers. *)
Lemma receptions_page_props (d : db) (rq1 rq2 rq3 : request) (props : receptions_props) :
  ReceptionsPage d rq1 rq2 rq3 = Ok props ->
  (forall p, In p (Pages.products props) <-> In p (Store.products d) /\ Product.status p = active) /\
  (forall s, In s (Pages.suppliers props) <-> In s (Store.suppliers d)).
Proof.
  unfold ReceptionsPage, ReceptionsServerService.getAll, ProductsServerService.getActive,
    SuppliersServerService.getAll.
  destruct (refused rq1), (refused rq2), (refused rq3); simpl; try discriminate.
  intros [= <-]. simpl. split; intros x; by rewrite sorted_perm_in, ?filter_In, ?bool_decide_eq_true.
Qed.

(** A receptions page loads exactly when its three requests succeed;
    the first refusal, in the order of the awaits, is what it throws. *)
Lemma receptions_page_throws (d : db) (rq1 rq2 rq3 : request) (e : js_error) :
  ReceptionsPage d rq1 rq2 rq3 = Throw e <->
  refused rq1 = Some e \/
  (refused rq1 = None /\ refused rq2 = Some e) \/
  (refused rq1 = None /\ refused rq2 = None /\ refused rq3 = Some e).
Proof.
  unfold ReceptionsPage, ReceptionsServerService.getAll, ProductsServerService.getActive,
    SuppliersServerService.getAll.
  destruct (refused rq1) as [e1|], (refused rq2) as [e2|], (refused rq3) as [e3|]; simpl;
    split; intros H; try (destruct H as [H|[[? H]|(? & ? & H)]]); simplify_eq; naive_solver.
Qed.

End PageFacts.
