(* ===== verification/Hooks.v ===== *)
(** * Hooks: [src/lib/hooks/use-products.ts], [use-suppliers.ts], [use-receptions.ts]

    The three hooks are one piece of code over three entities: React state
    [{items, loading, error}] ([useState], lines 14-16 of use-products.ts)
    and five async operations.  [createX] and [updateX] first run the
    entity's validator and throw [new Error(errors.join(", "))] when it
    fails; otherwise every operation sets [loading] and clears [error],
    awaits one service call, then applies its continuation (prepend, map
    replace, filter, or replace the list), records the error message on
    failure, and clears [loading] in [finally].

    An async operation is three steps of [hook_step]: [begin] (the part
    before the [await], validation included), [serve] (the store executes
    the request, with the environment's [request]) and [finish] (the
    continuation after the [await]).  Operations in flight are the list
    [pending]; the steps of several of them interleave freely, which is
    what React and the event loop allow.  The hook is generic in a
    [hook_config] (validators, service methods, fallback messages);
    [useProducts], [useSuppliers] and [useReceptions] are its three
    instances.  [router.refresh()] only re-renders the server page and has
    no state here. *)

From Stdlib Require Import String List ZArith.
From stdpp Require Import base list strings relations.
From S2P Require Import Prelude Entities Store ProductValidation SupplierValidation ReceptionValidation Services.

Import ProductValidation SupplierValidation ReceptionValidation.

(** What distinguishes the three hooks. *)
Record hook_config (R C U : Type) : Type := mk_hook_config {
  row_id : R -> string;
  check_create : Z -> Z -> C -> validation;   (* the validator, with the clock reads *)
  check_update : Z -> U -> validation;
  svc_getAll : db -> request -> js_result (list R);
  svc_create : db -> request -> C -> db * js_result R;
  svc_update : db -> request -> string -> string -> U -> db * js_result R;
  svc_delete : db -> request -> string -> db * js_result unit;
  msg_load : string;
  msg_create : string;
  msg_update : string;
  msg_delete : string
}.

Arguments row_id {R C U} h _.
Arguments check_create {R C U} h _ _ _.
Arguments check_update {R C U} h _ _.
Arguments svc_getAll {R C U} h _ _.
Arguments svc_create {R C U} h _ _ _.
Arguments svc_update {R C U} h _ _ _ _ _.
Arguments svc_delete {R C U} h _ _ _.
Arguments msg_load {R C U} h.
Arguments msg_create {R C U} h.
Arguments msg_update {R C U} h.
Arguments msg_delete {R C U} h.

Section Hook.

Context {R C U : Type} (cfg : hook_config R C U).

(** [useState]: the list, [loading] and [error]. *)
Record hook_state : Type := mk_hook_state {
  items : list R;
  loading : bool;
  error : option string
}.

(** An operation in flight, with the service's answer once the store has
    served it. *)
Inductive pending : Type :=
| PLoad (ans : option (js_result (list R)))
| PCreate (data : C) (ans : option (js_result R))
| PUpdate (id : string) (data : U) (ans : option (js_result R))
| PDelete (id : string) (ans : option (js_result unit)).

(** An operation the component calls. *)
Inductive op : Type :=
| OpLoad
| OpCreate (data : C)
| OpUpdate (id : string) (data : U)
| OpDelete (id : string).

Record world : Type := mk_world {
  st : hook_state;
  store : db;
  inflight : list pending
}.

(** [setLoading(true); setError(null)] *)
Definition start_loading (s : hook_state) : hook_state := mk_hook_state (items s) true None.

(** The part of an operation before its [await]: for create and update,
    the validation and its [throw]. *)
Definition begin (w : world) (t1 t2 : Z) (o : op) : world * option js_error :=
  let go p := (mk_world (start_loading (st w)) (store w) (inflight w ++ [p]), None) in
  match o with
  | OpLoad => go (PLoad None)
  | OpCreate data =>
      let v := check_create cfg t1 t2 data in
      if isValid v then go (PCreate data None)
      else (w, Some (JsError (js_join ", " (errors v))))
  | OpUpdate id data =>
      let v := check_update cfg t1 data in
      if isValid v then go (PUpdate id data None)
      else (w, Some (JsError (js_join ", " (errors v))))
  | OpDelete id => go (PDelete id None)
  end.

(** The store serves the request of the [i]-th operation in flight. *)
Definition serve (w : world) (i : nat) (rq : request) (now : string) : option world :=
  let answer d' p := Some (mk_world (st w) d' (<[i := p]> (inflight w))) in
  match inflight w !! i with
  | Some (PLoad None) => answer (store w) (PLoad (Some (svc_getAll cfg (store w) rq)))
  | Some (PCreate data None) =>
      let '(d', r) := svc_create cfg (store w) rq data in answer d' (PCreate data (Some r))
  | Some (PUpdate id data None) =>
      let '(d', r) := svc_update cfg (store w) rq now id data in answer d' (PUpdate id data (Some r))
  | Some (PDelete id None) =>
      let '(d', r) := svc_delete cfg (store w) rq id in answer d' (PDelete id (Some r))
  | _ => None
  end.

(** What the caller's promise settles to. *)
Inductive settled : Type :=
| Resolved
| ResolvedRow (r : R)
| Rejected (e : js_error).

(** [catch]: record the message; [finally]: clear [loading]. *)
Definition fail_with (s : hook_state) (e : js_error) (default : string) : hook_state * settled :=
  let m := error_message e default in
  (mk_hook_state (items s) false (Some m), Rejected (JsError m)).

(** The continuation after the [await] of an answered operation. *)
Definition settle (s : hook_state) (p : pending) : option (hook_state * settled) :=
  match p with
  | PLoad (Some (Ok data)) => Some (mk_hook_state data false (error s), Resolved)
  | PLoad (Some (Throw e)) =>
      Some (mk_hook_state (items s) false (Some (error_message e (msg_load cfg))), Resolved)
  | PCreate _ (Some (Ok r)) => Some (mk_hook_state (r :: items s) false (error s), ResolvedRow r)
  | PCreate _ (Some (Throw e)) => Some (fail_with s e (msg_create cfg))
  | PUpdate id _ (Some (Ok r)) =>
      Some (mk_hook_state (map (fun p => if String.eqb (row_id cfg p) id then r else p) (items s))
              false (error s), ResolvedRow r)
  | PUpdate _ _ (Some (Throw e)) => Some (fail_with s e (msg_update cfg))
  | PDelete id (Some (Ok _)) =>
      Some (mk_hook_state (List.filter (fun p => negb (String.eqb (row_id cfg p) id)) (items s))
              false (error s), Resolved)
  | PDelete _ (Some (Throw e)) => Some (fail_with s e (msg_delete cfg))
  | _ => None
  end.

Definition finish (w : world) (i : nat) : option (world * settled) :=
  match inflight w !! i with
  | Some p =>
      match settle (st w) p with
      | Some (s', out) => Some (mk_world s' (store w) (delete i (inflight w)), out)
      | None => None
      end
  | None => None
  end.

Inductive hook_step : world -> world -> Prop :=
| SBegin w t1 t2 o w' r : begin w t1 t2 o = (w', r) -> hook_step w w'
| SServe w i rq now w' : serve w i rq now = Some w' -> hook_step w w'
| SFinish w i w' out : finish w i = Some (w', out) -> hook_step w w'.

(** The state before the mount effect runs. *)
Definition initial (d : db) : world := mk_world (mk_hook_state [] false None) d [].

(** [useEffect(() => { loadX() }, [])] *)
Definition mount (d : db) : world := fst (begin (initial d) 0 0 OpLoad).

End Hook.

Arguments hook_state R : clear implicits.
Arguments world R C U : clear implicits.
Arguments pending R C U : clear implicits.
Arguments op C U : clear implicits.
Arguments settled R : clear implicits.

(** ** The three hooks *)

(** [productsService.update(id, productData)]: an [UpdateProductData]
    passed where a [Partial<Product>] is expected. *)
Definition product_patch_of_update (u : UpdateProductData.t) : ProductPatch.t :=
  ProductPatch.mk None (UpdateProductData.code u) (UpdateProductData.name u)
    (UpdateProductData.description u) (UpdateProductData.laboratory u)
    (UpdateProductData.status u) None None.

Definition supplier_patch_of_update (u : UpdateSupplierData.t) : SupplierPatch.t :=
  SupplierPatch.mk None (UpdateSupplierData.id_type u) (UpdateSupplierData.id_number u)
    (UpdateSupplierData.name u) (UpdateSupplierData.address u) (UpdateSupplierData.phone u)
    (UpdateSupplierData.email u) (UpdateSupplierData.contact_person u)
    (UpdateSupplierData.economic_activity u) (UpdateSupplierData.status u) None None.

Definition reception_patch_of_update (u : UpdateReceptionData.t) : ReceptionPatch.t :=
  ReceptionPatch.mk None (UpdateReceptionData.reception_date u) (UpdateReceptionData.product_id u)
    (UpdateReceptionData.supplier_id u) (UpdateReceptionData.invoice_number u)
    (UpdateReceptionData.quantity u) (UpdateReceptionData.batch_number u)
    (UpdateReceptionData.invima_registration u) (UpdateReceptionData.expiration_date u)
    (UpdateReceptionData.presentation_state u) (UpdateReceptionData.notes u) None None.

(** [useProducts] *)
Definition useProducts : hook_config Product.t CreateProductData.t UpdateProductData.t :=
  mk_hook_config Product.t CreateProductData.t UpdateProductData.t
    Product.id
    (fun _ _ data => ProductValidation.validateCreate data)
    (fun _ data => ProductValidation.validateUpdate data)
    ProductsService.getAll ProductsService.create
    (fun d rq now id u => ProductsService.update d rq now id (product_patch_of_update u))
    ProductsService.delete
    "Error cargando productos" "Error creando producto"
    "Error actualizando producto" "Error eliminando producto".

(** [useSuppliers] *)
Definition useSuppliers : hook_config Supplier.t CreateSupplierData.t UpdateSupplierData.t :=
  mk_hook_config Supplier.t CreateSupplierData.t UpdateSupplierData.t
    Supplier.id
    (fun _ _ data => SupplierValidation.validateCreate data)
    (fun _ data => SupplierValidation.validateUpdate data)
    SuppliersService.getAll SuppliersService.create
    (fun d rq now id u => SuppliersService.update d rq now id (supplier_patch_of_update u))
    SuppliersService.delete
    "Error cargando proveedores" "Error creando proveedor"
    "Error actualizando proveedor" "Error eliminando proveedor".

(** [useReceptions]: its validator reads the clock and parses dates. *)
Definition useReceptions (parse_date : string -> jsnum)
  : hook_config ProductReception.t CreateReceptionData.t UpdateReceptionData.t :=
  mk_hook_config ProductReception.t CreateReceptionData.t UpdateReceptionData.t
    ProductReception.id
    (fun now_r now_e data => ReceptionValidation.validateCreate parse_date now_r now_e data)
    (fun now_e data => ReceptionValidation.validateUpdate parse_date now_e data)
    ReceptionsService.getAll ReceptionsService.create
    (fun d rq now id u => ReceptionsService.update d rq now id (reception_patch_of_update u))
    ReceptionsService.delete
    "Error cargando recepciones" "Error creando recepción"
    "Error actualizando recepción" "Error eliminando recepción".

(** ** Example data *)

Definition ibuprofen : CreateProductData.t := CreateProductData.mk "MED001" "Ibuprofeno" None None.

Definition served (id : string) : request := mk_request None id "2025-01-05T10:00:00Z".

Definition empty_db : db := mk_db [] [] [].

(** ** Invariants of the hook *)

Section HookTheorems.

Context {R C U : Type} (cfg : hook_config R C U).

(** The call an operation in flight answers. *)
Definition request_of (p : pending R C U) : op C U :=
  match p with
  | PLoad _ => OpLoad
  | PCreate data _ => OpCreate data
  | PUpdate id data _ => OpUpdate id data
  | PDelete id _ => OpDelete id
  end.

(** A record the hook sends passed its validator, at some clock reading. *)
Definition validated (o : op C U) : Prop :=
  match o with
  | OpCreate data => exists t1 t2, isValid (check_create cfg t1 t2 data) = true
  | OpUpdate _ data => exists t, isValid (check_update cfg t data) = true
  | _ => True
  end.

Definition hook_inv (w : world R C U) : Prop :=
  (inflight w = [] -> loading (st w) = false) /\
  Forall (fun p => validated (request_of p)) (inflight w).

Lemma begin_shape (w w' : world R C U) (t1 t2 : Z) (o : op C U) (r : option js_error) :
  begin cfg w t1 t2 o = (w', r) ->
  w' = w \/
  (exists p, inflight w' = inflight w ++ [p] /\ request_of p = o /\ validated o /\
             loading (st w') = true /\ error (st w') = None /\ items (st w') = items (st w) /\
             store w' = store w).
Proof.
  unfold begin. destruct o as [|data|id data|id]; simpl.
  - intros [= <- _]. right. eexists (PLoad None). simpl. auto 10.
  - destruct (isValid (check_create cfg t1 t2 data)) eqn:Hv; intros [= <- _]; [right|by left].
    exists (PCreate data None). simpl. split_and!; eauto.
  - destruct (isValid (check_update cfg t1 data)) eqn:Hv; intros [= <- _]; [right|by left].
    exists (PUpdate id data None). simpl. split_and!; eauto.
  - intros [= <- _]. right. eexists (PDelete id None). simpl. auto 10.
Qed.

Lemma serve_shape (w w' : world R C U) (i : nat) (rq : request) (now : string) :
  serve cfg w i rq now = Some w' ->
  st w' = st w /\
  exists p p', inflight w !! i = Some p /\ inflight w' = <[i := p']> (inflight w) /\
               request_of p' = request_of p.
Proof.
  unfold serve. destruct (inflight w !! i) as [p|] eqn:Hi; [|discriminate].
  destruct p as [[]|data []|id data []|id []]; try discriminate.
  - intros [= <-]. simpl. split; [done|]. eauto.
  - destruct (svc_create cfg (store w) rq data). intros [= <-]. simpl. split; [done|]. eauto.
  - destruct (svc_update cfg (store w) rq now id data). intros [= <-]. simpl. split; [done|]. eauto.
  - destruct (svc_delete cfg (store w) rq id). intros [= <-]. simpl. split; [done|]. eauto.
Qed.

Lemma settle_loading (s s' : hook_state R) (p : pending R C U) (out : settled R) :
  settle cfg s p = Some (s', out) -> loading s' = false.
Proof.
  destruct p as [[[]|]|? [[]|]|? ? [[]|]|? [[]|]]; simpl; try discriminate;
    unfold fail_with; intros [= <- _]; done.
Qed.

Lemma finish_shape (w w' : world R C U) (i : nat) (out : settled R) :
  finish cfg w i = Some (w', out) ->
  loading (st w') = false /\ inflight w' = delete i (inflight w) /\ store w' = store w /\
  exists p s', inflight w !! i = Some p /\ settle cfg (st w) p = Some (s', out) /\ st w' = s'.
Proof.
  unfold finish. destruct (inflight w !! i) as [p|] eqn:Hi; [|discriminate].
  destruct (settle cfg (st w) p) as [[s' o]|] eqn:Hs; [|discriminate].
  intros [= <- <-]. simpl. split; [by apply (settle_loading (st w) s' p o)|]. eauto 10.
Qed.

Lemma hook_inv_step (w w' : world R C U) : hook_step cfg w w' -> hook_inv w -> hook_inv w'.
Proof.
  intros Hs [Hidle Hval]. destruct Hs as [w t1 t2 o w' r H|w i rq now w' H|w i w' out H].
  - apply begin_shape in H as [->|(p & Hin & Hreq & Hv & Hl & _)]; [done|].
    split; [rewrite Hin; by destruct (inflight w)|].
    rewrite Hin. apply Forall_app. split; [done|]. constructor; [by rewrite Hreq | done].
  - apply serve_shape in H as (Hst & p & p' & Hi & Hin & Hreq).
    split.
    + intros Hnil. rewrite Hst. apply Hidle. rewrite Hin in Hnil.
      apply (f_equal length) in Hnil. rewrite length_insert in Hnil. by destruct (inflight w).
    + rewrite Hin. apply Forall_insert; [done|]. rewrite Hreq.
      by apply (Forall_lookup_1 _ _ _ _ Hval Hi).
  - apply finish_shape in H as (Hl & Hin & _). split; [done|].
    rewrite Hin. by apply Forall_delete.
Qed.

Lemma hook_inv_reachable (d : db) (w : world R C U) :
  rtc (hook_step cfg) (initial d) w -> hook_inv w.
Proof.
  intros Hr. assert (H0 : hook_inv (initial d)) by (split; [done | constructor]).
  revert H0. remember (initial d) as w0 eqn:E. clear E.
  induction Hr; [done|]. intros Hi. apply IHHr. by apply (hook_inv_step x).
Qed.

End HookTheorems.

Section HookProperties.

Context {R C U : Type} (cfg : hook_config R C U).

(** in every state the hook can reach from its first render, when no
    operation is in flight [loading] is false. *)
Theorem hook_idle_not_loading (d : db) (w : world R C U) :
  rtc (hook_step cfg) (initial d) w -> inflight w = [] -> loading (st w) = false.
Proof. intros Hr. apply (hook_inv_reachable cfg d w Hr). Qed.

(** C4: every create or update the hook has in flight carries a record its
    validator accepted: an invalid record never reaches the service. *)
Theorem hook_sends_validated (d : db) (w : world R C U) (i : nat) :
  rtc (hook_step cfg) (initial d) w ->
  (forall data ans, inflight w !! i = Some (PCreate data ans) ->
     exists t1 t2, isValid (check_create cfg t1 t2 data) = true) /\
  (forall id data ans, inflight w !! i = Some (PUpdate id data ans) ->
     exists t, isValid (check_update cfg t data) = true).
Proof.
  intros Hr. destruct (hook_inv_reachable cfg d w Hr) as [_ Hv].
  split; intros * Hi; exact (Forall_lookup_1 _ _ _ _ Hv Hi).
Qed.

(** C14: [loading] is one flag shared by all operations, so it can be false
    while an operation is still in flight: two loads start, the first
    finishes and clears it. *)
Theorem hook_loading_race (d : db) (rq : request) :
  exists w : world R C U,
    rtc (hook_step cfg) (initial d) w /\ loading (st w) = false /\ inflight w <> [].
Proof.
  destruct (svc_getAll cfg d rq) as [data|e] eqn:E; eexists; split.
  1, 3:
    eapply rtc_l; [apply (SBegin cfg _ 0 0 OpLoad _ None); reflexivity|];
    eapply rtc_l; [apply (SBegin cfg _ 0 0 OpLoad _ None); reflexivity|];
    eapply rtc_l; [apply (SServe cfg _ 0 rq EmptyString); reflexivity|];
    eapply rtc_l; [apply (SFinish cfg _ 0 _ Resolved); unfold finish; simpl; rewrite E; reflexivity|];
    apply rtc_refl.
  all: simpl; split; [reflexivity | discriminate].
Qed.

(** a create of a valid record that the store accepts, run alone,
    prepends the stored row to the list, clears [loading] and [error],
    and resolves to the row. *)
Theorem hook_create_completes (w : world R C U) (t1 t2 : Z) (data : C) (rq : request) (now : string)
  (d' : db) (r : R) :
  inflight w = [] -> isValid (check_create cfg t1 t2 data) = true ->
  svc_create cfg (store w) rq data = (d', Ok r) ->
  exists w1 w2,
    begin cfg w t1 t2 (OpCreate data) = (w1, None) /\ serve cfg w1 0 rq now = Some w2 /\
    finish cfg w2 0 = Some (mk_world (mk_hook_state (r :: items (st w)) false None) d' [], ResolvedRow r).
Proof.
  intros Hin Hv Hs. destruct w as [s d0 fl]; simpl in *; subst fl.
  unfold begin. rewrite Hv. do 2 eexists. split; [reflexivity|]. split.
  - unfold serve. simpl. rewrite Hs. reflexivity.
  - reflexivity.
Qed.

(** C20: a create the store refuses, run alone, leaves the list as it was,
    records the error's message (or the hook's fallback text when the
    thrown value is not an [Error]) and rejects with that message. *)
Theorem hook_create_fails (w : world R C U) (t1 t2 : Z) (data : C) (rq : request) (now : string)
  (d' : db) (e : js_error) :
  inflight w = [] -> isValid (check_create cfg t1 t2 data) = true ->
  svc_create cfg (store w) rq data = (d', Throw e) ->
  exists w1 w2,
    begin cfg w t1 t2 (OpCreate data) = (w1, None) /\ serve cfg w1 0 rq now = Some w2 /\
    finish cfg w2 0 =
      Some (mk_world (mk_hook_state (items (st w)) false (Some (error_message e (msg_create cfg)))) d' [],
            Rejected (JsError (error_message e (msg_create cfg)))).
Proof.
  intros Hin Hv Hs. destruct w as [s d0 fl]; simpl in *; subst fl.
  unfold begin. rewrite Hv. do 2 eexists. split; [reflexivity|]. split.
  - unfold serve. simpl. rewrite Hs. reflexivity.
  - reflexivity.
Qed.

(** a create of an invalid record throws
    [new Error(errors.join(", "))] before any state or store change. *)
Theorem hook_create_invalid (w : world R C U) (t1 t2 : Z) (data : C) :
  isValid (check_create cfg t1 t2 data) = false ->
  begin cfg w t1 t2 (OpCreate data) = (w, Some (JsError (js_join ", " (errors (check_create cfg t1 t2 data))))).
Proof. intros Hv. unfold begin. by rewrite Hv. Qed.

(** when a delete finishes successfully, the list keeps exactly the
    items with another id. *)
Theorem hook_delete_removes (w w' : world R C U) (i : nat) (id : string) (out : settled R) :
  inflight w !! i = Some (PDelete id (Some (Ok tt))) -> finish cfg w i = Some (w', out) ->
  forall x, In x (items (st w')) <-> In x (items (st w)) /\ row_id cfg x <> id.
Proof.
  intros Hi Hf x. unfold finish in Hf. rewrite Hi in Hf. simpl in Hf. injection Hf as <- _. simpl.
  rewrite filter_In, negb_true_iff, String.eqb_neq. done.
Qed.

(** C15: a load can overwrite a newer list.  From any idle state, a load
    served before a valid create that the store accepts, and finishing
    after it, replaces the list with its answer [l0], computed on the
    store before the create: once nothing is in flight the hook shows
    [l0] while the store is the one the create produced. *)
Theorem stale_load_overwrites (w0 : world R C U) (t1 t2 : Z) (data : C) (rq1 rq2 : request) (now : string)
  (l0 : list R) (d' : db) (r : R) :
  inflight w0 = [] -> isValid (check_create cfg t1 t2 data) = true ->
  svc_getAll cfg (store w0) rq1 = Ok l0 -> svc_create cfg (store w0) rq2 data = (d', Ok r) ->
  exists w, rtc (hook_step cfg) w0 w /\ inflight w = [] /\ store w = d' /\ items (st w) = l0 /\
    loading (st w) = false.
Proof.
  intros Hin Hv Hl Hc. destruct w0 as [s d fl]; simpl in *; subst fl.
  eexists. split.
  - eapply rtc_l; [apply (SBegin cfg _ t1 t2 OpLoad _ None); reflexivity|].
    eapply rtc_l; [apply (SServe cfg _ 0 rq1 now); unfold serve; simpl; rewrite Hl; reflexivity|].
    eapply rtc_l; [apply (SBegin cfg _ t1 t2 (OpCreate data) _ None); unfold begin; simpl; rewrite Hv;
                   reflexivity|].
    eapply rtc_l; [apply (SServe cfg _ 1 rq2 now); unfold serve; simpl; rewrite Hc; reflexivity|].
    eapply rtc_l; [apply (SFinish cfg _ 1 _ (ResolvedRow r)); reflexivity|].
    eapply rtc_l; [apply (SFinish cfg _ 0 _ Resolved); reflexivity|].
    apply rtc_refl.
  - simpl. auto.
Qed.

End HookProperties.

(** ** Scenarios and witnesses *)

Lemma stale_load_overwrites_witness :
  exists w, rtc (hook_step useProducts) (initial empty_db) w /\ inflight w = [] /\
    store w = mk_db [] [Product.mk "p1" "MED001" "Ibuprofeno" None None active
                          "2025-01-05T10:00:00Z" "2025-01-05T10:00:00Z"] [] /\
    items (st w) = [] /\ loading (st w) = false.
Proof.
  apply (stale_load_overwrites useProducts (initial empty_db) 0 0 ibuprofen (served "x") (served "p1")
           EmptyString [] _ (Product.mk "p1" "MED001" "Ibuprofeno" None None active
                          "2025-01-05T10:00:00Z" "2025-01-05T10:00:00Z")); reflexivity.
Defined.

Lemma hook_idle_not_loading_witness :
  loading (st (mk_world (mk_hook_state [] false None) empty_db [] : world Product.t CreateProductData.t UpdateProductData.t)) = false.
Proof. apply (hook_idle_not_loading useProducts empty_db); [apply rtc_refl | reflexivity]. Defined.

Lemma hook_sends_validated_witness :
  exists t1 t2, isValid (check_create useProducts t1 t2 ibuprofen) = true.
Proof.
  apply (proj1 (hook_sends_validated useProducts empty_db
    (fst (begin useProducts (initial empty_db) 0 0 (OpCreate ibuprofen))) 0
    (rtc_l _ _ _ _ (SBegin useProducts _ 0 0 (OpCreate ibuprofen) _ None eq_refl) (rtc_refl _ _)))
    ibuprofen None).
  reflexivity.
Defined.

Lemma hook_create_completes_witness :
  exists w1 w2,
    begin useProducts (initial empty_db) 0 0 (OpCreate ibuprofen) = (w1, None) /\
    serve useProducts w1 0 (served "p1") EmptyString = Some w2 /\
    finish useProducts w2 0 =
      Some (mk_world (mk_hook_state [Product.mk "p1" "MED001" "Ibuprofeno" None None active
                                       "2025-01-05T10:00:00Z" "2025-01-05T10:00:00Z"] false None)
              (mk_db [] [Product.mk "p1" "MED001" "Ibuprofeno" None None active
                           "2025-01-05T10:00:00Z" "2025-01-05T10:00:00Z"] []) [],
            ResolvedRow (Product.mk "p1" "MED001" "Ibuprofeno" None None active
                           "2025-01-05T10:00:00Z" "2025-01-05T10:00:00Z")).
Proof. apply (hook_create_completes useProducts (initial empty_db)); reflexivity. Defined.

Lemma hook_create_fails_witness :
  exists w1 w2,
    begin useProducts (initial empty_db) 0 0 (OpCreate ibuprofen) = (w1, None) /\
    serve useProducts w1 0 (mk_request (Some NonError) "p1" "t") EmptyString = Some w2 /\
    finish useProducts w2 0 =
      Some (mk_world (mk_hook_state [] false (Some "Error creando producto")) empty_db [],
            Rejected (JsError "Error creando producto")).
Proof. apply (hook_create_fails useProducts (initial empty_db) 0 0 ibuprofen _ _ empty_db NonError); reflexivity. Defined.

Lemma hook_delete_removes_witness :
  ~ In (Product.mk "p1" "MED001" "Ibuprofeno" None None active "t" "t")
       (items (st (mk_world (mk_hook_state [] false None) empty_db [] : world Product.t CreateProductData.t UpdateProductData.t))).
Proof.
  intros Hin.
  apply (hook_delete_removes useProducts
           (mk_world (mk_hook_state [Product.mk "p1" "MED001" "Ibuprofeno" None None active "t" "t"] true None)
              empty_db [PDelete "p1" (Some (Ok tt))])
           (mk_world (mk_hook_state [] false None) empty_db []) 0 "p1" Resolved eq_refl eq_refl) in Hin.
  destruct Hin as [_ Hne]. apply Hne. reflexivity.
Defined.

Lemma hook_create_invalid_witness :
  isValid (check_create useProducts 0 0 (CreateProductData.mk "ME" "Ibuprofeno" None None)) = false /\
  begin useProducts (initial empty_db) 0 0 (OpCreate (CreateProductData.mk "ME" "Ibuprofeno" None None)) =
    (initial empty_db, Some (JsError "El código debe tener al menos 3 caracteres")).
Proof.
  split; [reflexivity|].
  rewrite (hook_create_invalid useProducts (initial empty_db) 0 0
    (CreateProductData.mk "ME" "Ibuprofeno" None None) eq_refl). reflexivity.
Defined.
