(* ===== verification/SupplierDialogs.v ===== *)
(** * SupplierDialogs: [src/components/suppliers/*-dialog.tsx]

    The dialogs are what the supplier page really uses (the hooks are
    not called anywhere): each keeps its own React state and writes to the
    store directly through the Supabase client.

    - [AddSupplierDialog] (add-supplier-dialog.tsx): [open], [loading],
      [formData], [newActivityCode]; the field handlers, the code input's
      sanitiser ([value.replace(/\D/g, "").slice(0, 4)]),
      [addEconomicActivity], [removeEconomicActivity], and [handleSubmit],
      which inserts [formData] as it is.

    A dialog is a state machine: [step] takes one user event or the
    answer of the pending insert and returns the next state and store, or
    [None] when the event cannot happen (a disabled button, a closed
    dialog, a submission the browser blocks).  The browser's constraint
    validation before [onSubmit] blocks an empty [required] control and an
    [<input type="email">] whose value is not an e-mail address; that
    check is the HTML standard's, a parameter [email_input_valid] here.

    Theorems: the activity-code list of every reachable form is
    duplicate-free and made of four-digit codes; a successful submission
    closes and resets the form, a failed one keeps it; and a submission
    can store a supplier that [SupplierValidation.validateCreate]
    rejects. *)

From Stdlib Require Import Ascii String List ZArith.
From stdpp Require Import base list strings.
From S2P Require Import Prelude Regex Patterns Entities Store SupplierValidation.

Module AddSupplierDialog.

Section WithBrowser.

(** The browser's check of an [<input type="email">] value. *)
Context (email_input_valid : string -> bool).

(** [formData] *)
Record form_data : Type := mk_form {
  id_type : string;
  id_number : string;
  name : string;
  address : string;
  phone : string;
  email : string;
  contact_person : string;
  economic_activity : list string
}.

Definition empty_form : form_data := mk_form "" "" "" "" "" "" "" [].

Record dialog : Type := mk_dialog {
  open : bool;
  loading : bool;
  formData : form_data;
  newActivityCode : string;
  submitted : option form_data     (* the insert in flight *)
}.

(** The initial [useState] values. *)
Definition initial : dialog := mk_dialog false false empty_form "" None.

(** The controls whose [onChange] / [onValueChange] is
    [setFormData({ ...formData, field: value })]. *)
Inductive field : Type :=
| FIdType | FIdNumber | FName | FAddress | FPhone | FEmail | FContactPerson.

Definition set_field (fd : form_data) (f : field) (v : string) : form_data :=
  match f with
  | FIdType => mk_form v (id_number fd) (name fd) (address fd) (phone fd) (email fd) (contact_person fd) (economic_activity fd)
  | FIdNumber => mk_form (id_type fd) v (name fd) (address fd) (phone fd) (email fd) (contact_person fd) (economic_activity fd)
  | FName => mk_form (id_type fd) (id_number fd) v (address fd) (phone fd) (email fd) (contact_person fd) (economic_activity fd)
  | FAddress => mk_form (id_type fd) (id_number fd) (name fd) v (phone fd) (email fd) (contact_person fd) (economic_activity fd)
  | FPhone => mk_form (id_type fd) (id_number fd) (name fd) (address fd) v (email fd) (contact_person fd) (economic_activity fd)
  | FEmail => mk_form (id_type fd) (id_number fd) (name fd) (address fd) (phone fd) v (contact_person fd) (economic_activity fd)
  | FContactPerson => mk_form (id_type fd) (id_number fd) (name fd) (address fd) (phone fd) (email fd) v (economic_activity fd)
  end.

Definition set_activity (fd : form_data) (codes : list string) : form_data :=
  mk_form (id_type fd) (id_number fd) (name fd) (address fd) (phone fd) (email fd) (contact_person fd) codes.

Definition with_form (s : dialog) (fd : form_data) : dialog :=
  mk_dialog (open s) (loading s) fd (newActivityCode s) (submitted s).

(** [e.target.value.replace(/\D/g, "").slice(0, 4)] *)
Definition sanitize_code (v : string) : string :=
  string_of_list_ascii (firstn 4 (List.filter is_digit (list_ascii_of_string v))).

(** [disabled={newActivityCode.length !== 4 || !/^\d{4}$/.test(newActivityCode)}] *)
Definition add_disabled (code : string) : bool :=
  negb (String.length code =? 4) || negb (regexp_test activity_code_re code).

(** [addEconomicActivity] *)
Definition addEconomicActivity (s : dialog) : dialog :=
  let code := newActivityCode s in
  if (String.length code =? 4) && regexp_test activity_code_re code then
    let fd := formData s in
    let fd' := if existsb (String.eqb code) (economic_activity fd) then fd
               else set_activity fd (economic_activity fd ++ [code]) in
    mk_dialog (open s) (loading s) fd' "" (submitted s)
  else s.

(** [removeEconomicActivity] *)
Definition removeEconomicActivity (codeToRemove : string) (s : dialog) : dialog :=
  with_form s (set_activity (formData s)
    (List.filter (fun code => negb (String.eqb code codeToRemove)) (economic_activity (formData s)))).

(** The browser's constraint validation: the [required] select and
    inputs are non-empty and the e-mail input holds an e-mail address. *)
Definition form_submittable (fd : form_data) : bool :=
  str_truthy (id_type fd) && str_truthy (id_number fd) && str_truthy (name fd) &&
  (negb (str_truthy (email fd)) || email_input_valid (email fd)).

(** The row [insert([{ ...formData, economic_activity }])] creates. *)
Definition inserted_row (fd : form_data) (rq : request) : Supplier.t :=
  Supplier.mk (fresh_id rq) (id_type fd) (id_number fd) (name fd) (Some (address fd))
    (Some (phone fd)) (Some (email fd)) (Some (contact_person fd)) (Some (economic_activity fd))
    default_status (stamp rq) (stamp rq).

(** [handleSubmit] up to its [await]: [setLoading(true)] and the insert. *)
Definition handleSubmit (s : dialog) : dialog :=
  mk_dialog (open s) true (formData s) (newActivityCode s) (Some (formData s)).

(** [handleSubmit] after its [await]: on success close, reset the form and
    the code input; on error only log; in both cases [setLoading(false)]. *)
Definition submit_done (s : dialog) (fd : form_data) (d : db) (rq : request) : dialog * db :=
  match refused rq with
  | Some _ => (mk_dialog (open s) false (formData s) (newActivityCode s) None, d)
  | None =>
      (mk_dialog false false empty_form "" None,
       mk_db (suppliers d ++ [inserted_row fd rq]) (products d) (product_receptions d))
  end.

Inductive event : Type :=
| SetOpen (b : bool)                (* [onOpenChange], the Cancel button *)
| EditField (f : field) (v : string)
| EditActivityCode (v : string)
| ClickAdd
| ClickRemove (code : string)
| Submit
| SubmitDone (rq : request).

Definition step (w : dialog * db) (ev : event) : option (dialog * db) :=
  let '(s, d) := w in
  match ev with
  | SetOpen b => Some (mk_dialog b (loading s) (formData s) (newActivityCode s) (submitted s), d)
  | EditField f v => if open s then Some (with_form s (set_field (formData s) f v), d) else None
  | EditActivityCode v =>
      if open s then Some (mk_dialog (open s) (loading s) (formData s) (sanitize_code v) (submitted s), d)
      else None
  | ClickAdd =>
      if open s && negb (add_disabled (newActivityCode s)) then Some (addEconomicActivity s, d) else None
  | ClickRemove code =>
      if open s && existsb (String.eqb code) (economic_activity (formData s))
      then Some (removeEconomicActivity code s, d) else None
  | Submit =>
      if open s && negb (loading s) && form_submittable (formData s)
      then Some (handleSubmit s, d) else None
  | SubmitDone rq =>
      match submitted s with
      | Some fd => Some (submit_done s fd d rq)
      | None => None
      end
  end.

(** The dialog over a sequence of events. *)
Definition run (w : dialog * db) (evs : list event) : option (dialog * db) := run_events step w evs.

End WithBrowser.

End AddSupplierDialog.

(** ** Invariants and behaviour of the add dialog *)

Module AddSupplierDialogFacts.

Import AddSupplierDialog.

(** The list of codes a form holds: no repetition, only four-digit codes. *)
Definition activity_ok (codes : list string) : Prop :=
  List.NoDup codes /\ Forall (fun c => regexp_test activity_code_re c = true) codes.

(** The code input holds at most four decimal digits. *)
Definition code_input_ok (c : string) : Prop :=
  String.length c <= 4 /\ all_in CDigit (list_ascii_of_string c).

Definition dialog_ok (s : dialog) : Prop :=
  activity_ok (economic_activity (formData s)) /\ code_input_ok (newActivityCode s) /\
  (forall fd, submitted s = Some fd -> activity_ok (economic_activity fd)).

(** Opening the dialog and typing the seven text fields (no activity
    code). *)
Definition fill_form (t n nm a p e c : string) : list event :=
  [SetOpen true; EditField FIdType t; EditField FIdNumber n; EditField FName nm; EditField FAddress a;
   EditField FPhone p; EditField FEmail e; EditField FContactPerson c].

(** The candidate record a stored row corresponds to. *)
Definition supplier_data (row : Supplier.t) : SupplierValidation.CreateSupplierData.t :=
  SupplierValidation.CreateSupplierData.mk (Supplier.id_type row) (Supplier.id_number row)
    (Supplier.name row) (Supplier.address row) (Supplier.phone row) (Supplier.email row)
    (Supplier.contact_person row) (Supplier.economic_activity row).

Definition code_typing : list event :=
  [SetOpen true; EditActivityCode "47a73-9"; ClickAdd; EditActivityCode "4773"; ClickAdd].

Lemma in_firstn {A : Type} (n : nat) (l : list A) (x : A) : In x (firstn n l) -> In x l.
Proof. intros H. rewrite <- (firstn_skipn n l). apply in_or_app. by left. Qed.

Lemma sanitize_code_ok (v : string) : code_input_ok (sanitize_code v).
Proof.
  unfold code_input_ok, sanitize_code, all_in.
  rewrite string_length_list, list_ascii_of_string_of_list_ascii. split.
  - rewrite length_firstn. lia.
  - apply List.Forall_forall. intros c Hc. apply in_firstn, filter_In in Hc as [_ Hc]. exact Hc.
Qed.

Lemma activity_ok_nil : activity_ok [].
Proof. split; constructor. Qed.

Lemma activity_ok_add (codes : list string) (code : string) :
  activity_ok codes -> regexp_test activity_code_re code = true ->
  existsb (String.eqb code) codes = false -> activity_ok (codes ++ [code]).
Proof.
  intros [Hnd Hall] Hc Hnot. split.
  - apply List.NoDup_app; [done | constructor; [intros [] | constructor] |].
    intros x Hx [<-|[]]. rewrite <- not_true_iff_false, existsb_exists in Hnot.
    apply Hnot. exists code. split; [done | apply String.eqb_refl].
  - apply Forall_app. auto.
Qed.

Lemma activity_ok_filter (codes : list string) (f : string -> bool) :
  activity_ok codes -> activity_ok (List.filter f codes).
Proof.
  intros [Hnd Hall]. split; [by apply List.NoDup_filter|].
  apply List.Forall_forall. intros x Hx. apply filter_In in Hx as [Hx _].
  rewrite List.Forall_forall in Hall. by apply Hall.
Qed.

Lemma set_field_activity (fd : form_data) (f : field) (v : string) :
  economic_activity (set_field fd f v) = economic_activity fd.
Proof. by destruct f. Qed.

Lemma step_ok (email_input_valid : string -> bool) (s s' : dialog) (d d' : db) (ev : event) :
  step email_input_valid (s, d) ev = Some (s', d') -> dialog_ok s -> dialog_ok s'.
Proof.
  intros Hs (Hf & Hc & Hsub). destruct ev as [b|f v|v| |code| |rq]; simpl in Hs.
  - injection Hs as <- _. done.
  - destruct (open s); [|discriminate]. injection Hs as <- _.
    unfold dialog_ok, with_form; simpl. rewrite set_field_activity. done.
  - destruct (open s); [|discriminate]. injection Hs as <- _.
    split; [done|]. split; [apply sanitize_code_ok | done].
  - destruct (open s && _); [|discriminate]. injection Hs as <- _.
    unfold addEconomicActivity.
    destruct ((String.length (newActivityCode s) =? 4) && regexp_test activity_code_re (newActivityCode s))
      eqn:Hg; [|done].
    apply andb_prop in Hg as [_ Hre].
    destruct (existsb (String.eqb (newActivityCode s)) (economic_activity (formData s))) eqn:He;
      (split; [|split; [split; [simpl; lia | constructor] | done]]); [done|].
    by apply activity_ok_add.
  - destruct (open s && _); [|discriminate]. injection Hs as <- _.
    split; [by apply activity_ok_filter | done].
  - destruct (open s && _ && _); [|discriminate]. injection Hs as <- _.
    split; [done|]. split; [done|]. by intros fd [= <-].
  - destruct (submitted s) as [fd|] eqn:Hsb; [|discriminate]. injection Hs as Hs.
    unfold submit_done in Hs. destruct (refused rq); injection Hs as <- _.
    + split; [done|]. split; [done|]. by intros ? [=].
    + split; [apply activity_ok_nil|]. split; [split; [simpl; lia | constructor]|]. by intros ? [=].
Qed.

(** C7: in every state the add-supplier dialog reaches, its list of
    economic-activity codes has no repetition and only four-digit codes,
    and the code input holds at most four digits. *)
Theorem add_dialog_activity_invariant (email_input_valid : string -> bool)
  (evs : list event) (d d' : db) (s : dialog) :
  run email_input_valid (initial, d) evs = Some (s, d') ->
  activity_ok (economic_activity (formData s)) /\ code_input_ok (newActivityCode s).
Proof.
  intros Hrun. assert (H0 : dialog_ok initial).
  { split; [apply activity_ok_nil|]. split; [split; [simpl; lia | constructor] | by intros ? [=]]. }
  refine ((fun H : dialog_ok (fst (s, d')) => _)
            (run_events_inv (step email_input_valid) (fun w => dialog_ok (fst w)) _ evs _ _ Hrun H0)).
  - by destruct H as (? & ? & _).
  - intros [s0 d0] ev [s1 d1] Hs. exact (step_ok email_input_valid s0 s1 d0 d1 ev Hs).
Qed.

(** C29: the add button's guard [length !== 4 || !/^\d{4}$/.test(..)] is
    the regular-expression test alone: the length test is redundant. *)
Theorem add_guard_is_regex (code : string) :
  add_disabled code = negb (regexp_test activity_code_re code).
Proof.
  unfold add_disabled. destruct (regexp_test activity_code_re code) eqn:H; simpl.
  - apply activity_code_length in H. rewrite H. reflexivity.
  - apply orb_true_r.
Qed.

(** C6: the dialog inserts whatever form the browser lets through:
    for any text typed into the seven fields that passes the [required]
    and e-mail input checks, submitting with a successful insert closes
    the dialog and appends exactly the row built from the form; no
    validator runs, so a NIT whose number is not nine digits, a hyphen and
    a digit is stored although [SupplierValidation.validateCreate] rejects
    it. *)
Theorem add_dialog_bypasses_validation (email_input_valid : string -> bool) (d : db)
  (t n nm a p e c : string) (rq : request) :
  form_submittable email_input_valid (mk_form t n nm a p e c []) = true -> refused rq = None ->
  run email_input_valid (initial, d) (fill_form t n nm a p e c ++ [Submit; SubmitDone rq]) =
    Some (mk_dialog false false empty_form "" None,
          mk_db (suppliers d ++ [inserted_row (mk_form t n nm a p e c []) rq]) (products d)
            (product_receptions d)) /\
  (t = "NIT"%string -> SupplierValidation.isValidNIT n = false ->
   isValid (SupplierValidation.validateCreate (supplier_data (inserted_row (mk_form t n nm a p e c []) rq)))
     = false).
Proof.
  intros Hsub Hr. split.
  - unfold run, run_events; simpl. rewrite Hsub. simpl. unfold submit_done. by rewrite Hr.
  - intros -> Hn. apply not_true_iff_false. rewrite SupplierValidation.supplier_create_iff.
    intros (_ & _ & _ & _ & Hshape). cbn in Hshape.
    apply SupplierValidation.isValidNIT_spec in Hshape; [congruence | done].
Qed.

Lemma add_dialog_bypasses_validation_witness :
  run (fun _ => true) (initial, mk_db [] [] [])
    (fill_form "NIT" "123" "Drogueria" "" "" "" "" ++ [Submit; SubmitDone (mk_request None "s1" "t")]) =
    Some (mk_dialog false false empty_form "" None,
          mk_db [inserted_row (mk_form "NIT" "123" "Drogueria" "" "" "" "" []) (mk_request None "s1" "t")] [] []) /\
  isValid (SupplierValidation.validateCreate
    (supplier_data (inserted_row (mk_form "NIT" "123" "Drogueria" "" "" "" "" []) (mk_request None "s1" "t"))))
    = false.
Proof.
  destruct (add_dialog_bypasses_validation (fun _ => true) (mk_db [] [] []) "NIT" "123" "Drogueria" "" "" "" ""
    (mk_request None "s1" "t") eq_refl eq_refl) as [H1 H2].
  split; [exact H1 | apply H2; [reflexivity | vm_compute; reflexivity]].
Defined.

Lemma add_dialog_activity_invariant_witness :
  exists s d', run (fun _ => true) (initial, mk_db [] [] []) code_typing = Some (s, d') /\
  activity_ok (economic_activity (formData s)) /\ code_input_ok (newActivityCode s).
Proof.
  do 2 eexists. split; [reflexivity|].
  eapply (add_dialog_activity_invariant (fun _ => true) code_typing (mk_db [] [] [])). reflexivity.
Defined.

End AddSupplierDialogFacts.
