(* ===== verification/SupplierEditDialogs.v ===== *)
(** * SupplierEditDialogs: [edit-supplier-dialog.tsx] and [delete-supplier-dialog.tsx]

    Like the add dialog (SupplierDialogs.v), both dialogs keep their own
    React state and write to the store directly through the Supabase
    client, without the validators.

    - [EditSupplierDialog]: the form is initialised once from the
      [supplier] prop ([useState] initial value, lines 41-51), the
      economic-activity codes through [parseEconomicActivity] (lines
      26-39), which accepts an array, a JSON string or a plain string.
      [handleSubmit] (lines 74-94) sends
      [update({ ...formData, updated_at: new Date().toISOString() })
      .eq("id", supplier.id)]: every form field is written, the optional
      ones as strings, and the timestamp is read when the request is
      built.  There is no [.single()], so an update that matches no row
      is not an error.
    - [DeleteSupplierDialog]: [handleDelete] (lines 30-46) sends
      [delete().eq("id", supplier.id)].

    Each dialog is a [step] function over its state and the store, as in
    SupplierDialogs.v; a run is [run_events] of the prelude. *)

From Stdlib Require Import Ascii String List ZArith.
From stdpp Require Import base list strings.
From S2P Require Import Prelude Regex Patterns Entities Store Services SupplierDialogs.

Module EditSupplierDialog.

(** The value [parseEconomicActivity] receives ([activity: any]), and
    what [JSON.parse] returns: an array, a string, a number, a boolean,
    [null], [undefined] or another object, which carries the number its
    [length] property converts to ([NaN] when it has none).  Array
    elements are strings: a JSON text whose array holds other values is
    not modelled. *)
Inductive js_value : Type :=
| JArray (l : list string)
| JString (s : string)
| JNumber (z : Z)
| JBool (b : bool)
| JNull
| JUndefined
| JObject (length : jsnum).

(** How a stored [economic_activity] reaches the component: the store's
    rows hold an array or [null]. *)
Definition activity_value (ea : option (list string)) : js_value :=
  match ea with
  | Some l => JArray l
  | None => JNull
  end.

Section WithBrowser.

(** The browser's check of an [<input type="email">] value. *)
Context (email_input_valid : string -> bool).
(** [JSON.parse]: [None] when it throws. *)
Context (json_parse : string -> option js_value).

(** [parseEconomicActivity] *)
Definition parseEconomicActivity (activity : js_value) : list string :=
  match activity with
  | JArray l => l
  | JString s =>
      match json_parse s with
      | Some (JArray parsed) => parsed
      | Some _ => [s]
      | None => if str_truthy s then [s] else []
      end
  | _ => []
  end.

(** [formData] *)
Record form_data : Type := mk_form {
  id_type : string;
  id_number : string;
  name : string;
  address : string;
  phone : string;
  email : string;
  contact_person : string;
  economic_activity : list string;
  status : Prelude.status
}.

(** The [useState] initial value of [formData]. *)
Definition form_of (supplier : Supplier.t) : form_data :=
  mk_form (Supplier.id_type supplier) (Supplier.id_number supplier) (Supplier.name supplier)
    (or_empty (Supplier.address supplier)) (or_empty (Supplier.phone supplier))
    (or_empty (Supplier.email supplier)) (or_empty (Supplier.contact_person supplier))
    (parseEconomicActivity (activity_value (Supplier.economic_activity supplier)))
    (Supplier.status supplier).

Record dialog : Type := mk_dialog {
  open : bool;
  loading : bool;
  formData : form_data;
  newActivityCode : string;
  submitted : option (form_data * string)   (* the update in flight and its timestamp *)
}.

Definition initial (supplier : Supplier.t) : dialog :=
  mk_dialog false false (form_of supplier) "" None.

(** [setFormData({ ...formData, field: value })] for the text controls. *)
Definition set_field (fd : form_data) (f : AddSupplierDialog.field) (v : string) : form_data :=
  match f with
  | AddSupplierDialog.FIdType => mk_form v (id_number fd) (name fd) (address fd) (phone fd) (email fd) (contact_person fd) (economic_activity fd) (status fd)
  | AddSupplierDialog.FIdNumber => mk_form (id_type fd) v (name fd) (address fd) (phone fd) (email fd) (contact_person fd) (economic_activity fd) (status fd)
  | AddSupplierDialog.FName => mk_form (id_type fd) (id_number fd) v (address fd) (phone fd) (email fd) (contact_person fd) (economic_activity fd) (status fd)
  | AddSupplierDialog.FAddress => mk_form (id_type fd) (id_number fd) (name fd) v (phone fd) (email fd) (contact_person fd) (economic_activity fd) (status fd)
  | AddSupplierDialog.FPhone => mk_form (id_type fd) (id_number fd) (name fd) (address fd) v (email fd) (contact_person fd) (economic_activity fd) (status fd)
  | AddSupplierDialog.FEmail => mk_form (id_type fd) (id_number fd) (name fd) (address fd) (phone fd) v (contact_person fd) (economic_activity fd) (status fd)
  | AddSupplierDialog.FContactPerson => mk_form (id_type fd) (id_number fd) (name fd) (address fd) (phone fd) (email fd) v (economic_activity fd) (status fd)
  end.

(** The status select: [setFormData({ ...formData, status: value })]. *)
Definition set_status (fd : form_data) (st : Prelude.status) : form_data :=
  mk_form (id_type fd) (id_number fd) (name fd) (address fd) (phone fd) (email fd) (contact_person fd) (economic_activity fd) st.

Definition set_activity (fd : form_data) (codes : list string) : form_data :=
  mk_form (id_type fd) (id_number fd) (name fd) (address fd) (phone fd) (email fd) (contact_person fd) codes (status fd).

Definition with_form (s : dialog) (fd : form_data) : dialog :=
  mk_dialog (open s) (loading s) fd (newActivityCode s) (submitted s).

(** [addEconomicActivity] *)
Definition addEconomicActivity (s : dialog) : dialog :=
  let code := newActivityCode s in
  if (String.length code =? 4) && regexp_test activity_code_re code then
    let fd := formData s in
    let fd' := if existsb (String.eqb code) (economic_activity fd) then fd
               else set_activity fd (economic_activity fd ++ [code]) in
    mk_dialog (open s) (loading s) fd' "" (submitted s)
  else s.

(** [removeEconomicActivity] *)
Definition removeEconomicActivity (codeToRemove : string) (s : dialog) : dialog :=
  with_form s (set_activity (formData s)
    (List.filter (fun code => negb (String.eqb code codeToRemove)) (economic_activity (formData s)))).

(** The browser's constraint validation of the form. *)
Definition form_submittable (fd : form_data) : bool :=
  str_truthy (id_type fd) && str_truthy (id_number fd) && str_truthy (name fd) &&
  (negb (str_truthy (email fd)) || email_input_valid (email fd)).

(** [{ ...formData, updated_at: now }] applied to a row. *)
Definition updated_row (fd : form_data) (now : string) (r : Supplier.t) : Supplier.t :=
  Supplier.mk (Supplier.id r) (id_type fd) (id_number fd) (name fd) (Some (address fd))
    (Some (phone fd)) (Some (email fd)) (Some (contact_person fd)) (Some (economic_activity fd))
    (status fd) (Supplier.created_at r) now.

(** [handleSubmit] up to its [await]. *)
Definition handleSubmit (s : dialog) (now : string) : dialog :=
  mk_dialog (open s) true (formData s) (newActivityCode s) (Some (formData s, now)).

(** [handleSubmit] after its [await]: on success close (the form keeps
    its values); on error only log; in both cases [setLoading(false)]. *)
Definition submit_done (supplier_id : string) (s : dialog) (fd : form_data) (now : string)
  (d : db) (rq : request) : dialog * db :=
  match refused rq with
  | Some _ => (mk_dialog (open s) false (formData s) (newActivityCode s) None, d)
  | None =>
      (mk_dialog false false (formData s) (newActivityCode s) None,
       set_suppliers d (update_where_id Supplier.id supplier_id (updated_row fd now) (suppliers d)))
  end.

Inductive event : Type :=
| SetOpen (b : bool)
| EditField (f : AddSupplierDialog.field) (v : string)
| SetStatus (st : Prelude.status)
| EditActivityCode (v : string)
| ClickAdd
| ClickRemove (code : string)
| Submit (now : string)              (* with the clock read of [new Date()] *)
| SubmitDone (rq : request).

Definition step (supplier_id : string) (w : dialog * db) (ev : event) : option (dialog * db) :=
  let '(s, d) := w in
  match ev with
  | SetOpen b => Some (mk_dialog b (loading s) (formData s) (newActivityCode s) (submitted s), d)
  | EditField f v => if open s then Some (with_form s (set_field (formData s) f v), d) else None
  | SetStatus st => if open s then Some (with_form s (set_status (formData s) st), d) else None
  | EditActivityCode v =>
      if open s
      then Some (mk_dialog (open s) (loading s) (formData s) (AddSupplierDialog.sanitize_code v) (submitted s), d)
      else None
  | ClickAdd =>
      if open s && negb (AddSupplierDialog.add_disabled (newActivityCode s))
      then Some (addEconomicActivity s, d) else None
  | ClickRemove code =>
      if open s && existsb (String.eqb code) (economic_activity (formData s))
      then Some (removeEconomicActivity code s, d) else None
  | Submit now =>
      if open s && negb (loading s) && form_submittable (formData s)
      then Some (handleSubmit s now, d) else None
  | SubmitDone rq =>
      match submitted s with
      | Some (fd, now) => Some (submit_done supplier_id s fd now d rq)
      | None => None
      end
  end.

(** The dialog of [supplier], from its first render, over a sequence of
    events. *)
Definition run (supplier : Supplier.t) (d : db) (evs : list event) : option (dialog * db) :=
  run_events (step (Supplier.id supplier)) (initial supplier, d) evs.

End WithBrowser.

End EditSupplierDialog.

Module DeleteSupplierDialog.

(** [open] and [loading]; [loading] is true exactly while the delete is
    in flight. *)
Record dialog : Type := mk_dialog {
  open : bool;
  loading : bool
}.

Definition initial : dialog := mk_dialog false false.

(** [handleDelete] up to its [await]. *)
Definition handleDelete (s : dialog) : dialog := mk_dialog (open s) true.

(** [handleDelete] after its [await]. *)
Definition delete_done (supplier_id : string) (s : dialog) (d : db) (rq : request) : dialog * db :=
  match refused rq with
  | Some _ => (mk_dialog (open s) false, d)
  | None => (mk_dialog false false, set_suppliers d (delete_where_id Supplier.id supplier_id (suppliers d)))
  end.

Inductive event : Type :=
| SetOpen (b : bool)        (* [onOpenChange], the Cancel button *)
| ClickDelete               (* [disabled={loading}] *)
| DeleteDone (rq : request).

Definition step (supplier_id : string) (w : dialog * db) (ev : event) : option (dialog * db) :=
  let '(s, d) := w in
  match ev with
  | SetOpen b => Some (mk_dialog b (loading s), d)
  | ClickDelete => if open s && negb (loading s) then Some (handleDelete s, d) else None
  | DeleteDone rq => if loading s then Some (delete_done supplier_id s d rq) else None
  end.

Definition run (supplier : Supplier.t) (d : db) (evs : list event) : option (dialog * db) :=
  run_events (step (Supplier.id supplier)) (initial, d) evs.

End DeleteSupplierDialog.

(** ** Behaviour of the edit and delete dialogs *)

Module SupplierEditDialogFacts.

Import EditSupplierDialog.

Definition edit_ok (s : dialog) : Prop :=
  AddSupplierDialogFacts.activity_ok (economic_activity (formData s)) /\
  AddSupplierDialogFacts.code_input_ok (newActivityCode s).

(** Example data: a supplier registered without its optional fields,
    one of its receptions, and a browser without a JSON parser. *)
Definition no_json (s : string) : option js_value := None.

Definition example_supplier : Supplier.t :=
  Supplier.mk "s1" "NIT" "900123456-1" "Drogueria Central" None None None None None active
    "2025-01-01T00:00:00Z" "2025-01-01T00:00:00Z".

Definition example_store : db :=
  mk_db [example_supplier] []
    [ProductReception.mk "r1" "2025-01-04" "p1" "s1" "F-1" (Num 5) None None None "bueno" None
       "2025-01-04" "2025-01-04" None None].

Definition ok_request : request := mk_request None "x" "2025-02-01T00:00:00Z".

Definition editing : dialog := handleSubmit (initial no_json example_supplier) "2025-02-01T00:00:00Z".

Lemma edit_set_field_activity (fd : form_data) (f : AddSupplierDialog.field) (v : string) :
  economic_activity (set_field fd f v) = economic_activity fd.
Proof. by destruct f. Qed.

Lemma edit_step_ok (email_input_valid : string -> bool) (sid : string) (s s' : dialog) (d d' : db)
  (ev : event) :
  step email_input_valid sid (s, d) ev = Some (s', d') -> edit_ok s -> edit_ok s'.
Proof.
  intros Hs [Hf Hc]. destruct ev as [b|f v|st|v| |code|now|rq]; simpl in Hs.
  - by injection Hs as <- _.
  - destruct (open s); [|discriminate]. injection Hs as <- _.
    unfold edit_ok, with_form; simpl. by rewrite edit_set_field_activity.
  - destruct (open s); [|discriminate]. by injection Hs as <- _.
  - destruct (open s); [|discriminate]. injection Hs as <- _.
    split; [done | apply AddSupplierDialogFacts.sanitize_code_ok].
  - destruct (open s && _); [|discriminate]. injection Hs as <- _.
    unfold addEconomicActivity.
    destruct ((String.length (newActivityCode s) =? 4) && regexp_test activity_code_re (newActivityCode s))
      eqn:Hg; [|done].
    apply andb_prop in Hg as [_ Hre].
    destruct (existsb (String.eqb (newActivityCode s)) (economic_activity (formData s))) eqn:He;
      (split; [|split; [simpl; lia | constructor]]); [done|].
    by apply AddSupplierDialogFacts.activity_ok_add.
  - destruct (open s && _); [|discriminate]. injection Hs as <- _.
    split; [by apply AddSupplierDialogFacts.activity_ok_filter | done].
  - destruct (open s && _ && _); [|discriminate]. by injection Hs as <- _.
  - destruct (submitted s) as [[fd now]|]; [|discriminate]. injection Hs as Hs.
    unfold submit_done in Hs. by destruct (refused rq); injection Hs as <- _.
Qed.

Lemma set_suppliers_same (d : db) : set_suppliers d (suppliers d) = d.
Proof. by destruct d. Qed.

(** a successful update rewrites every row with the supplier's id to
    the submitted form stamped with the submit time, keeps every other
    row, and closes the dialog; the form keeps its values. *)
Theorem edit_dialog_submit_writes (email_input_valid : string -> bool) (sid : string) (s : dialog)
  (d : db) (fd : form_data) (now : string) (rq : request) :
  submitted s = Some (fd, now) -> refused rq = None ->
  exists d', step email_input_valid sid (s, d) (SubmitDone rq) =
             Some (mk_dialog false false (formData s) (newActivityCode s) None, d') /\
    (forall r, In r (suppliers d) -> Supplier.id r <> sid -> In r (suppliers d')) /\
    (forall r, In r (suppliers d) -> Supplier.id r = sid -> In (updated_row fd now r) (suppliers d')) /\
    length (suppliers d') = length (suppliers d) /\
    products d' = products d /\ product_receptions d' = product_receptions d.
Proof.
  intros Hs Hr. simpl. rewrite Hs. unfold submit_done. rewrite Hr.
  eexists. split; [reflexivity|]. simpl. split_and!.
  - intros r Hin Hne. by apply update_where_id_other.
  - intros r Hin Hid. by apply update_where_id_this.
  - apply update_where_id_length.
  - done.
  - done.
Qed.

(** C33: an update whose id matches no row is not an error: the store is
    unchanged, nothing is reported, and the dialog closes as after a
    successful save. *)
Theorem edit_dialog_missing_row_silent (email_input_valid : string -> bool) (sid : string)
  (s : dialog) (d : db) (fd : form_data) (now : string) (rq : request) :
  submitted s = Some (fd, now) -> refused rq = None ->
  (forall r, In r (suppliers d) -> Supplier.id r <> sid) ->
  step email_input_valid sid (s, d) (SubmitDone rq) =
  Some (mk_dialog false false (formData s) (newActivityCode s) None, d).
Proof.
  intros Hs Hr Hnone. simpl. rewrite Hs. unfold submit_done. rewrite Hr.
  rewrite update_where_id_none; [by rewrite set_suppliers_same|].
  apply filter_all_false. intros r Hin. apply String.eqb_neq. by apply Hnone.
Qed.

(** C34: saving the form of a supplier without address, phone, e-mail,
    contact or activity codes, untouched, writes those fields as empty
    strings and an empty list: the row changes although the user changed
    nothing. *)
Theorem edit_dialog_blanks_absent_fields (email_input_valid : string -> bool)
  (json_parse : string -> option js_value) (sup : Supplier.t) (d : db) (now : string) (rq : request) :
  Supplier.address sup = None -> Supplier.phone sup = None -> Supplier.email sup = None ->
  Supplier.contact_person sup = None -> Supplier.economic_activity sup = None ->
  str_truthy (Supplier.id_type sup) = true -> str_truthy (Supplier.id_number sup) = true ->
  str_truthy (Supplier.name sup) = true -> refused rq = None -> In sup (suppliers d) ->
  exists s d',
    run email_input_valid json_parse sup d [SetOpen true; Submit now; SubmitDone rq] = Some (s, d') /\
    In (Supplier.mk (Supplier.id sup) (Supplier.id_type sup) (Supplier.id_number sup) (Supplier.name sup)
          (Some "") (Some "") (Some "") (Some "") (Some []) (Supplier.status sup)
          (Supplier.created_at sup) now)
       (suppliers d').
Proof.
  destruct sup as [id it inum nm ad ph em cp ea st ca ua]; simpl.
  intros -> -> -> -> -> Hit Hin Hnm Hr Hsup.
  unfold run, run_events, step, initial, form_of, form_submittable; simpl.
  rewrite Hit, Hin, Hnm. simpl. unfold submit_done. rewrite Hr.
  do 2 eexists. split; [reflexivity|]. simpl.
  refine (update_where_id_this Supplier.id id _ (suppliers d) _ _ Hsup). reflexivity.
Qed.

(** if the codes the dialog starts from are duplicate-free four-digit
    codes, so are the codes of every state it reaches, and the code input
    holds at most four digits. *)
Theorem edit_dialog_activity_invariant (email_input_valid : string -> bool)
  (json_parse : string -> option js_value) (sup : Supplier.t) (d d' : db) (evs : list event) (s : dialog) :
  AddSupplierDialogFacts.activity_ok
    (parseEconomicActivity json_parse (activity_value (Supplier.economic_activity sup))) ->
  run email_input_valid json_parse sup d evs = Some (s, d') ->
  AddSupplierDialogFacts.activity_ok (economic_activity (formData s)) /\
  AddSupplierDialogFacts.code_input_ok (newActivityCode s).
Proof.
  intros H0 Hrun.
  refine (run_events_inv (step email_input_valid (Supplier.id sup)) (fun w => edit_ok (fst w)) _
            evs _ _ Hrun _).
  - intros [s0 d0] ev [s1 d1] Hs. exact (edit_step_ok email_input_valid _ s0 s1 d0 d1 ev Hs).
  - split; [exact H0 | split; [simpl; lia | constructor]].
Qed.

(** a successful delete closes the dialog and removes exactly the rows
    with the supplier's id, but no reception: the receptions of the
    supplier remain and embed [supplier] as [null], although the dialog
    says the related records are deleted. *)
Theorem delete_dialog_keeps_receptions (sid : string) (s s' : DeleteSupplierDialog.dialog) (d d' : db)
  (rq : request) :
  refused rq = None -> DeleteSupplierDialog.step sid (s, d) (DeleteSupplierDialog.DeleteDone rq) = Some (s', d') ->
  DeleteSupplierDialog.open s' = false /\
  (forall r, In r (suppliers d') <-> In r (suppliers d) /\ Supplier.id r <> sid) /\
  product_receptions d' = product_receptions d /\
  (forall r, ProductReception.supplier_id r = sid -> ProductReception.supplier (embed_relations d' r) = None).
Proof.
  intros Hr Hs. simpl in Hs. destruct (DeleteSupplierDialog.loading s); [|discriminate].
  unfold DeleteSupplierDialog.delete_done in Hs. rewrite Hr in Hs. injection Hs as <- <-.
  split; [done|]. split; [intros r; apply delete_where_id_spec|]. split; [done|].
  intros r Hsid. simpl. rewrite Hsid. apply find_by_id_none.
  intros q Hq. by apply delete_where_id_spec in Hq as [_ ?].
Qed.

(** ** Witnesses *)

Lemma edit_dialog_submit_writes_witness :
  exists d', step (fun _ => true) "s1" (editing, example_store) (SubmitDone ok_request) =
             Some (mk_dialog false false (formData editing) "" None, d') /\
    In (updated_row (formData editing) "2025-02-01T00:00:00Z" example_supplier) (suppliers d').
Proof.
  destruct (edit_dialog_submit_writes (fun _ => true) "s1" editing example_store (formData editing)
              "2025-02-01T00:00:00Z" ok_request eq_refl eq_refl) as (d' & Hs & _ & Hin & _).
  exists d'. split; [exact Hs|]. apply Hin; [left|]; reflexivity.
Defined.

Lemma edit_dialog_missing_row_silent_witness :
  step (fun _ => true) "s9" (editing, example_store) (SubmitDone ok_request) =
  Some (mk_dialog false false (formData editing) "" None, example_store).
Proof.
  apply (edit_dialog_missing_row_silent (fun _ => true) "s9" editing example_store (formData editing)
           "2025-02-01T00:00:00Z" ok_request eq_refl eq_refl).
  intros r [<-|[]]. discriminate.
Defined.

Lemma edit_dialog_blanks_absent_fields_witness :
  exists s d',
    run (fun _ => true) no_json example_supplier example_store
      [SetOpen true; Submit "2025-02-01T00:00:00Z"; SubmitDone ok_request] = Some (s, d') /\
    In (Supplier.mk "s1" "NIT" "900123456-1" "Drogueria Central" (Some "") (Some "") (Some "") (Some "")
          (Some []) active "2025-01-01T00:00:00Z" "2025-02-01T00:00:00Z") (suppliers d').
Proof.
  apply (edit_dialog_blanks_absent_fields (fun _ => true) no_json example_supplier example_store
           "2025-02-01T00:00:00Z" ok_request); try reflexivity. by left.
Defined.

Lemma edit_dialog_activity_invariant_witness :
  exists s d',
    run (fun _ => true) no_json example_supplier example_store
      [SetOpen true; EditActivityCode "21-00"; ClickAdd] = Some (s, d') /\
    AddSupplierDialogFacts.activity_ok (economic_activity (formData s)) /\
    AddSupplierDialogFacts.code_input_ok (newActivityCode s).
Proof.
  do 2 eexists. split; [reflexivity|].
  eapply (edit_dialog_activity_invariant (fun _ => true) no_json example_supplier example_store _
            [SetOpen true; EditActivityCode "21-00"; ClickAdd]).
  - exact AddSupplierDialogFacts.activity_ok_nil.
  - reflexivity.
Defined.

Lemma delete_dialog_keeps_receptions_witness :
  ProductReception.supplier
    (embed_relations (set_suppliers example_store (delete_where_id Supplier.id "s1" (suppliers example_store)))
       (ProductReception.mk "r1" "2025-01-04" "p1" "s1" "F-1" (Num 5) None None None "bueno" None
          "2025-01-04" "2025-01-04" None None)) = None.
Proof.
  destruct (delete_dialog_keeps_receptions "s1" (DeleteSupplierDialog.mk_dialog true true)
              (DeleteSupplierDialog.mk_dialog false false) example_store _ ok_request eq_refl eq_refl)
    as (_ & _ & _ & H).
  by apply H.
Defined.

End SupplierEditDialogFacts.
