(* ===== verification/ListFilters.v ===== *)
(** * ListFilters: the search and status filters of the three list screens

    [products-list.tsx], [suppliers-list.tsx] and [receptions-list.tsx]
    keep a [searchTerm] and a status (or state) filter and render
    [items.filter(..)].  An item passes when the lower-cased search term
    occurs in one of its lower-cased text fields and the filter is
    ["all"] or equals its status.  An optional field is read through
    [?.]: when it is absent, the chain gives [undefined], which is falsy.

    [toLowerCase] is written out on Latin-1 code units (the string model
    of the prelude): [A-Z] and [À-Þ] except [×] map to the code unit 32
    above them, which is what Unicode's lower-case mapping does on that
    range.  [includes] is the substring test. *)

From Stdlib Require Import Ascii String List Arith Lia.
From stdpp Require Import base list strings.
From S2P Require Import Prelude Entities.

Module ListFilters.

(** ** Strings *)

(** [String.prototype.toLowerCase] on one Latin-1 code unit. *)
Definition to_lower_char (c : ascii) : ascii :=
  let n := nat_of_ascii c in
  if ((65 <=? n) && (n <=? 90)) || ((192 <=? n) && (n <=? 222) && negb (n =? 215))
  then ascii_of_nat (n + 32) else c.

(** [s.toLowerCase()] *)
Fixpoint toLowerCase (s : string) : string :=
  match s with
  | EmptyString => EmptyString
  | String c s' => String (to_lower_char c) (toLowerCase s')
  end.

(** [s.startsWith(p)] *)
Fixpoint starts_with (s p : string) : bool :=
  match p, s with
  | EmptyString, _ => true
  | String c p', String d s' => Ascii.eqb c d && starts_with s' p'
  | String _ _, EmptyString => false
  end.

(** [s.includes(sub)]: [sub] starts at some position of [s]. *)
Fixpoint includes (s sub : string) : bool :=
  starts_with s sub ||
  match s with
  | EmptyString => false
  | String _ s' => includes s' sub
  end.

(** [field.toLowerCase().includes(searchTerm.toLowerCase())] *)
Definition matches (searchTerm field : string) : bool :=
  includes (toLowerCase field) (toLowerCase searchTerm).

(** [field?.toLowerCase().includes(..)]: [undefined] when absent. *)
Definition matches_opt (searchTerm : string) (field : option string) : bool :=
  match field with
  | Some f => matches searchTerm f
  | None => false
  end.

(** The value a [status] column holds. *)
Definition status_text (st : Prelude.status) : string :=
  match st with
  | active => "active"
  | inactive => "inactive"
  end.

(** [statusFilter === "all" || item.status === statusFilter] *)
Definition matches_filter (filter value : string) : bool :=
  String.eqb filter "all" || String.eqb value filter.

(** ** The three filters *)

(** [filteredProducts] (products-list.tsx lines 22-31) *)
Definition filteredProducts (searchTerm statusFilter : string) (products : list Product.t)
  : list Product.t :=
  List.filter (fun product =>
    let matchesSearch :=
      matches searchTerm (Product.name product) || matches searchTerm (Product.code product) ||
      matches_opt searchTerm (Product.laboratory product) in
    let matchesStatus := matches_filter statusFilter (status_text (Product.status product)) in
    matchesSearch && matchesStatus) products.

(** [filteredSuppliers] (suppliers-list.tsx lines 22-31) *)
Definition filteredSuppliers (searchTerm statusFilter : string) (suppliers : list Supplier.t)
  : list Supplier.t :=
  List.filter (fun supplier =>
    let matchesSearch :=
      matches searchTerm (Supplier.name supplier) || matches searchTerm (Supplier.id_number supplier) ||
      matches_opt searchTerm (Supplier.email supplier) in
    let matchesStatus := matches_filter statusFilter (status_text (Supplier.status supplier)) in
    matchesSearch && matchesStatus) suppliers.

(** [filteredReceptions] (receptions-list.tsx lines 24-34): the product
    and supplier names come from the embedded relations, [null] when the
    referenced row is gone. *)
Definition filteredReceptions (searchTerm stateFilter : string) (receptions : list ProductReception.t)
  : list ProductReception.t :=
  List.filter (fun reception =>
    let matchesSearch :=
      matches_opt searchTerm (option_map Product.name (ProductReception.product reception)) ||
      matches_opt searchTerm (option_map Supplier.name (ProductReception.supplier reception)) ||
      matches searchTerm (ProductReception.invoice_number reception) ||
      matches_opt searchTerm (ProductReception.batch_number reception) in
    let matchesState := matches_filter stateFilter (ProductReception.presentation_state reception) in
    matchesSearch && matchesState) receptions.

End ListFilters.

(** ** What the filters select *)

Module ListFilterFacts.

Import ListFilters.

(** An example product. *)
Definition aspirin : Product.t :=
  Product.mk "p1" "MED-ASP" "Aspirina" None (Some "Bayer") active "t" "t".

Lemma starts_with_spec (s p : string) : starts_with s p = true <-> exists b, s = (p ++ b)%string.
Proof.
  revert s. induction p as [|c p IH]; intros s; simpl.
  - split; [intros _; by exists s | intros _; by destruct s].
  - destruct s as [|d s]; simpl.
    + split; [discriminate | by intros [b ?]].
    + rewrite andb_true_iff, IH, Ascii.eqb_eq. split.
      * intros [-> [b ->]]. by exists b.
      * intros [b [= -> ->]]. eauto.
Qed.

Lemma includes_spec (s sub : string) :
  includes s sub = true <-> exists a b, s = (a ++ sub ++ b)%string.
Proof.
  induction s as [|c s IH]; cbn [includes]; rewrite orb_true_iff, starts_with_spec.
  - split.
    + intros [[b ->]|?]; [by exists EmptyString, b | discriminate].
    + intros ([|? ?] & b & Hs); [left; by exists b | discriminate].
  - rewrite IH. split.
    + intros [[b Hs]|(a & b & ->)]; [by exists EmptyString, b | by exists (String c a), b].
    + intros ([|c' a] & b & Hs); [left; by exists b|].
      injection Hs as -> ->. right. eauto.
Qed.

Lemma toLowerCase_append (a b : string) :
  toLowerCase (a ++ b) = (toLowerCase a ++ toLowerCase b)%string.
Proof. induction a as [|c a IH]; simpl; [done | by rewrite IH]. Qed.

Lemma to_lower_char_idem (c : ascii) : to_lower_char (to_lower_char c) = to_lower_char c.
Proof. destruct c as [[] [] [] [] [] [] [] []]; reflexivity. Qed.

Lemma toLowerCase_idem (s : string) : toLowerCase (toLowerCase s) = toLowerCase s.
Proof. induction s as [|c s IH]; simpl; [done | by rewrite to_lower_char_idem, IH]. Qed.

Lemma includes_empty (s : string) : includes s "" = true.
Proof. destruct s; reflexivity. Qed.

(** A term that occurs in a field, in any case, matches it. *)
Lemma matches_substring (t f a b : string) : f = (a ++ t ++ b)%string -> matches t f = true.
Proof.
  intros ->. unfold matches. apply includes_spec.
  exists (toLowerCase a), (toLowerCase b). by rewrite !toLowerCase_append.
Qed.

Lemma matches_empty (f : string) : matches "" f = true.
Proof. apply includes_empty. Qed.

Lemma matches_lower (t f : string) : matches (toLowerCase t) f = matches t f.
Proof. unfold matches. by rewrite toLowerCase_idem. Qed.

Lemma matches_opt_lower (t : string) (o : option string) :
  matches_opt (toLowerCase t) o = matches_opt t o.
Proof. destruct o; simpl; [apply matches_lower | done]. Qed.

Lemma filter_id {A : Type} (f : A -> bool) (l : list A) :
  (forall x, In x l -> f x = true) -> List.filter f l = l.
Proof.
  induction l as [|x l IH]; simpl; intros H; [done|].
  rewrite H by auto. f_equal. auto.
Qed.

(** with an empty search term and the filter on "all", each list
    screen shows every item it was given. *)
Theorem list_filters_show_all (products : list Product.t) (suppliers : list Supplier.t)
  (receptions : list ProductReception.t) :
  filteredProducts "" "all" products = products /\
  filteredSuppliers "" "all" suppliers = suppliers /\
  filteredReceptions "" "all" receptions = receptions.
Proof.
  split_and!; apply filter_id; intros x _; cbn zeta; rewrite !matches_empty;
    by rewrite ?orb_true_r.
Qed.

(** a product whose name, code or laboratory contains the search term
    (in any letter case) is shown when the filter is "all" or its status. *)
Theorem products_search_substring (t : string) (p : Product.t) (products : list Product.t) (a b : string) :
  In p products ->
  (Product.name p = (a ++ t ++ b)%string \/ Product.code p = (a ++ t ++ b)%string \/
   Product.laboratory p = Some (a ++ t ++ b)%string) ->
  In p (filteredProducts t "all" products) /\
  In p (filteredProducts t (status_text (Product.status p)) products).
Proof.
  intros Hin Hf. unfold filteredProducts.
  assert (Hs : (matches t (Product.name p) || matches t (Product.code p) ||
                matches_opt t (Product.laboratory p)) = true).
  { destruct Hf as [H|[H|H]].
    - by rewrite (matches_substring t _ a b H).
    - by rewrite (matches_substring t _ a b H), orb_true_r.
    - rewrite H. simpl. by rewrite (matches_substring t _ a b eq_refl), orb_true_r. }
  split; apply filter_In; split; try done; cbn zeta; rewrite Hs; simpl; unfold matches_filter.
  - done.
  - by rewrite String.eqb_refl, orb_true_r.
Qed.

(** the search ignores letter case: searching the lower-cased term
    shows the same items on the three screens. *)
Theorem search_case_insensitive (t f : string) (products : list Product.t) (suppliers : list Supplier.t)
  (receptions : list ProductReception.t) :
  filteredProducts (toLowerCase t) f products = filteredProducts t f products /\
  filteredSuppliers (toLowerCase t) f suppliers = filteredSuppliers t f suppliers /\
  filteredReceptions (toLowerCase t) f receptions = filteredReceptions t f receptions.
Proof.
  unfold filteredProducts, filteredSuppliers, filteredReceptions.
  split_and!; apply List.filter_ext; intros x; by rewrite ?matches_lower, ?matches_opt_lower.
Qed.

(** with an empty search term, the product screen's "active" filter
    keeps exactly the rows [getActive]'s [.eq("status", "active")]
    selects, in the list's order. *)
Theorem products_filter_active (products : list Product.t) :
  filteredProducts "" "active" products =
  List.filter (fun p => bool_decide (Product.status p = active)) products.
Proof.
  apply List.filter_ext. intros p. cbn zeta. rewrite !matches_empty. simpl.
  unfold matches_filter. by destruct (Product.status p).
Qed.

Lemma products_search_substring_witness :
  In aspirin (filteredProducts "piri" "all" [aspirin]) /\
  In aspirin (filteredProducts "piri" "active" [aspirin]).
Proof.
  apply (products_search_substring "piri" aspirin [aspirin] "As" "na"); [by left | by left].
Defined.

End ListFilterFacts.
