(* ===== verification/ProductDialogs.v ===== *)
(** * ProductDialogs: [src/components/products/*-dialog.tsx]

    The three product dialogs, modelled like the supplier dialogs
    (SupplierDialogs.v): React state and the store, one [step] per event,
    and direct Supabase writes without [ProductValidation].

    - [AddProductDialog] (add-product-dialog.tsx): [formData] has four
      text fields; [handleSubmit] (lines 30-53) sends
      [insert([formData])] and, on success, closes the dialog and resets
      the form.  The browser only blocks a submission whose [required]
      code or name is empty.
    - [EditProductDialog] (edit-product-dialog.tsx): the form is
      initialised once from the [product] prop (lines 25-31), and
      [handleSubmit] (lines 34-54) sends
      [update({ ...formData, updated_at: new Date().toISOString() })
      .eq("id", product.id)].
    - [DeleteProductDialog] (delete-product-dialog.tsx): [handleDelete]
      sends [delete().eq("id", product.id)]. *)

From Stdlib Require Import String List ZArith.
From stdpp Require Import base list strings.
From S2P Require Import Prelude Entities Store Services.

Module AddProductDialog.

(** [formData] *)
Record form_data : Type := mk_form {
  code : string;
  name : string;
  description : string;
  laboratory : string
}.

Definition empty_form : form_data := mk_form "" "" "" "".

Record dialog : Type := mk_dialog {
  open : bool;
  loading : bool;
  formData : form_data;
  submitted : option form_data     (* the insert in flight *)
}.

Definition initial : dialog := mk_dialog false false empty_form None.

Inductive field : Type := FCode | FName | FDescription | FLaboratory.

(** [setFormData({ ...formData, field: e.target.value })] *)
Definition set_field (fd : form_data) (f : field) (v : string) : form_data :=
  match f with
  | FCode => mk_form v (name fd) (description fd) (laboratory fd)
  | FName => mk_form (code fd) v (description fd) (laboratory fd)
  | FDescription => mk_form (code fd) (name fd) v (laboratory fd)
  | FLaboratory => mk_form (code fd) (name fd) (description fd) v
  end.

(** The [required] code and name inputs. *)
Definition form_submittable (fd : form_data) : bool :=
  str_truthy (code fd) && str_truthy (name fd).

(** The row [insert([formData])] creates: the store gives the id, the
    timestamps and the [status] default. *)
Definition inserted_row (fd : form_data) (rq : request) : Product.t :=
  Product.mk (fresh_id rq) (code fd) (name fd) (Some (description fd)) (Some (laboratory fd))
    default_status (stamp rq) (stamp rq).

(** [handleSubmit] up to its [await]. *)
Definition handleSubmit (s : dialog) : dialog :=
  mk_dialog (open s) true (formData s) (Some (formData s)).

(** [handleSubmit] after its [await]. *)
Definition submit_done (s : dialog) (fd : form_data) (d : db) (rq : request) : dialog * db :=
  match refused rq with
  | Some _ => (mk_dialog (open s) false (formData s) None, d)
  | None => (mk_dialog false false empty_form None, set_products d (products d ++ [inserted_row fd rq]))
  end.

Inductive event : Type :=
| SetOpen (b : bool)
| EditField (f : field) (v : string)
| Submit
| SubmitDone (rq : request).

Definition step (w : dialog * db) (ev : event) : option (dialog * db) :=
  let '(s, d) := w in
  match ev with
  | SetOpen b => Some (mk_dialog b (loading s) (formData s) (submitted s), d)
  | EditField f v =>
      if open s then Some (mk_dialog (open s) (loading s) (set_field (formData s) f v) (submitted s), d)
      else None
  | Submit =>
      if open s && negb (loading s) && form_submittable (formData s)
      then Some (handleSubmit s, d) else None
  | SubmitDone rq =>
      match submitted s with
      | Some fd => Some (submit_done s fd d rq)
      | None => None
      end
  end.

Definition run (d : db) (evs : list event) : option (dialog * db) := run_events step (initial, d) evs.

End AddProductDialog.

Module EditProductDialog.

(** [formData] *)
Record form_data : Type := mk_form {
  code : string;
  name : string;
  description : string;
  laboratory : string;
  status : Prelude.status
}.

(** The [useState] initial value of [formData]. *)
Definition form_of (product : Product.t) : form_data :=
  mk_form (Product.code product) (Product.name product) (or_empty (Product.description product))
    (or_empty (Product.laboratory product)) (Product.status product).

Record dialog : Type := mk_dialog {
  open : bool;
  loading : bool;
  formData : form_data;
  submitted : option (form_data * string)   (* the update in flight and its timestamp *)
}.

Definition initial (product : Product.t) : dialog := mk_dialog false false (form_of product) None.

Definition set_field (fd : form_data) (f : AddProductDialog.field) (v : string) : form_data :=
  match f with
  | AddProductDialog.FCode => mk_form v (name fd) (description fd) (laboratory fd) (status fd)
  | AddProductDialog.FName => mk_form (code fd) v (description fd) (laboratory fd) (status fd)
  | AddProductDialog.FDescription => mk_form (code fd) (name fd) v (laboratory fd) (status fd)
  | AddProductDialog.FLaboratory => mk_form (code fd) (name fd) (description fd) v (status fd)
  end.

(** The status select. *)
Definition set_status (fd : form_data) (st : Prelude.status) : form_data :=
  mk_form (code fd) (name fd) (description fd) (laboratory fd) st.

Definition form_submittable (fd : form_data) : bool :=
  str_truthy (code fd) && str_truthy (name fd).

(** [{ ...formData, updated_at: now }] applied to a row. *)
Definition updated_row (fd : form_data) (now : string) (r : Product.t) : Product.t :=
  Product.mk (Product.id r) (code fd) (name fd) (Some (description fd)) (Some (laboratory fd))
    (status fd) (Product.created_at r) now.

Definition handleSubmit (s : dialog) (now : string) : dialog :=
  mk_dialog (open s) true (formData s) (Some (formData s, now)).

(** On success close (the form keeps its values); on error only log. *)
Definition submit_done (product_id : string) (s : dialog) (fd : form_data) (now : string)
  (d : db) (rq : request) : dialog * db :=
  match refused rq with
  | Some _ => (mk_dialog (open s) false (formData s) None, d)
  | None =>
      (mk_dialog false false (formData s) None,
       set_products d (update_where_id Product.id product_id (updated_row fd now) (products d)))
  end.

Inductive event : Type :=
| SetOpen (b : bool)
| EditField (f : AddProductDialog.field) (v : string)
| SetStatus (st : Prelude.status)
| Submit (now : string)
| SubmitDone (rq : request).

Definition step (product_id : string) (w : dialog * db) (ev : event) : option (dialog * db) :=
  let '(s, d) := w in
  match ev with
  | SetOpen b => Some (mk_dialog b (loading s) (formData s) (submitted s), d)
  | EditField f v =>
      if open s then Some (mk_dialog (open s) (loading s) (set_field (formData s) f v) (submitted s), d)
      else None
  | SetStatus st =>
      if open s then Some (mk_dialog (open s) (loading s) (set_status (formData s) st) (submitted s), d)
      else None
  | Submit now =>
      if open s && negb (loading s) && form_submittable (formData s)
      then Some (handleSubmit s now, d) else None
  | SubmitDone rq =>
      match submitted s with
      | Some (fd, now) => Some (submit_done product_id s fd now d rq)
      | None => None
      end
  end.

Definition run (product : Product.t) (d : db) (evs : list event) : option (dialog * db) :=
  run_events (step (Product.id product)) (initial product, d) evs.

End EditProductDialog.

Module DeleteProductDialog.

Record dialog : Type := mk_dialog {
  open : bool;
  loading : bool
}.

Definition initial : dialog := mk_dialog false false.

Definition handleDelete (s : dialog) : dialog := mk_dialog (open s) true.

Definition delete_done (product_id : string) (s : dialog) (d : db) (rq : request) : dialog * db :=
  match refused rq with
  | Some _ => (mk_dialog (open s) false, d)
  | None => (mk_dialog false false, set_products d (delete_where_id Product.id product_id (products d)))
  end.

Inductive event : Type :=
| SetOpen (b : bool)
| ClickDelete
| DeleteDone (rq : request).

Definition step (product_id : string) (w : dialog * db) (ev : event) : option (dialog * db) :=
  let '(s, d) := w in
  match ev with
  | SetOpen b => Some (mk_dialog b (loading s), d)
  | ClickDelete => if open s && negb (loading s) then Some (handleDelete s, d) else None
  | DeleteDone rq => if loading s then Some (delete_done product_id s d rq) else None
  end.

Definition run (product : Product.t) (d : db) (evs : list event) : option (dialog * db) :=
  run_events (step (Product.id product)) (initial, d) evs.

End DeleteProductDialog.

(** ** Behaviour of the product dialogs *)

Module ProductDialogFacts.

(** The events of typing a whole form and submitting it. *)
Definition fill_and_submit (fd : AddProductDialog.form_data) (rq : request) : list AddProductDialog.event :=
  [AddProductDialog.SetOpen true;
   AddProductDialog.EditField AddProductDialog.FCode (AddProductDialog.code fd);
   AddProductDialog.EditField AddProductDialog.FName (AddProductDialog.name fd);
   AddProductDialog.EditField AddProductDialog.FDescription (AddProductDialog.description fd);
   AddProductDialog.EditField AddProductDialog.FLaboratory (AddProductDialog.laboratory fd);
   AddProductDialog.Submit; AddProductDialog.SubmitDone rq].

(** The events of deactivating a product and saving. *)
Definition deactivate (now : string) (rq : request) : list EditProductDialog.event :=
  [EditProductDialog.SetOpen true; EditProductDialog.SetStatus inactive;
   EditProductDialog.Submit now; EditProductDialog.SubmitDone rq].

Definition empty_store : db := mk_db [] [] [].

Lemma updated_row_id (fd : EditProductDialog.form_data) (now : string) (r : Product.t) :
  Product.id (EditProductDialog.updated_row fd now r) = Product.id r.
Proof. reflexivity. Qed.

(** Any form whose code and name are non-empty is stored as typed when
    the insert succeeds, and the dialog closes with an empty form: no
    product rule (code of three characters, name of two) is checked. *)
Theorem add_product_stores_form (fd : AddProductDialog.form_data) (d : db) (rq : request) :
  str_truthy (AddProductDialog.code fd) = true -> str_truthy (AddProductDialog.name fd) = true ->
  refused rq = None ->
  AddProductDialog.run d (fill_and_submit fd rq) =
  Some (AddProductDialog.mk_dialog false false AddProductDialog.empty_form None,
        set_products d (products d ++ [AddProductDialog.inserted_row fd rq])).
Proof.
  destruct fd as [c n de la]; simpl. intros Hc Hn Hr.
  unfold AddProductDialog.run, fill_and_submit, run_events; simpl.
  unfold AddProductDialog.form_submittable; simpl. rewrite Hc, Hn. simpl.
  unfold AddProductDialog.submit_done. by rewrite Hr.
Qed.

(** deactivating a product in its edit dialog and saving removes it
    from what [ProductsService.getActive] returns. *)
Theorem edit_product_deactivates (prod : Product.t) (d : db) (now : string) (rq rq' : request) :
  refused rq = None -> refused rq' = None ->
  str_truthy (Product.code prod) = true -> str_truthy (Product.name prod) = true ->
  exists s d' l,
    EditProductDialog.run prod d (deactivate now rq) = Some (s, d') /\
    ProductsService.getActive d' rq' = Ok l /\
    forall p, In p l -> Product.id p <> Product.id prod.
Proof.
  intros Hr Hr' Hc Hn.
  unfold EditProductDialog.run, deactivate, run_events; simpl.
  unfold EditProductDialog.form_submittable; simpl. rewrite Hc, Hn. simpl.
  unfold EditProductDialog.submit_done. rewrite Hr.
  do 3 eexists. split; [reflexivity|]. unfold ProductsService.getActive. rewrite Hr'.
  split; [reflexivity|]. intros p Hp Hid.
  apply sorted_perm_in, filter_In in Hp as [Hp Hact]. simpl in Hp.
  destruct (update_where_id_in Product.id (Product.id prod) _ _ p (updated_row_id _ now) Hp Hid)
    as (r & _ & ->).
  by apply bool_decide_eq_true in Hact.
Qed.

(** A successful product delete removes exactly the rows with the
    product's id but no reception: its receptions remain and embed
    [product] as [null], although the dialog says the related reception
    records are deleted. *)
Theorem delete_product_dialog_keeps_receptions (pid : string) (s s' : DeleteProductDialog.dialog)
  (d d' : db) (rq : request) :
  refused rq = None -> DeleteProductDialog.step pid (s, d) (DeleteProductDialog.DeleteDone rq) = Some (s', d') ->
  DeleteProductDialog.open s' = false /\
  (forall p, In p (products d') <-> In p (products d) /\ Product.id p <> pid) /\
  product_receptions d' = product_receptions d /\
  (forall r, ProductReception.product_id r = pid -> ProductReception.product (embed_relations d' r) = None).
Proof.
  intros Hr Hs. simpl in Hs. destruct (DeleteProductDialog.loading s); [|discriminate].
  unfold DeleteProductDialog.delete_done in Hs. rewrite Hr in Hs. injection Hs as <- <-.
  split; [done|]. split; [intros p; apply delete_where_id_spec|]. split; [done|].
  intros r Hpid. simpl. rewrite Hpid. apply find_by_id_none.
  intros q Hq. by apply delete_where_id_spec in Hq as [_ ?].
Qed.

(** ** Witnesses *)

Lemma edit_product_deactivates_witness :
  exists s d' l,
    EditProductDialog.run (Product.mk "p1" "MED001" "Ibuprofeno" None None active "t" "t")
      (mk_db [] [Product.mk "p1" "MED001" "Ibuprofeno" None None active "t" "t"] [])
      (deactivate "t2" (mk_request None "x" "t2")) = Some (s, d') /\
    ProductsService.getActive d' (mk_request None "y" "t3") = Ok l /\
    forall p, In p l -> Product.id p <> "p1".
Proof. apply edit_product_deactivates; reflexivity. Defined.

End ProductDialogFacts.
