(* ===== verification/ReceptionDialogs.v ===== *)
(** * ReceptionDialogs: [src/components/receptions/*-dialog.tsx]

    The three reception dialogs, modelled like the supplier and product
    dialogs: React state and the store, one [step] per event, and direct
    Supabase writes without [ReceptionValidation].

    - [AddReceptionDialog] (add-reception-dialog.tsx): ten text fields.
      The reception date starts at the clock's
      [new Date().toISOString().slice(0, 16)], a string given to the
      model; the product and supplier selects offer the [products] and
      [suppliers] props.  [handleSubmit] (lines 40-75) inserts
      [{ ...formData, quantity: Number.parseInt(formData.quantity),
      expiration_date: formData.expiration_date || null }].  On success
      it closes the dialog and resets the form with a fresh clock string.
    - [EditReceptionDialog] (edit-reception-dialog.tsx): the form is
      initialised once from the [reception] prop (lines 27-38): the date
      through [new Date(..).toISOString().slice(0, 16)] (a parameter: the
      date parser is not code of the repository), the quantity through
      [toString()], and the expiration date cut at its ["T"].
      [handleSubmit] (lines 41-66) sends the same payload with
      [updated_at] as an update of the reception's id.
    - [DeleteReceptionDialog] (delete-reception-dialog.tsx): [handleDelete]
      deletes the reception's row.

    The browser's checks before [onSubmit] are the [required] controls
    and the [<input type="number" min="1">] of the quantity, whose check
    is the parameter [number_input_valid].

    [ReceptionDialogFacts] proves what the dialogs store: invariants over
    every event sequence (the selects hold offered values, so stored rows
    reference what [Pages.ReceptionsPage] offered), the rows a submission
    writes, and where they differ from [ReceptionValidation] and from the
    number the user typed. *)

From Stdlib Require Import Ascii String List ZArith.
From stdpp Require Import base list strings.
From S2P Require Import Prelude Numbers Entities Store Services Pages ReceptionValidation.

(** The options of the presentation-state select. *)
Definition presentation_states : list string := ["bueno"; "regular"; "malo"].

Definition offers (options : list string) (v : string) : bool := existsb (String.eqb v) options.

(** [formData.expiration_date || null] *)
Definition or_null (s : string) : option string := if str_truthy s then Some s else None.

Module AddReceptionDialog.

(** [formData] *)
Record form_data : Type := mk_form {
  reception_date : string;
  product_id : string;
  supplier_id : string;
  invoice_number : string;
  quantity : string;
  batch_number : string;
  invima_registration : string;
  expiration_date : string;
  presentation_state : string;
  notes : string
}.

(** The initial and the reset form, with the clock's local date-time. *)
Definition empty_form (now_local : string) : form_data := mk_form now_local "" "" "" "" "" "" "" "" "".

Record dialog : Type := mk_dialog {
  open : bool;
  loading : bool;
  formData : form_data;
  submitted : option form_data     (* the insert in flight *)
}.

Definition initial (now_local : string) : dialog := mk_dialog false false (empty_form now_local) None.

(** The text inputs. *)
Inductive field : Type :=
| FReceptionDate | FInvoiceNumber | FQuantity | FBatchNumber | FInvimaRegistration
| FExpirationDate | FNotes.

Definition set_field (fd : form_data) (f : field) (v : string) : form_data :=
  match f with
  | FReceptionDate => mk_form v (product_id fd) (supplier_id fd) (invoice_number fd) (quantity fd) (batch_number fd) (invima_registration fd) (expiration_date fd) (presentation_state fd) (notes fd)
  | FInvoiceNumber => mk_form (reception_date fd) (product_id fd) (supplier_id fd) v (quantity fd) (batch_number fd) (invima_registration fd) (expiration_date fd) (presentation_state fd) (notes fd)
  | FQuantity => mk_form (reception_date fd) (product_id fd) (supplier_id fd) (invoice_number fd) v (batch_number fd) (invima_registration fd) (expiration_date fd) (presentation_state fd) (notes fd)
  | FBatchNumber => mk_form (reception_date fd) (product_id fd) (supplier_id fd) (invoice_number fd) (quantity fd) v (invima_registration fd) (expiration_date fd) (presentation_state fd) (notes fd)
  | FInvimaRegistration => mk_form (reception_date fd) (product_id fd) (supplier_id fd) (invoice_number fd) (quantity fd) (batch_number fd) v (expiration_date fd) (presentation_state fd) (notes fd)
  | FExpirationDate => mk_form (reception_date fd) (product_id fd) (supplier_id fd) (invoice_number fd) (quantity fd) (batch_number fd) (invima_registration fd) v (presentation_state fd) (notes fd)
  | FNotes => mk_form (reception_date fd) (product_id fd) (supplier_id fd) (invoice_number fd) (quantity fd) (batch_number fd) (invima_registration fd) (expiration_date fd) (presentation_state fd) v
  end.

(** The three selects. *)
Inductive choice : Type := CState | CProduct | CSupplier.

Definition set_choice (fd : form_data) (c : choice) (v : string) : form_data :=
  match c with
  | CState => mk_form (reception_date fd) (product_id fd) (supplier_id fd) (invoice_number fd) (quantity fd) (batch_number fd) (invima_registration fd) (expiration_date fd) v (notes fd)
  | CProduct => mk_form (reception_date fd) v (supplier_id fd) (invoice_number fd) (quantity fd) (batch_number fd) (invima_registration fd) (expiration_date fd) (presentation_state fd) (notes fd)
  | CSupplier => mk_form (reception_date fd) (product_id fd) v (invoice_number fd) (quantity fd) (batch_number fd) (invima_registration fd) (expiration_date fd) (presentation_state fd) (notes fd)
  end.

Section WithPage.

(** The browser's check of the quantity input ([type="number"],
    [min="1"]). *)
Context (number_input_valid : string -> bool).
(** The [products] and [suppliers] props. *)
Context (products_opt : list Product.t) (suppliers_opt : list Supplier.t).

(** The values each select offers. *)
Definition options (c : choice) : list string :=
  match c with
  | CState => presentation_states
  | CProduct => map Product.id products_opt
  | CSupplier => map Supplier.id suppliers_opt
  end.

(** The browser's constraint validation of the form. *)
Definition form_submittable (fd : form_data) : bool :=
  str_truthy (reception_date fd) && str_truthy (presentation_state fd) &&
  str_truthy (product_id fd) && str_truthy (supplier_id fd) && str_truthy (invoice_number fd) &&
  str_truthy (quantity fd) && number_input_valid (quantity fd).

(** The row [insert([{ ...formData, quantity, expiration_date }])] creates. *)
Definition inserted_row (fd : form_data) (rq : request) : ProductReception.t :=
  ProductReception.mk (fresh_id rq) (reception_date fd) (product_id fd) (supplier_id fd)
    (invoice_number fd) (JsNumber.parseInt (quantity fd)) (Some (batch_number fd))
    (Some (invima_registration fd)) (or_null (expiration_date fd)) (presentation_state fd)
    (Some (notes fd)) (stamp rq) (stamp rq) None None.

Definition handleSubmit (s : dialog) : dialog :=
  mk_dialog (open s) true (formData s) (Some (formData s)).

(** After the [await]: on success close and reset the form with the
    clock's new local date-time. *)
Definition submit_done (s : dialog) (fd : form_data) (d : db) (rq : request) (now_local : string)
  : dialog * db :=
  match refused rq with
  | Some _ => (mk_dialog (open s) false (formData s) None, d)
  | None =>
      (mk_dialog false false (empty_form now_local) None,
       set_receptions d (product_receptions d ++ [inserted_row fd rq]))
  end.

Inductive event : Type :=
| SetOpen (b : bool)
| EditField (f : field) (v : string)
| Choose (c : choice) (v : string)
| Submit
| SubmitDone (rq : request) (now_local : string).

Definition step (w : dialog * db) (ev : event) : option (dialog * db) :=
  let '(s, d) := w in
  match ev with
  | SetOpen b => Some (mk_dialog b (loading s) (formData s) (submitted s), d)
  | EditField f v =>
      if open s then Some (mk_dialog (open s) (loading s) (set_field (formData s) f v) (submitted s), d)
      else None
  | Choose c v =>
      if open s && offers (options c) v
      then Some (mk_dialog (open s) (loading s) (set_choice (formData s) c v) (submitted s), d)
      else None
  | Submit =>
      if open s && negb (loading s) && form_submittable (formData s)
      then Some (handleSubmit s, d) else None
  | SubmitDone rq now_local =>
      match submitted s with
      | Some fd => Some (submit_done s fd d rq now_local)
      | None => None
      end
  end.

Definition run (now_local : string) (d : db) (evs : list event) : option (dialog * db) :=
  run_events step (initial now_local, d) evs.

End WithPage.

End AddReceptionDialog.

Module EditReceptionDialog.

Import AddReceptionDialog.

(** [s.split("T")[0]] *)
Fixpoint before_T (s : string) : string :=
  match s with
  | EmptyString => EmptyString
  | String c s' => if Ascii.eqb c "T"%char then EmptyString else String c (before_T s')
  end.

Record dialog : Type := mk_dialog {
  open : bool;
  loading : bool;
  formData : form_data;
  submitted : option (form_data * string)   (* the update in flight and its timestamp *)
}.

Section WithPage.

Context (number_input_valid : string -> bool).
Context (products_opt : list Product.t) (suppliers_opt : list Supplier.t).
(** [new Date(s).toISOString().slice(0, 16)] *)
Context (to_datetime_local : string -> string).

(** The [useState] initial value of [formData]. *)
Definition form_of (reception : ProductReception.t) : form_data :=
  mk_form (to_datetime_local (ProductReception.reception_date reception))
    (ProductReception.product_id reception) (ProductReception.supplier_id reception)
    (ProductReception.invoice_number reception)
    (JsNumber.number_to_string (ProductReception.quantity reception))
    (or_empty (ProductReception.batch_number reception))
    (or_empty (ProductReception.invima_registration reception))
    (match ProductReception.expiration_date reception with
     | Some e => if str_truthy e then before_T e else ""
     | None => ""
     end)
    (ProductReception.presentation_state reception)
    (or_empty (ProductReception.notes reception)).

Definition initial (reception : ProductReception.t) : dialog :=
  mk_dialog false false (form_of reception) None.

(** [{ ...formData, quantity, expiration_date, updated_at }] applied to
    a row. *)
Definition updated_row (fd : form_data) (now : string) (r : ProductReception.t) : ProductReception.t :=
  ProductReception.mk (ProductReception.id r) (reception_date fd) (product_id fd) (supplier_id fd)
    (invoice_number fd) (JsNumber.parseInt (quantity fd)) (Some (batch_number fd))
    (Some (invima_registration fd)) (or_null (expiration_date fd)) (presentation_state fd)
    (Some (notes fd)) (ProductReception.created_at r) now None None.

Definition handleSubmit (s : dialog) (now : string) : dialog :=
  mk_dialog (open s) true (formData s) (Some (formData s, now)).

Definition submit_done (reception_id : string) (s : dialog) (fd : form_data) (now : string)
  (d : db) (rq : request) : dialog * db :=
  match refused rq with
  | Some _ => (mk_dialog (open s) false (formData s) None, d)
  | None =>
      (mk_dialog false false (formData s) None,
       set_receptions d (update_where_id ProductReception.id reception_id (updated_row fd now)
                           (product_receptions d)))
  end.

Inductive event : Type :=
| SetOpen (b : bool)
| EditField (f : field) (v : string)
| Choose (c : choice) (v : string)
| Submit (now : string)
| SubmitDone (rq : request).

Definition step (reception_id : string) (w : dialog * db) (ev : event) : option (dialog * db) :=
  let '(s, d) := w in
  match ev with
  | SetOpen b => Some (mk_dialog b (loading s) (formData s) (submitted s), d)
  | EditField f v =>
      if open s then Some (mk_dialog (open s) (loading s) (set_field (formData s) f v) (submitted s), d)
      else None
  | Choose c v =>
      if open s && offers (options products_opt suppliers_opt c) v
      then Some (mk_dialog (open s) (loading s) (set_choice (formData s) c v) (submitted s), d)
      else None
  | Submit now =>
      if open s && negb (loading s) && form_submittable number_input_valid (formData s)
      then Some (handleSubmit s now, d) else None
  | SubmitDone rq =>
      match submitted s with
      | Some (fd, now) => Some (submit_done reception_id s fd now d rq)
      | None => None
      end
  end.

Definition run (reception : ProductReception.t) (d : db) (evs : list event) : option (dialog * db) :=
  run_events (step (ProductReception.id reception)) (initial reception, d) evs.

End WithPage.

End EditReceptionDialog.

Module DeleteReceptionDialog.

Record dialog : Type := mk_dialog {
  open : bool;
  loading : bool
}.

Definition initial : dialog := mk_dialog false false.

Definition handleDelete (s : dialog) : dialog := mk_dialog (open s) true.

Definition delete_done (reception_id : string) (s : dialog) (d : db) (rq : request) : dialog * db :=
  match refused rq with
  | Some _ => (mk_dialog (open s) false, d)
  | None =>
      (mk_dialog false false,
       set_receptions d (delete_where_id ProductReception.id reception_id (product_receptions d)))
  end.

Inductive event : Type :=
| SetOpen (b : bool)
| ClickDelete
| DeleteDone (rq : request).

Definition step (reception_id : string) (w : dialog * db) (ev : event) : option (dialog * db) :=
  let '(s, d) := w in
  match ev with
  | SetOpen b => Some (mk_dialog b (loading s), d)
  | ClickDelete => if open s && negb (loading s) then Some (handleDelete s, d) else None
  | DeleteDone rq => if loading s then Some (delete_done reception_id s d rq) else None
  end.

Definition run (reception : ProductReception.t) (d : db) (evs : list event) : option (dialog * db) :=
  run_events (step (ProductReception.id reception)) (initial, d) evs.

End DeleteReceptionDialog.

(** ** What the reception dialogs store *)

Module ReceptionDialogFacts.

Import AddReceptionDialog.

(** The events that fill the add form with [fd], one control at a time. *)
Definition fill_events (fd : form_data) : list event :=
  [EditField FReceptionDate (reception_date fd); Choose CState (presentation_state fd);
   Choose CProduct (product_id fd); Choose CSupplier (supplier_id fd);
   EditField FInvoiceNumber (invoice_number fd); EditField FQuantity (quantity fd);
   EditField FBatchNumber (batch_number fd); EditField FInvimaRegistration (invima_registration fd);
   EditField FExpirationDate (expiration_date fd); EditField FNotes (notes fd)].

(** The three select values are among the options the page offers. *)
Definition choices_offered (po : list Product.t) (so : list Supplier.t) (fd : form_data) : bool :=
  offers presentation_states (presentation_state fd) && offers (map Product.id po) (product_id fd) &&
  offers (map Supplier.id so) (supplier_id fd).

(** A stored reception read as the data [ReceptionValidation.validateCreate]
    checks. *)
Definition as_create_data (r : ProductReception.t) : ReceptionValidation.CreateReceptionData.t :=
  ReceptionValidation.CreateReceptionData.mk (ProductReception.reception_date r)
    (ProductReception.product_id r) (ProductReception.supplier_id r)
    (ProductReception.invoice_number r) (ProductReception.quantity r)
    (ProductReception.batch_number r) (ProductReception.invima_registration r)
    (ProductReception.expiration_date r) (ProductReception.presentation_state r)
    (ProductReception.notes r).

(** Example data. *)
Definition example_products : list Product.t :=
  [Product.mk "p1" "MED-001" "Acetaminofen" None None active "t" "t"].
Definition example_suppliers : list Supplier.t :=
  [Supplier.mk "s1" "NIT" "900123456-7" "Drogueria Central" None None None None None active "t" "t"].
Definition example_form (q exp : string) : form_data :=
  mk_form "2025-01-01" "p1" "s1" "F-001" q "L-7" "" exp "bueno" "".
Definition ok_request : request := mk_request None "r9" "2025-01-01T12:00:00".
Definition example_reception : ProductReception.t :=
  ProductReception.mk "r1" "2025-01-01T10:00:00" "p1" "s1" "F-001" (Num 12) None None
    (Some "2026-05-01T00:00:00") "bueno" None "t" "t" None None.
Definition example_db : db := mk_db [] [] [example_reception].
Definition page_db : db := mk_db example_suppliers example_products [example_reception].

(** A select of the edit form holds the reception's own value or one it
    offers. *)
Definition kept_or_offered (orig : string) (opts : list string) (v : string) : bool :=
  String.eqb v orig || offers opts v.

Definition edit_choices_ok (po : list Product.t) (so : list Supplier.t) (r0 : ProductReception.t)
  (fd : form_data) : bool :=
  kept_or_offered (ProductReception.presentation_state r0) presentation_states (presentation_state fd) &&
  kept_or_offered (ProductReception.product_id r0) (map Product.id po) (product_id fd) &&
  kept_or_offered (ProductReception.supplier_id r0) (map Supplier.id so) (supplier_id fd).

Definition edit_row_ok (po : list Product.t) (so : list Supplier.t) (r0 p : ProductReception.t) : bool :=
  kept_or_offered (ProductReception.presentation_state r0) presentation_states (ProductReception.presentation_state p) &&
  kept_or_offered (ProductReception.product_id r0) (map Product.id po) (ProductReception.product_id p) &&
  kept_or_offered (ProductReception.supplier_id r0) (map Supplier.id so) (ProductReception.supplier_id p).

(** The invariant of the edit dialog of [r0] started on the store [d0]. *)
Definition edit_inv (po : list Product.t) (so : list Supplier.t) (r0 : ProductReception.t) (d0 : db)
  (w : EditReceptionDialog.dialog * db) : Prop :=
  edit_choices_ok po so r0 (EditReceptionDialog.formData w.1) = true /\
  (forall fd now, EditReceptionDialog.submitted w.1 = Some (fd, now) -> edit_choices_ok po so r0 fd = true) /\
  forall p, In p (product_receptions w.2) -> In p (product_receptions d0) \/ edit_row_ok po so r0 p = true.

(** A select holds nothing yet or one of its options. *)
Definition choice_ok (opts : list string) (v : string) : bool := negb (str_truthy v) || offers opts v.

Definition form_choices_ok (po : list Product.t) (so : list Supplier.t) (fd : form_data) : bool :=
  choice_ok presentation_states (presentation_state fd) && choice_ok (map Product.id po) (product_id fd) &&
  choice_ok (map Supplier.id so) (supplier_id fd).

(** A stored reception references what the page offered. *)
Definition row_offered (po : list Product.t) (so : list Supplier.t) (r : ProductReception.t) : bool :=
  offers presentation_states (ProductReception.presentation_state r) &&
  offers (map Product.id po) (ProductReception.product_id r) &&
  offers (map Supplier.id so) (ProductReception.supplier_id r).

(** The dialog is loading exactly while an insert is in flight. *)
Definition loading_inv (s : dialog) : Prop := loading s = bool_decide (is_Some (submitted s)).

(** The invariant of the add dialog started on the store [d0]: the
    selects hold offered values, the insert in flight carries offered
    values, and every row the dialog added references offered values. *)
Definition add_inv (po : list Product.t) (so : list Supplier.t) (d0 : db) (w : dialog * db) : Prop :=
  form_choices_ok po so (formData w.1) = true /\
  (forall fd, submitted w.1 = Some fd -> choices_offered po so fd = true) /\
  forall r, In r (product_receptions w.2) -> In r (product_receptions d0) \/ row_offered po so r = true.

(** Filling the open add form and submitting it with a successful
    insert closes and resets the dialog and appends [inserted_row]. *)
Lemma add_fill_submit (nv : string -> bool) (po : list Product.t) (so : list Supplier.t)
  (now_local now' : string) (d : db) (fd : form_data) (rq : request) :
  choices_offered po so fd = true -> form_submittable nv fd = true -> refused rq = None ->
  run nv po so now_local d (SetOpen true :: fill_events fd ++ [Submit; SubmitDone rq now']) =
  Some (initial now', set_receptions d (product_receptions d ++ [inserted_row fd rq])).
Proof.
  unfold choices_offered. intros Hc Hs Hr.
  apply andb_true_iff in Hc as [[Hst Hp]%andb_true_iff Hsu].
  destruct fd. unfold run, run_events, step. cbn -[offers form_submittable] in Hst, Hp, Hsu |- *.
  rewrite Hst, Hp, Hsu. cbn -[form_submittable]. rewrite Hs. cbn. unfold submit_done. by rewrite Hr.
Qed.

(** Opening the edit dialog and saving the untouched form with a
    successful update writes [updated_row (form_of r)] over the
    reception's row. *)
Lemma edit_untouched_run (nv : string -> bool) (po : list Product.t) (so : list Supplier.t)
  (tdl : string -> string) (r : ProductReception.t) (d : db) (now : string) (rq : request) :
  form_submittable nv (EditReceptionDialog.form_of tdl r) = true -> refused rq = None ->
  EditReceptionDialog.run nv po so tdl r d
    [EditReceptionDialog.SetOpen true; EditReceptionDialog.Submit now; EditReceptionDialog.SubmitDone rq] =
  Some (EditReceptionDialog.mk_dialog false false (EditReceptionDialog.form_of tdl r) None,
        set_receptions d (update_where_id ProductReception.id (ProductReception.id r)
          (EditReceptionDialog.updated_row (EditReceptionDialog.form_of tdl r) now) (product_receptions d))).
Proof.
  intros Hs Hr. unfold EditReceptionDialog.run, run_events, EditReceptionDialog.step.
  cbn -[form_submittable EditReceptionDialog.form_of]. rewrite Hs.
  cbn -[EditReceptionDialog.form_of]. unfold EditReceptionDialog.submit_done. by rewrite Hr.
Qed.

Lemma offers_In (opts : list string) (v : string) : offers opts v = true <-> In v opts.
Proof.
  unfold offers. rewrite existsb_exists. split.
  - intros (x & Hx & ->%String.eqb_eq). done.
  - intros Hv. exists v. split; [done | apply String.eqb_refl].
Qed.

Lemma choice_ok_offers (opts : list string) (v : string) : offers opts v = true -> choice_ok opts v = true.
Proof. unfold choice_ok. intros ->. apply orb_true_r. Qed.

Lemma form_choices_ok_set_field (po : list Product.t) (so : list Supplier.t) (fd : form_data) (f : field) (v : string) :
  form_choices_ok po so (set_field fd f v) = form_choices_ok po so fd.
Proof. by destruct f. Qed.

Lemma form_choices_ok_empty (po : list Product.t) (so : list Supplier.t) (now_local : string) :
  form_choices_ok po so (empty_form now_local) = true.
Proof. reflexivity. Qed.

(** A submittable form whose selects are consistent holds offered
    values: the [required] selects are non-empty. *)
Lemma choices_ok_submittable (nv : string -> bool) (po : list Product.t) (so : list Supplier.t) (fd : form_data) :
  form_choices_ok po so fd = true -> form_submittable nv fd = true -> choices_offered po so fd = true.
Proof.
  unfold form_choices_ok, choices_offered, form_submittable, choice_ok.
  destruct (str_truthy (presentation_state fd)), (str_truthy (product_id fd)), (str_truthy (supplier_id fd));
    simpl; intros H1 H2; rewrite ?andb_false_r in H2; simpl in *; try discriminate; done.
Qed.

Lemma add_step_inv (nv : string -> bool) (po : list Product.t) (so : list Supplier.t) (d0 : db)
  (w : dialog * db) (ev : event) (w' : dialog * db) :
  step nv po so w ev = Some w' -> add_inv po so d0 w -> add_inv po so d0 w'.
Proof.
  destruct w as [s d]. intros Hst (Hf & Hsub & Hrows). destruct ev as [b|f v|c v| |rq now]; simpl in Hst.
  - injection Hst as <-. by split_and!.
  - destruct (open s); [|discriminate]. injection Hst as <-. split_and!; simpl; [|done..].
    by rewrite form_choices_ok_set_field.
  - destruct (open s && offers (options po so c) v) eqn:G; [|discriminate].
    apply andb_true_iff in G as [_ G]. injection Hst as <-. split_and!; [|done..]. simpl.
    unfold form_choices_ok in Hf |- *. apply andb_true_iff in Hf as [[Ha Hb]%andb_true_iff Hc].
    destruct c; cbn [options] in G; cbn [set_choice presentation_state product_id supplier_id];
      rewrite !andb_true_iff; split_and!; (assumption || by apply choice_ok_offers).
  - destruct (open s && negb (loading s) && form_submittable nv (formData s)) eqn:G; [|discriminate].
    apply andb_true_iff in G as [_ G]. injection Hst as <-. split_and!; [done | | done].
    intros fd [= <-]. by apply (choices_ok_submittable nv).
  - destruct (submitted s) as [fd|] eqn:Hsb; [|discriminate]. injection Hst as <-.
    unfold submit_done. destruct (refused rq).
    + by split_and!.
    + split_and!; [apply form_choices_ok_empty | done |]. simpl.
      intros r [Hr|[<-|[]]]%in_app_or; [by apply Hrows | right]. by apply Hsub.
Qed.

Lemma edit_choices_ok_set_field (po : list Product.t) (so : list Supplier.t) (r0 : ProductReception.t)
  (fd : form_data) (f : field) (v : string) :
  edit_choices_ok po so r0 (set_field fd f v) = edit_choices_ok po so r0 fd.
Proof. by destruct f. Qed.

Lemma edit_choices_ok_set_choice (po : list Product.t) (so : list Supplier.t) (r0 : ProductReception.t)
  (fd : form_data) (c : choice) (v : string) :
  offers (options po so c) v = true -> edit_choices_ok po so r0 fd = true ->
  edit_choices_ok po so r0 (set_choice fd c v) = true.
Proof.
  unfold edit_choices_ok, kept_or_offered. intros G Hf.
  apply andb_true_iff in Hf as [[Ha Hb]%andb_true_iff Hc].
  destruct c; cbn [options] in G; cbn [set_choice presentation_state product_id supplier_id];
    rewrite !andb_true_iff; split_and!; rewrite ?G, ?orb_true_r; done.
Qed.

Lemma edit_choices_ok_form_of (po : list Product.t) (so : list Supplier.t) (tdl : string -> string)
  (r0 : ProductReception.t) :
  edit_choices_ok po so r0 (EditReceptionDialog.form_of tdl r0) = true.
Proof. unfold edit_choices_ok, kept_or_offered. simpl. by rewrite !String.eqb_refl. Qed.

Lemma edit_step_inv (nv : string -> bool) (po : list Product.t) (so : list Supplier.t)
  (r0 : ProductReception.t) (d0 : db) (w : EditReceptionDialog.dialog * db) (ev : EditReceptionDialog.event)
  (w' : EditReceptionDialog.dialog * db) :
  EditReceptionDialog.step nv po so (ProductReception.id r0) w ev = Some w' ->
  edit_inv po so r0 d0 w -> edit_inv po so r0 d0 w'.
Proof.
  destruct w as [s d]. intros Hst (Hf & Hsub & Hrows).
  destruct ev as [b|f v|c v|now|rq]; simpl in Hst.
  - injection Hst as <-. by split_and!.
  - destruct (EditReceptionDialog.open s); [|discriminate]. injection Hst as <-.
    split_and!; [simpl; by rewrite edit_choices_ok_set_field | done..].
  - destruct (EditReceptionDialog.open s && offers (options po so c) v) eqn:G; [|discriminate].
    apply andb_true_iff in G as [_ G]. injection Hst as <-.
    split_and!; [by apply edit_choices_ok_set_choice | done..].
  - destruct (_ && _ && _); [|discriminate]. injection Hst as <-.
    split_and!; [done | | done]. by intros fd now' [= <- _].
  - destruct (EditReceptionDialog.submitted s) as [[fd now]|] eqn:Hsb; [|discriminate].
    injection Hst as <-. unfold EditReceptionDialog.submit_done. destruct (refused rq).
    + by split_and!.
    + split_and!; [done | done |]. simpl. intros p [Hp|(r & Hr & ->)]%update_where_id_cases.
      * by apply Hrows.
      * right. by apply (Hsub fd now).
Qed.

(** Every row after a run of the edit dialog of [r0] was there before or
    holds, in each select, [r0]'s own value or an offered one. *)
Lemma edit_reception_rows_ok (nv : string -> bool) (po : list Product.t) (so : list Supplier.t)
  (tdl : string -> string) (r0 : ProductReception.t) (d : db) (evs : list EditReceptionDialog.event)
  (s : EditReceptionDialog.dialog) (d' : db) :
  EditReceptionDialog.run nv po so tdl r0 d evs = Some (s, d') ->
  forall p, In p (product_receptions d') -> In p (product_receptions d) \/ edit_row_ok po so r0 p = true.
Proof.
  intros Hrun.
  assert (Hinv : edit_inv po so r0 d (s, d')).
  { apply (run_events_inv _ _ (edit_step_inv nv po so r0 d) evs _ _ Hrun).
    split_and!; [apply edit_choices_ok_form_of | done | by left]. }
  apply Hinv.
Qed.

Lemma loading_step_inv (nv : string -> bool) (po : list Product.t) (so : list Supplier.t)
  (w : dialog * db) (ev : event) (w' : dialog * db) :
  step nv po so w ev = Some w' -> loading_inv w.1 -> loading_inv w'.1.
Proof.
  destruct w as [s d]. unfold loading_inv. simpl. intros Hst Hl.
  destruct ev as [b|f v|c v| |rq now]; simpl in Hst.
  - by injection Hst as <-.
  - destruct (open s); [|discriminate]. by injection Hst as <-.
  - destruct (_ && _); [|discriminate]. by injection Hst as <-.
  - destruct (_ && _ && _); [|discriminate]. by injection Hst as <-.
  - destruct (submitted s); [|discriminate]. injection Hst as <-.
    unfold submit_done. by destruct (refused rq).
Qed.

(** C30: the add dialog never stays loading: in every state a run reaches
    where it is loading, an insert is in flight, so the store's answer
    (success or error) is enabled, and it ends the loading; on success
    the store has one more reception. *)
Theorem add_loading_progress (nv : string -> bool) (po : list Product.t) (so : list Supplier.t)
  (now_local : string) (d : db) (evs : list event) (s : dialog) (d' : db) :
  run nv po so now_local d evs = Some (s, d') -> loading s = true ->
  forall rq now', exists s' d'', step nv po so (s, d') (SubmitDone rq now') = Some (s', d'') /\
    loading s' = false /\
    (refused rq = None -> exists r, product_receptions d'' = product_receptions d' ++ [r]).
Proof.
  intros Hrun Hload rq now'.
  assert (Hinv : loading_inv (s, d').1).
  { by apply (run_events_inv (step nv po so) (fun w => loading_inv w.1) (loading_step_inv nv po so) evs
                (initial now_local, d)). }
  unfold loading_inv in Hinv. simpl in Hinv. rewrite Hload in Hinv.
  destruct (submitted s) as [fd|] eqn:Hsub; [|discriminate]. simpl. rewrite Hsub.
  unfold submit_done. destruct (refused rq); eexists _, _; (split; [reflexivity|]); simpl;
    split; [done | | done | ]; [discriminate|]. intros _. by eexists.
Qed.

Lemma or_null_none (s : string) : or_null s = None <-> s = "".
Proof. unfold or_null, str_truthy. destruct (String.eqb_spec s ""); simpl; split; congruence. Qed.

(** Every reception the add dialog stores, whatever the events,
    references a product of the [products] prop, a supplier of the
    [suppliers] prop and one of the presentation states bueno, regular,
    malo: the selects only offer those and are [required]. *)
Lemma add_reception_rows_offered (nv : string -> bool) (po : list Product.t) (so : list Supplier.t)
  (now_local : string) (d : db) (evs : list event) (s : dialog) (d' : db) :
  run nv po so now_local d evs = Some (s, d') ->
  forall r, In r (product_receptions d') ->
    In r (product_receptions d) \/
    (In (ProductReception.presentation_state r) presentation_states /\
     In (ProductReception.product_id r) (map Product.id po) /\
     In (ProductReception.supplier_id r) (map Supplier.id so)).
Proof.
  intros Hrun r Hr.
  assert (Hinv : add_inv po so d (s, d')).
  { apply (run_events_inv (step nv po so) (add_inv po so d) (add_step_inv nv po so d) evs
             (initial now_local, d)); [done|]. split_and!; [done | done | by left]. }
  destruct Hinv as (_ & _ & Hrows). destruct (Hrows r Hr) as [Hold|Hnew]; [by left | right].
  unfold row_offered in Hnew. rewrite !andb_true_iff, !offers_In in Hnew. tauto.
Qed.

(** C24: on the receptions page, whatever the user does in the edit
    dialog of a reception [r0], every row it writes keeps [r0]'s product
    or takes a product that was active, and keeps [r0]'s supplier or
    takes one of the store's suppliers: a reception of a product
    deactivated since can be saved with it, but no reception can be moved
    to an inactive product. *)
Theorem receptions_page_edit_references (d0 : db) (rq1 rq2 rq3 : request) (props : Pages.receptions_props)
  (nv : string -> bool) (tdl : string -> string) (r0 : ProductReception.t)
  (evs : list EditReceptionDialog.event) (s : EditReceptionDialog.dialog) (d' : db) :
  Pages.ReceptionsPage d0 rq1 rq2 rq3 = Ok props ->
  EditReceptionDialog.run nv (Pages.products props) (Pages.suppliers props) tdl r0 d0 evs = Some (s, d') ->
  forall p, In p (product_receptions d') ->
    In p (product_receptions d0) \/
    ((ProductReception.product_id p = ProductReception.product_id r0 \/
      exists q, In q (Store.products d0) /\ Product.status q = active /\ Product.id q = ProductReception.product_id p) /\
     (ProductReception.supplier_id p = ProductReception.supplier_id r0 \/
      exists sp, In sp (Store.suppliers d0) /\ Supplier.id sp = ProductReception.supplier_id p)).
Proof.
  intros Hpage Hrun p Hp. destruct (PageFacts.receptions_page_props _ _ _ _ _ Hpage) as [Hps Hss].
  destruct (edit_reception_rows_ok nv _ _ tdl r0 d0 evs s d' Hrun p Hp) as [?|Hok]; [by left | right].
  unfold edit_row_ok, kept_or_offered in Hok.
  rewrite !andb_true_iff, !orb_true_iff, !String.eqb_eq, !offers_In in Hok.
  destruct Hok as [[_ Hprod] Hsup]. split.
  - destruct Hprod as [?|(q & Hq & Hin)%in_map_iff]; [by left | right].
    apply Hps in Hin. exists q. tauto.
  - destruct Hsup as [?|(sp & Hsp & Hin)%in_map_iff]; [by left | right].
    apply Hss in Hin. exists sp. tauto.
Qed.

(** filling the add form and submitting it with a successful insert
    closes the dialog, resets the form with the clock's new date-time,
    and appends one reception carrying the store's id, the product of the
    form, [parseInt] of the quantity field, and no expiration date exactly
    when that field was left empty. *)
Theorem add_reception_stores_form (nv : string -> bool) (po : list Product.t) (so : list Supplier.t)
  (now_local now' : string) (d : db) (fd : form_data) (rq : request) :
  choices_offered po so fd = true -> form_submittable nv fd = true -> refused rq = None ->
  exists r,
    run nv po so now_local d (SetOpen true :: fill_events fd ++ [Submit; SubmitDone rq now']) =
      Some (initial now', set_receptions d (product_receptions d ++ [r])) /\
    ProductReception.id r = fresh_id rq /\ ProductReception.product_id r = product_id fd /\
    ProductReception.quantity r = JsNumber.parseInt (quantity fd) /\
    (ProductReception.expiration_date r = None <-> expiration_date fd = EmptyString).
Proof.
  intros Hc Hs Hr. exists (inserted_row fd rq).
  split; [by apply add_fill_submit|]. split_and!; try done. apply or_null_none.
Qed.

(** C26: a quantity typed as ["1e3"], which the number input accepts as
    1000, is stored as 1: [Number.parseInt] stops at the ["e"]. *)
Theorem add_reception_exponent_quantity (nv : string -> bool) (po : list Product.t)
  (so : list Supplier.t) (now_local now' : string) (d : db) (fd : form_data) (rq : request) :
  choices_offered po so fd = true -> form_submittable nv fd = true -> refused rq = None ->
  quantity fd = "1e3" ->
  exists r,
    run nv po so now_local d (SetOpen true :: fill_events fd ++ [Submit; SubmitDone rq now']) =
      Some (initial now', set_receptions d (product_receptions d ++ [r])) /\
    ProductReception.quantity r = Num 1.
Proof.
  intros Hc Hs Hr Hq. exists (inserted_row fd rq).
  split; [by apply add_fill_submit | simpl; by rewrite Hq].
Qed.

(** C22: the add dialog stores an expired product: when the expiration date
    parses to an instant at or before the clock, the dialog still inserts
    the reception, although [ReceptionValidation.validateCreate] rejects
    the same data. *)
Theorem add_reception_bypasses_validation (parse_date : string -> jsnum) (now_r now_e : Z)
  (nv : string -> bool) (po : list Product.t) (so : list Supplier.t)
  (now_local now' : string) (d : db) (fd : form_data) (rq : request) :
  choices_offered po so fd = true -> form_submittable nv fd = true -> refused rq = None ->
  str_truthy (expiration_date fd) = true -> js_le (parse_date (expiration_date fd)) (Num now_e) = true ->
  exists r,
    run nv po so now_local d (SetOpen true :: fill_events fd ++ [Submit; SubmitDone rq now']) =
      Some (initial now', set_receptions d (product_receptions d ++ [r])) /\
    isValid (ReceptionValidation.validateCreate parse_date now_r now_e (as_create_data r)) = false.
Proof.
  intros Hc Hs Hr He Hle. exists (inserted_row fd rq).
  split; [by apply add_fill_submit|].
  apply (isValid_false_of_In _ ReceptionValidation.msg_expiration).
  unfold ReceptionValidation.validateCreate, ReceptionValidation.expiration_invalid. cbn.
  unfold or_null. rewrite He. cbn. rewrite He, Hle. cbn.
  unfold push_if at 1, push. apply in_or_app. right. by left.
Qed.

(** C25: saving the untouched edit form keeps the reception's quantity,
    product, supplier and invoice: [parseInt(quantity.toString())] gives
    the quantity back below 10^21.  An absent batch number is stored as
    the empty string ([batch_number || ""] in the form). *)
Theorem edit_reception_keeps_quantity (nv : string -> bool) (po : list Product.t) (so : list Supplier.t)
  (tdl : string -> string) (r : ProductReception.t) (d : db) (now : string) (rq : request) :
  JsNumber.below_exponent (ProductReception.quantity r) ->
  form_submittable nv (EditReceptionDialog.form_of tdl r) = true -> refused rq = None ->
  exists s' d',
    EditReceptionDialog.run nv po so tdl r d
      [EditReceptionDialog.SetOpen true; EditReceptionDialog.Submit now; EditReceptionDialog.SubmitDone rq] =
      Some (s', d') /\
    forall p, In p (product_receptions d') -> ProductReception.id p = ProductReception.id r ->
      ProductReception.quantity p = ProductReception.quantity r /\
      ProductReception.product_id p = ProductReception.product_id r /\
      ProductReception.supplier_id p = ProductReception.supplier_id r /\
      ProductReception.invoice_number p = ProductReception.invoice_number r /\
      ProductReception.batch_number p = Some (or_empty (ProductReception.batch_number r)).
Proof.
  intros Hb Hs Hr. eexists _, _. split; [by apply edit_untouched_run|].
  intros p Hin Hid.
  unfold set_receptions in Hin. simpl in Hin.
  apply update_where_id_in in Hin as (r0 & _ & ->); [| done | done].
  split; [by apply JsNumberFacts.parseInt_toString | done].
Qed.

Lemma add_reception_stores_form_witness :
  exists r,
    run (fun _ => true) example_products example_suppliers "2025-01-01T09:00" example_db
      (SetOpen true :: fill_events (example_form "12" "") ++ [Submit; SubmitDone ok_request "2025-01-01T12:00"]) =
      Some (initial "2025-01-01T12:00", set_receptions example_db (product_receptions example_db ++ [r])) /\
    ProductReception.id r = "r9" /\ ProductReception.product_id r = "p1" /\
    ProductReception.quantity r = JsNumber.parseInt "12" /\
    (ProductReception.expiration_date r = None <-> EmptyString = EmptyString).
Proof.
  apply (add_reception_stores_form (fun _ => true) example_products example_suppliers
           "2025-01-01T09:00" "2025-01-01T12:00" example_db (example_form "12" "") ok_request);
    reflexivity.
Defined.

Lemma add_reception_exponent_quantity_witness :
  exists r,
    run (fun _ => true) example_products example_suppliers "2025-01-01T09:00" example_db
      (SetOpen true :: fill_events (example_form "1e3" "") ++ [Submit; SubmitDone ok_request "2025-01-01T12:00"]) =
      Some (initial "2025-01-01T12:00", set_receptions example_db (product_receptions example_db ++ [r])) /\
    ProductReception.quantity r = Num 1.
Proof.
  apply (add_reception_exponent_quantity (fun _ => true) example_products example_suppliers
           "2025-01-01T09:00" "2025-01-01T12:00" example_db (example_form "1e3" "") ok_request);
    reflexivity.
Defined.

Lemma add_reception_bypasses_validation_witness :
  exists r,
    run (fun _ => true) example_products example_suppliers "2025-01-02T09:00" example_db
      (SetOpen true :: fill_events (example_form "12" "2025-01-01") ++
       [Submit; SubmitDone ok_request "2025-01-02T12:00"]) =
      Some (initial "2025-01-02T12:00", set_receptions example_db (product_receptions example_db ++ [r])) /\
    isValid (ReceptionValidation.validateCreate ReceptionValidation.example_parse 1735776000000%Z
               1735776000000%Z (as_create_data r)) = false.
Proof.
  apply (add_reception_bypasses_validation ReceptionValidation.example_parse 1735776000000%Z
           1735776000000%Z (fun _ => true) example_products example_suppliers "2025-01-02T09:00"
           "2025-01-02T12:00" example_db (example_form "12" "2025-01-01") ok_request);
    reflexivity.
Defined.

Lemma edit_reception_keeps_quantity_witness :
  exists s' d',
    EditReceptionDialog.run (fun _ => true) example_products example_suppliers (fun s => s)
      example_reception example_db
      [EditReceptionDialog.SetOpen true; EditReceptionDialog.Submit "2025-01-03";
       EditReceptionDialog.SubmitDone ok_request] = Some (s', d') /\
    forall p, In p (product_receptions d') -> ProductReception.id p = "r1" ->
      ProductReception.quantity p = Num 12 /\ ProductReception.product_id p = "p1" /\
      ProductReception.supplier_id p = "s1" /\ ProductReception.invoice_number p = "F-001" /\
      ProductReception.batch_number p = Some "".
Proof.
  apply (edit_reception_keeps_quantity (fun _ => true) example_products example_suppliers (fun s => s)
           example_reception example_db "2025-01-03" ok_request); [simpl; lia | reflexivity | reflexivity].
Defined.

(** C23: on the receptions page ([app/receptions/page.tsx]), whose add
    dialog gets [productsServerService.getActive()] and
    [suppliersServerService.getAll()], every reception the dialog stores
    references a product that was active and a supplier that existed
    when the page loaded; the supplier may be inactive. *)
Theorem receptions_page_add_references (d0 : db) (rq1 rq2 rq3 : request) (props : Pages.receptions_props)
  (nv : string -> bool) (now_local : string) (evs : list event) (s : dialog) (d' : db) :
  Pages.ReceptionsPage d0 rq1 rq2 rq3 = Ok props ->
  run nv (Pages.products props) (Pages.suppliers props) now_local d0 evs = Some (s, d') ->
  forall r, In r (product_receptions d') ->
    In r (product_receptions d0) \/
    ((exists p, In p (Store.products d0) /\ Product.status p = active /\ Product.id p = ProductReception.product_id r) /\
     (exists sp, In sp (Store.suppliers d0) /\ Supplier.id sp = ProductReception.supplier_id r)).
Proof.
  intros Hpage Hrun r Hr. destruct (PageFacts.receptions_page_props _ _ _ _ _ Hpage) as [Hps Hss].
  destruct (add_reception_rows_offered nv _ _ now_local d0 evs s d' Hrun r Hr) as [?|(_ & Hp & Hs)];
    [by left | right].
  apply in_map_iff in Hp as (p & Hpid & Hp), Hs as (sp & Hsid & Hs).
  apply Hps in Hp. apply Hss in Hs. split; [exists p | exists sp]; tauto.
Qed.


Lemma receptions_page_add_references_witness :
  In (inserted_row (example_form "12" "") ok_request)
     (product_receptions (set_receptions page_db
        (product_receptions page_db ++ [inserted_row (example_form "12" "") ok_request]))) /\
  (In (inserted_row (example_form "12" "") ok_request) (product_receptions page_db) \/
   ((exists p, In p (products page_db) /\ Product.status p = active /\
               Product.id p = ProductReception.product_id (inserted_row (example_form "12" "") ok_request)) /\
    (exists sp, In sp (suppliers page_db) /\
                Supplier.id sp = ProductReception.supplier_id (inserted_row (example_form "12" "") ok_request)))).
Proof.
  assert (Hin : In (inserted_row (example_form "12" "") ok_request)
     (product_receptions (set_receptions page_db
        (product_receptions page_db ++ [inserted_row (example_form "12" "") ok_request])))).
  { simpl. right. left. reflexivity. }
  split; [exact Hin|].
  apply (receptions_page_add_references page_db ok_request ok_request ok_request
           (Pages.mk_receptions_props (map (embed_relations page_db) [example_reception]) example_products
              example_suppliers)
           (fun _ => true) "2025-01-01T09:00"
           (SetOpen true :: fill_events (example_form "12" "") ++ [Submit; SubmitDone ok_request "2025-01-01T12:00"])
           (initial "2025-01-01T12:00")
           (set_receptions page_db (product_receptions page_db ++ [inserted_row (example_form "12" "") ok_request]))
           eq_refl eq_refl _ Hin).
Defined.

Lemma receptions_page_edit_references_witness :
  In (EditReceptionDialog.updated_row (EditReceptionDialog.form_of (fun t => t) example_reception)
        "2025-01-03" example_reception)
     (product_receptions (set_receptions page_db
        [EditReceptionDialog.updated_row (EditReceptionDialog.form_of (fun t => t) example_reception)
           "2025-01-03" example_reception])) /\
  (In (EditReceptionDialog.updated_row (EditReceptionDialog.form_of (fun t => t) example_reception)
        "2025-01-03" example_reception) (product_receptions page_db) \/
   ((ProductReception.product_id (EditReceptionDialog.updated_row (EditReceptionDialog.form_of (fun t => t)
        example_reception) "2025-01-03" example_reception) = ProductReception.product_id example_reception \/
     exists q, In q (Store.products page_db) /\ Product.status q = active /\
       Product.id q = ProductReception.product_id (EditReceptionDialog.updated_row
         (EditReceptionDialog.form_of (fun t => t) example_reception) "2025-01-03" example_reception)) /\
    (ProductReception.supplier_id (EditReceptionDialog.updated_row (EditReceptionDialog.form_of (fun t => t)
        example_reception) "2025-01-03" example_reception) = ProductReception.supplier_id example_reception \/
     exists sp, In sp (Store.suppliers page_db) /\
       Supplier.id sp = ProductReception.supplier_id (EditReceptionDialog.updated_row
         (EditReceptionDialog.form_of (fun t => t) example_reception) "2025-01-03" example_reception)))).
Proof.
  assert (Hin : In (EditReceptionDialog.updated_row (EditReceptionDialog.form_of (fun t => t) example_reception)
        "2025-01-03" example_reception)
     (product_receptions (set_receptions page_db
        [EditReceptionDialog.updated_row (EditReceptionDialog.form_of (fun t => t) example_reception)
           "2025-01-03" example_reception]))).
  { simpl. by left. }
  split; [exact Hin|].
  exact (receptions_page_edit_references page_db ok_request ok_request ok_request
           (Pages.mk_receptions_props (map (embed_relations page_db) [example_reception]) example_products
              example_suppliers)
           (fun _ => true) (fun t => t) example_reception
           [EditReceptionDialog.SetOpen true; EditReceptionDialog.Submit "2025-01-03";
            EditReceptionDialog.SubmitDone ok_request]
           (EditReceptionDialog.mk_dialog false false (EditReceptionDialog.form_of (fun t => t) example_reception) None)
           (set_receptions page_db
              [EditReceptionDialog.updated_row (EditReceptionDialog.form_of (fun t => t) example_reception)
                 "2025-01-03" example_reception])
           eq_refl eq_refl _ Hin).
Defined.

Lemma add_loading_progress_witness :
  exists s' d'', step (fun _ => true) example_products example_suppliers
    (handleSubmit (mk_dialog true false (example_form "12" "") None), page_db)
    (SubmitDone ok_request "2025-01-01T12:00") = Some (s', d'') /\
    loading s' = false /\
    (refused ok_request = None -> exists r, product_receptions d'' = product_receptions page_db ++ [r]).
Proof.
  apply (add_loading_progress (fun _ => true) example_products example_suppliers "2025-01-01T09:00" page_db
           (SetOpen true :: fill_events (example_form "12" "") ++ [Submit])); reflexivity.
Defined.

End ReceptionDialogFacts.
