(* ===== verification/SupplierCard.v ===== *)
(** * SupplierCard: the economic-activity badges of a supplier card

    [suppliers-list.tsx] (lines 101-126) renders a supplier's
    economic-activity codes with its own inline parsing, not with the
    edit dialog's [parseEconomicActivity]:

    - the block renders only when [supplier.economic_activity] is truthy;
    - a string is passed to [JSON.parse] and the result is assigned to
      [activities] as it is, without the [Array.isArray] check the edit
      dialog makes; when [JSON.parse] throws, the string itself is the
      one code;
    - an array is used as it is; any other value leaves [activities]
      at [[]];
    - [activities.length > 0 ? activities.map(..) : null] then renders
      the badges.  On a value that is not an array this reads [.length]
      of whatever [JSON.parse] gave: [null.length] throws, a non-empty
      string has a length but no [.map], which throws, an object whose
      [length] is a positive number throws at [.map] too, and a number,
      boolean or other object has no positive length, so nothing is
      rendered.

    [render] records the three outcomes.  [JSON.parse] is the same
    parameter as in SupplierEditDialogs.v. *)

From Stdlib Require Import String List ZArith.
From stdpp Require Import base list strings.
From S2P Require Import Prelude Entities SupplierEditDialogs.

Module SupplierCard.

Import EditSupplierDialog.

(** What rendering the activity block gives. *)
Inductive render : Type :=
| Badges (codes : list string)   (* one badge per code *)
| Hidden                         (* the expression renders [null] or [false] *)
| Crash.                         (* a [TypeError] thrown during render *)

(** JavaScript truthiness of a value. *)
Definition js_truthy (v : js_value) : bool :=
  match v with
  | JArray _ | JObject _ => true
  | JString s => str_truthy s
  | JNumber z => negb (Z.eqb z 0)
  | JBool b => b
  | JNull | JUndefined => false
  end.

Section WithParser.

(** [JSON.parse]: [None] when it throws. *)
Context (json_parse : string -> option js_value).

(** The value [activities] holds after the [if]/[else if]. *)
Definition card_activities (ea : js_value) : js_value :=
  match ea with
  | JString s =>
      match json_parse s with
      | Some v => v
      | None => if str_truthy s then JArray [s] else JArray []
      end
  | JArray l => JArray l
  | _ => JArray []
  end.

(** [activities.length > 0 ? activities.map(..) : null] *)
Definition render_activities (activities : js_value) : render :=
  match activities with
  | JArray l => if Nat.ltb 0 (length l) then Badges l else Hidden
  | JString t => if str_truthy t then Crash else Hidden
  | JNull | JUndefined => Crash
  | JObject n => if js_gt n (Num 0) then Crash else Hidden   (* [.map] is not a function *)
  | JNumber _ | JBool _ => Hidden
  end.

(** [supplier.economic_activity && (() => { .. })()] *)
Definition activity_block (ea : js_value) : render :=
  if js_truthy ea then render_activities (card_activities ea) else Hidden.

End WithParser.

End SupplierCard.

Module SupplierCardFacts.

Import EditSupplierDialog SupplierCard.

(** The badges the edit dialog's parsing would show. *)
Definition dialog_render (json_parse : string -> option js_value) (ea : js_value) : render :=
  match parseEconomicActivity json_parse ea with
  | [] => Hidden
  | l => Badges l
  end.

(** A [JSON.parse] for the examples: it knows a number and [null], and
    throws on anything else. *)
Definition example_parse (s : string) : option js_value :=
  if String.eqb s "4711" then Some (JNumber 4711)
  else if String.eqb s "null" then Some JNull
  else None.

(** on what the store holds (an array of codes or [null]), the card
    shows exactly the codes the edit dialog's [parseEconomicActivity]
    gives, and nothing for an empty list or [null]. *)
Theorem card_agrees_with_dialog_on_rows (json_parse : string -> option js_value) (sup : Supplier.t) :
  activity_block json_parse (activity_value (Supplier.economic_activity sup)) =
  dialog_render json_parse (activity_value (Supplier.economic_activity sup)).
Proof. by destruct (Supplier.economic_activity sup) as [[|c l]|]. Qed.

(** C12: a string that [JSON.parse] reads as something other than an array
    (["4711"] reads as the number 4711) is one code for the edit dialog,
    but the card shows no badge for it: it renders nothing, or throws
    when the parse gives [null] or a non-empty string. *)
Theorem card_non_array_json_diverges (json_parse : string -> option js_value) (s : string) (v : js_value) :
  str_truthy s = true -> json_parse s = Some v -> (forall l, v <> JArray l) ->
  parseEconomicActivity json_parse (JString s) = [s] /\
  (activity_block json_parse (JString s) = Hidden \/ activity_block json_parse (JString s) = Crash).
Proof.
  intros Hs Hp Hv. unfold activity_block, parseEconomicActivity, card_activities. simpl.
  rewrite Hs, Hp. destruct v as [l|t| | | | |n]; [by destruct (Hv l) | | by auto.. |].
  - split; [done|]. simpl. destruct (str_truthy t); auto.
  - split; [done|]. simpl. destruct (js_gt n (Num 0)); auto.
Qed.

Lemma card_non_array_json_diverges_witness :
  parseEconomicActivity example_parse (JString "4711") = ["4711"] /\
  (activity_block example_parse (JString "4711") = Hidden \/
   activity_block example_parse (JString "4711") = Crash).
Proof.
  apply (card_non_array_json_diverges example_parse "4711" (JNumber 4711)); [reflexivity | reflexivity | discriminate].
Defined.

End SupplierCardFacts.
