(* ===== verification/ListScreens.v ===== *)
(** * ListScreens: the three list screens and what they render

    [products-list.tsx], [suppliers-list.tsx] and [receptions-list.tsx]
    each keep two pieces of React state: [searchTerm], set by the search
    input, and a status (or state) filter, set by a select whose items
    are its only values.  From these they render:

    - one card per item of [filteredProducts] (and the like,
      ListFilters.v), with the fields the card shows.  A field written
      [{x && <div>..</div>}] appears only when it is truthy ([shown]).
      Dates go through [toLocaleDateString("es-CO", ..)], a parameter
      ([locale_date], [locale_datetime]).  A number is rendered as
      [String(n)] ([JsNumber.number_to_string]);
    - under an empty list, a hint: "adjust the filters" when a search
      term or a filter is set, "start adding" otherwise.

    The screens' state is [ListScreen.state], its events [ListScreen.event]
    and its step [ListScreen.step]; [ProductsList.view] and the like are
    the render.  The text literals are those of the source, as the bytes
    of its UTF-8 encoding. *)

From Stdlib Require Import Ascii String List ZArith Permutation Lia.
From stdpp Require Import base list strings.
From S2P Require Import Prelude Numbers Entities Store Services ListFilters SupplierEditDialogs SupplierCard ReceptionDialogs.

(** [{x && <div>{x}</div>}] on an optional text field. *)
Definition shown (o : option string) : option string :=
  match o with
  | Some v => if str_truthy v then Some v else None
  | None => None
  end.

Module ListScreen.

(** [searchTerm] and [statusFilter] (or [stateFilter]). *)
Record state : Type := mk_state {
  searchTerm : string;
  statusFilter : string
}.

(** [useState("")] and [useState<string>("all")] *)
Definition initial : state := mk_state "" "all".

Inductive event : Type :=
| SetSearch (v : string)      (* the search input's [onChange] *)
| SetFilter (v : string).     (* the select's [onValueChange] *)

(** A select only emits one of its items' values. *)
Definition step (filter_options : list string) (s : state) (ev : event) : option state :=
  match ev with
  | SetSearch v => Some (mk_state v (statusFilter s))
  | SetFilter v => if offers filter_options v then Some (mk_state (searchTerm s) v) else None
  end.

(** The hint under an empty list. *)
Inductive hint : Type :=
| NoHint           (* the list is not empty: no block *)
| AdjustFilters    (* [searchTerm || statusFilter !== "all"] *)
| StartAdding.

(** [filtered.length === 0 && (.. searchTerm || statusFilter !== "all" ? .. : ..)] *)
Definition empty_hint {A : Type} (s : state) (filtered : list A) : hint :=
  match filtered with
  | [] => if str_truthy (searchTerm s) || negb (String.eqb (statusFilter s) "all")
          then AdjustFilters else StartAdding
  | _ :: _ => NoHint
  end.

(** [status === "active" ? "default" : "secondary"] and the badge text. *)
Definition status_badge (st : status) : string * string :=
  match st with
  | active => ("default", "Activo")
  | inactive => ("secondary", "Inactivo")
  end.

(** The items of the status select of the products and suppliers
    screens. *)
Definition status_options : list string := ["all"; "active"; "inactive"].

(** The items of the state select of the receptions screen. *)
Definition state_options : list string := ["all"; "bueno"; "regular"; "malo"].

End ListScreen.

Module ProductsList.

Import ListScreen ListFilters.

Record card : Type := mk_card {
  card_product : Product.t;          (* handed to the edit and delete dialogs *)
  title : string;
  badge : string * string;
  code : string;
  laboratory : option string;
  description : option string;
  registered : string
}.

Section WithLocale.

(** [new Date(s).toLocaleDateString("es-CO")] *)
Context (locale_date : string -> string).

Definition card_of (product : Product.t) : card :=
  mk_card product (Product.name product) (status_badge (Product.status product)) (Product.code product)
    (shown (Product.laboratory product)) (shown (Product.description product))
    (locale_date (Product.created_at product)).

(** The hint's text. *)
Definition hint_text (h : hint) : option string :=
  match h with
  | NoHint => None
  | AdjustFilters => Some "Intenta ajustar los filtros de búsqueda"
  | StartAdding => Some "Comienza agregando tu primer producto"
  end.

(** What [ProductsList] renders for its state. *)
Definition view (s : state) (products : list Product.t) : list card * option string :=
  let filtered := filteredProducts (searchTerm s) (statusFilter s) products in
  (map card_of filtered, hint_text (empty_hint s filtered)).

End WithLocale.

End ProductsList.

Module SuppliersList.

Import ListScreen ListFilters EditSupplierDialog SupplierCard.

Record card : Type := mk_card {
  card_supplier : Supplier.t;
  title : string;
  badge : string * string;
  id_line : string * string;           (* [{supplier.id_type}:] and the number *)
  contact_person : option string;
  phone : option string;
  email : option string;
  activities : render
}.

Section WithParser.

Context (json_parse : string -> option js_value).

Definition card_of (supplier : Supplier.t) : card :=
  mk_card supplier (Supplier.name supplier) (status_badge (Supplier.status supplier))
    (Supplier.id_type supplier, Supplier.id_number supplier)
    (shown (Supplier.contact_person supplier)) (shown (Supplier.phone supplier))
    (shown (Supplier.email supplier))
    (activity_block json_parse (activity_value (Supplier.economic_activity supplier))).

(** The hint's text: line 154 holds ["b√∫squeda"], the UTF-8 bytes of
    "ú" read in another encoding, where the other screens have
    ["búsqueda"]. *)
Definition hint_text (h : hint) : option string :=
  match h with
  | NoHint => None
  | AdjustFilters => Some "Intenta ajustar los filtros de b√∫squeda"
  | StartAdding => Some "Comienza agregando tu primer proveedor"
  end.

Definition view (s : state) (suppliers : list Supplier.t) : list card * option string :=
  let filtered := filteredSuppliers (searchTerm s) (statusFilter s) suppliers in
  (map card_of filtered, hint_text (empty_hint s filtered)).

End WithParser.

End SuppliersList.

Module ReceptionsList.

Import ListScreen ListFilters.

(** [getStateColor] *)
Definition getStateColor (state : string) : string :=
  if String.eqb state "bueno" then "bg-green-100 text-green-800 border-green-200"
  else if String.eqb state "regular" then "bg-yellow-100 text-yellow-800 border-yellow-200"
  else if String.eqb state "malo" then "bg-red-100 text-red-800 border-red-200"
  else "bg-gray-100 text-gray-800 border-gray-200".

(** [getStateIcon]: the [AlertCircle] icon for "malo" only. *)
Definition getStateIcon (state : string) : bool := String.eqb state "malo".

(** [c.toUpperCase()] of one Latin-1 code unit: [a-z] and [à-þ] except
    [÷] map 32 below; [ß] becomes ["SS"].  The upper case of [ÿ]
    (U+0178) is not a Latin-1 code unit; the model keeps [ÿ]. *)
Definition upper_char (c : ascii) : string :=
  let n := nat_of_ascii c in
  if (97 <=? n) && (n <=? 122) || (224 <=? n) && (n <=? 254) && negb (n =? 247)
  then String (ascii_of_nat (n - 32)) EmptyString
  else if n =? 223 then "SS"
  else String c EmptyString.

(** [s.charAt(0).toUpperCase() + s.slice(1)] *)
Definition capitalize (s : string) : string :=
  match s with
  | EmptyString => EmptyString
  | String c rest => (upper_char c ++ rest)%string
  end.

Record card : Type := mk_card {
  card_reception : ProductReception.t;
  title : option string;                 (* [reception.product?.name] *)
  state_class : string;
  state_icon : bool;
  state_label : string;
  supplier_name : option string;         (* [reception.supplier?.name] *)
  invoice : string;
  quantity : string;
  batch : option string;
  invima : option string;
  expiration : option string;
  received : string
}.

Section WithLocale.

Context (locale_date locale_datetime : string -> string).

Definition card_of (reception : ProductReception.t) : card :=
  let st := ProductReception.presentation_state reception in
  mk_card reception (option_map Product.name (ProductReception.product reception))
    (getStateColor st) (getStateIcon st) (capitalize st)
    (option_map Supplier.name (ProductReception.supplier reception))
    (ProductReception.invoice_number reception)
    (JsNumber.number_to_string (ProductReception.quantity reception))
    (shown (ProductReception.batch_number reception))
    (shown (ProductReception.invima_registration reception))
    (option_map locale_date (shown (ProductReception.expiration_date reception)))
    (locale_datetime (ProductReception.reception_date reception)).

Definition hint_text (h : hint) : option string :=
  match h with
  | NoHint => None
  | AdjustFilters => Some "Intenta ajustar los filtros de búsqueda"
  | StartAdding => Some "Comienza registrando tu primera recepción"
  end.

Definition view (s : state) (receptions : list ProductReception.t) : list card * option string :=
  let filtered := filteredReceptions (searchTerm s) (statusFilter s) receptions in
  (map card_of filtered, hint_text (empty_hint s filtered)).

End WithLocale.

End ReceptionsList.

(** ** What the list screens show *)

Module ListScreenFacts.

Import ListScreen ListFilters ListFilterFacts.

(** Every reception of a store holds one of the presentation states the
    dialogs offer. *)
Definition states_valid (d : db) : Prop :=
  forall r, In r (product_receptions d) -> In (ProductReception.presentation_state r) presentation_states.

(** Example data. *)
Definition reception_in (id st : string) : ProductReception.t :=
  ProductReception.mk id "2025-01-01T10:00:00" "p1" "s1" "F-001" (Num 3) None None None st None "t" "t"
    None None.
Definition example_receptions : list ProductReception.t :=
  [reception_in "r1" "bueno"; reception_in "r2" "malo"; reception_in "r3" "bueno"].

Lemma empty_hint_start (A : Type) (s : state) (l : list A) :
  empty_hint s l = StartAdding <-> l = [] /\ s = initial.
Proof.
  destruct s as [t f]. unfold empty_hint, initial. destruct l as [|x l]; [|split; [discriminate | by intros []]].
  simpl. destruct (str_truthy t) eqn:Ht; simpl.
  - split; [discriminate | by intros [_ [= -> _]]].
  - apply str_truthy_false in Ht. subst.
    destruct (String.eqb_spec f "all") as [->|Hf]; simpl; [tauto|].
    split; [discriminate | by intros [_ [= ->]]].
Qed.

(** The filter is the identity when every item passes. *)
Lemma filter_true_id {A : Type} (f : A -> bool) (l : list A) :
  (forall x, In x l -> f x = true) -> List.filter f l = l.
Proof. apply filter_id. Qed.

Lemma filter_nil_of_false {A : Type} (f : A -> bool) (l : list A) :
  (forall x, In x l -> f x = false) -> List.filter f l = [].
Proof. induction l as [|x l IH]; simpl; intros H; [done|]. rewrite H by auto. auto. Qed.

Lemma filter_length_le {A : Type} (f : A -> bool) (l : list A) : length (List.filter f l) <= length l.
Proof. induction l as [|x l IH]; simpl; [lia|]. destruct (f x); simpl; lia. Qed.

(** Filtering twice is filtering by the conjunction. *)
Lemma filter_and {A : Type} (f g : A -> bool) (l : list A) :
  List.filter g (List.filter f l) = List.filter (fun x => f x && g x) l.
Proof. induction l as [|x l IH]; simpl; [done|]. destruct (f x); simpl; [destruct (g x)|]; by rewrite ?IH. Qed.

(** Filtering by a disjunction of two exclusive tests is, up to order,
    filtering by each. *)
Lemma filter_orb_perm {A : Type} (f g : A -> bool) (l : list A) :
  (forall x, f x && g x = false) ->
  Permutation (List.filter (fun x => f x || g x) l) (List.filter f l ++ List.filter g l).
Proof.
  intros Hfg. induction l as [|x l IH]; simpl; [done|].
  specialize (Hfg x). destruct (f x), (g x); simpl in *; try discriminate.
  - by constructor.
  - by apply Permutation_cons_app.
  - done.
Qed.

(** [filteredReceptions] under a state [k] other than "all" keeps the
    receptions that match the term and are in state [k]. *)
Lemma filteredReceptions_state (t k : string) (l : list ProductReception.t) :
  k <> "all" ->
  filteredReceptions t k l =
  List.filter (fun r => (matches_opt t (option_map Product.name (ProductReception.product r)) ||
                         matches_opt t (option_map Supplier.name (ProductReception.supplier r)) ||
                         matches t (ProductReception.invoice_number r) ||
                         matches_opt t (ProductReception.batch_number r)) &&
                        String.eqb (ProductReception.presentation_state r) k) l.
Proof.
  intros Hk. apply List.filter_ext. intros r. unfold matches_filter.
  by rewrite (proj2 (String.eqb_neq k "all") Hk).
Qed.

Lemma filteredReceptions_all (t : string) (l : list ProductReception.t) :
  filteredReceptions t "all" l =
  List.filter (fun r => matches_opt t (option_map Product.name (ProductReception.product r)) ||
                        matches_opt t (option_map Supplier.name (ProductReception.supplier r)) ||
                        matches t (ProductReception.invoice_number r) ||
                        matches_opt t (ProductReception.batch_number r)) l.
Proof. apply List.filter_ext. intros r. unfold matches_filter. simpl. by rewrite andb_true_r. Qed.

(** Case analysis of a state against the three offered ones. *)
Ltac state_cases x :=
  unfold offers, presentation_states; simpl;
  destruct (String.eqb_spec x "bueno"), (String.eqb_spec x "regular"), (String.eqb_spec x "malo");
  rewrite ?andb_false_r, ?andb_true_r, ?orb_false_r; simpl;
  first [reflexivity | congruence | destruct (_ : bool); reflexivity].

(** Up to order, the "all" view is the three state views followed by
    the receptions whose state is none of the three. *)
Lemma receptions_views_split (t : string) (l : list ProductReception.t) :
  Permutation (filteredReceptions t "all" l)
    (filteredReceptions t "bueno" l ++ filteredReceptions t "regular" l ++ filteredReceptions t "malo" l ++
     List.filter (fun r => negb (offers presentation_states (ProductReception.presentation_state r)))
       (filteredReceptions t "all" l)).
Proof.
  rewrite (filteredReceptions_state t "bueno"), (filteredReceptions_state t "regular"),
    (filteredReceptions_state t "malo") by (intros [=]). rewrite filteredReceptions_all.
  set (ms := fun r : ProductReception.t => _ || _ || _ || _).
  set (st := ProductReception.presentation_state).
  rewrite filter_and.
  transitivity (List.filter (fun r => ms r && String.eqb (st r) "bueno" ||
                 (ms r && String.eqb (st r) "regular" ||
                  (ms r && String.eqb (st r) "malo" || ms r && negb (offers presentation_states (st r))))) l).
  { apply Permutation_refl'. apply List.filter_ext. intros r. state_cases (st r). }
  rewrite filter_orb_perm by (intros r; state_cases (st r)). apply Permutation_app_head.
  rewrite filter_orb_perm by (intros r; state_cases (st r)). apply Permutation_app_head.
  apply filter_orb_perm. intros r. state_cases (st r).
Qed.

(** The hint of a filtered list is "start adding" exactly when the
    screen is in its initial state and was given no item. *)
Lemma empty_hint_filtered_start {A : Type} (filt : string -> string -> list A -> list A) (s : state) (l : list A) :
  filt "" "all" l = l -> (forall t f, filt t f [] = []) ->
  empty_hint s (filt (searchTerm s) (statusFilter s) l) = StartAdding <-> l = [] /\ s = initial.
Proof.
  intros Hall Hnil. rewrite empty_hint_start. split.
  - intros [Hl ->]. simpl in Hl. rewrite Hall in Hl. done.
  - intros [-> ->]. by rewrite Hnil.
Qed.

(** C31: on each list screen the hint "start adding your first item" is
    shown exactly when the search is empty, the filter is on "all" (the
    screen's initial state) and the page gave it no item; any search
    term or filter shows "adjust the filters" instead. *)
Theorem list_screens_start_hint (ld ldt : string -> string) (jp : string -> option EditSupplierDialog.js_value)
  (s : state) (products : list Product.t) (suppliers : list Supplier.t)
  (receptions : list ProductReception.t) :
  (snd (ProductsList.view ld s products) = Some "Comienza agregando tu primer producto" <->
   products = [] /\ s = initial) /\
  (snd (SuppliersList.view jp s suppliers) = Some "Comienza agregando tu primer proveedor" <->
   suppliers = [] /\ s = initial) /\
  (snd (ReceptionsList.view ld ldt s receptions) = Some "Comienza registrando tu primera recepción" <->
   receptions = [] /\ s = initial).
Proof.
  pose proof (list_filters_show_all products suppliers receptions) as (Hp & Hs & Hr).
  split_and!; simpl; rewrite <- empty_hint_filtered_start by done;
    destruct (empty_hint _ _); simpl; split; intros H; try done; by injection H.
Qed.

(** C28: when every reception holds one of the three states the dialogs
    offer, the cards the receptions screen shows under "all" are, up to
    order, the cards it shows under "bueno", "regular" and "malo" put
    together, for any search term: each card appears under exactly one
    state. *)
Theorem receptions_state_views_partition (ld ldt : string -> string) (t : string) (l : list ProductReception.t) :
  (forall r, In r l -> In (ProductReception.presentation_state r) presentation_states) ->
  Permutation (fst (ReceptionsList.view ld ldt (mk_state t "all") l))
    (fst (ReceptionsList.view ld ldt (mk_state t "bueno") l) ++
     fst (ReceptionsList.view ld ldt (mk_state t "regular") l) ++
     fst (ReceptionsList.view ld ldt (mk_state t "malo") l)).
Proof.
  intros Hl. simpl. rewrite <- !map_app. apply Permutation_map.
  rewrite receptions_views_split at 1. rewrite (filter_nil_of_false _ (filteredReceptions t "all" l)).
  - by rewrite !app_assoc, app_nil_r.
  - intros r (Hin & _)%filter_In. apply Hl in Hin. apply ReceptionDialogFacts.offers_In in Hin. by rewrite Hin.
Qed.

(** for any search term, the receptions screen shows at most as many
    cards under the three states together as under "all", and at most
    one card per reception it was given. *)
Theorem receptions_state_views_bounds (ld ldt : string -> string) (t : string) (l : list ProductReception.t) :
  length (fst (ReceptionsList.view ld ldt (mk_state t "bueno") l)) +
  length (fst (ReceptionsList.view ld ldt (mk_state t "regular") l)) +
  length (fst (ReceptionsList.view ld ldt (mk_state t "malo") l)) <=
  length (fst (ReceptionsList.view ld ldt (mk_state t "all") l)) <= length l.
Proof.
  simpl. rewrite !length_map.
  pose proof (Permutation_length (receptions_views_split t l)) as H. rewrite !length_app in H.
  split; [lia | apply filter_length_le].
Qed.

(** C27: the reception dialogs keep every stored state among bueno,
    regular and malo: any run of the add dialog, and any run of the edit
    dialog of a reception whose state is one of them, leaves a store
    whose receptions all have valid states a store whose receptions all
    do (the hooks' path does not: [ReceptionValidation] only asks for a
    non-empty state). *)
Theorem reception_dialogs_keep_states_valid (nv : string -> bool) (po : list Product.t)
  (so : list Supplier.t) (d : db) :
  states_valid d ->
  (forall now_local evs s d',
     AddReceptionDialog.run nv po so now_local d evs = Some (s, d') -> states_valid d') /\
  (forall tdl r0 evs s d',
     In (ProductReception.presentation_state r0) presentation_states ->
     EditReceptionDialog.run nv po so tdl r0 d evs = Some (s, d') -> states_valid d').
Proof.
  intros Hd. split.
  - intros now_local evs s d' Hrun r Hr.
    destruct (ReceptionDialogFacts.add_reception_rows_offered nv po so now_local d evs s d' Hrun r Hr)
      as [Hold|(Hst & _)]; [by apply Hd | done].
  - intros tdl r0 evs s d' Hr0 Hrun p Hp.
    destruct (ReceptionDialogFacts.edit_reception_rows_ok nv po so tdl r0 d evs s d' Hrun p Hp)
      as [Hold|Hok]; [by apply Hd|].
    unfold ReceptionDialogFacts.edit_row_ok, ReceptionDialogFacts.kept_or_offered in Hok.
    apply andb_true_iff in Hok as [[Hst _]%andb_true_iff _].
    apply orb_true_iff in Hst as [->%String.eqb_eq|Hst]; [done|]. by apply ReceptionDialogFacts.offers_In.
Qed.

Lemma receptions_state_views_partition_witness :
  Permutation (fst (ReceptionsList.view (fun d => d) (fun d => d) (mk_state "F-0" "all") example_receptions))
    (fst (ReceptionsList.view (fun d => d) (fun d => d) (mk_state "F-0" "bueno") example_receptions) ++
     fst (ReceptionsList.view (fun d => d) (fun d => d) (mk_state "F-0" "regular") example_receptions) ++
     fst (ReceptionsList.view (fun d => d) (fun d => d) (mk_state "F-0" "malo") example_receptions)).
Proof.
  apply (receptions_state_views_partition (fun d => d) (fun d => d) "F-0" example_receptions).
  intros r Hr. repeat (destruct Hr as [<-|Hr]; [simpl; tauto|]). destruct Hr.
Defined.

Lemma reception_dialogs_keep_states_valid_witness :
  In (ProductReception.presentation_state
        (AddReceptionDialog.inserted_row (ReceptionDialogFacts.example_form "12" "") ReceptionDialogFacts.ok_request))
     presentation_states.
Proof.
  assert (Hd : states_valid ReceptionDialogFacts.page_db).
  { intros r [<-|[]]. simpl. tauto. }
  exact (proj1 (reception_dialogs_keep_states_valid (fun _ => true) ReceptionDialogFacts.example_products
                  ReceptionDialogFacts.example_suppliers ReceptionDialogFacts.page_db Hd)
           "2025-01-01T09:00"
           (AddReceptionDialog.SetOpen true :: ReceptionDialogFacts.fill_events (ReceptionDialogFacts.example_form "12" "") ++
            [AddReceptionDialog.Submit; AddReceptionDialog.SubmitDone ReceptionDialogFacts.ok_request "2025-01-01T12:00"])
           (AddReceptionDialog.initial "2025-01-01T12:00")
           (set_receptions ReceptionDialogFacts.page_db
              (product_receptions ReceptionDialogFacts.page_db ++
               [AddReceptionDialog.inserted_row (ReceptionDialogFacts.example_form "12" "") ReceptionDialogFacts.ok_request]))
           eq_refl _ (or_intror (or_introl eq_refl))).
Defined.

End ListScreenFacts.
