(* ===== verification/Navigation.v ===== *)
(** * Navigation: the routes, the navigation bar and the home page

    The app router of Next.js makes a route of every directory of
    [src/app] that holds a [page.tsx]: ["/"], ["/products"],
    ["/receptions"] and ["/suppliers"] ([app_routes]; this follows the
    framework's convention, not a line of code).  [layout.tsx] renders
    [MainNav] above every page.

    - [MainNav] (components/navigation/main-nav.tsx): a logo link to
      ["/"], then one link per entry of the [navigation] array.  An
      entry is active when [pathname === item.href], and its classes
      depend on that ([nav_class]).  Icons are not modelled.
    - [HomePage] (app/page.tsx): three feature cards, each with a title,
      a button text and a link.

    The theorem shows that at most one navigation entry is active,
    exactly one on a route. *)

From Stdlib Require Import String List Lia.
From stdpp Require Import base list strings.
From S2P Require Import Prelude.

Module Navigation.

(** The routes of [src/app]. *)
Definition app_routes : list string := ["/"; "/products"; "/receptions"; "/suppliers"].

(** An entry of the [navigation] array (its [icon] is not modelled). *)
Record nav_item : Type := mk_nav_item {
  name : string;
  href : string
}.

(** [const navigation = [..]] *)
Definition navigation : list nav_item :=
  [mk_nav_item "Inicio" "/"; mk_nav_item "Proveedores" "/suppliers";
   mk_nav_item "Productos" "/products"; mk_nav_item "Recepciones" "/receptions"].

(** [const isActive = pathname === item.href] *)
Definition isActive (pathname : string) (item : nav_item) : bool := String.eqb pathname (href item).

(** The [cn(..)] classes of a link. *)
Definition nav_class (is_active : bool) : string :=
  if is_active then "bg-blue-100 text-blue-700" else "text-gray-600 hover:text-gray-900 hover:bg-gray-100".

(** A rendered link: its text, its [href] and its state classes. *)
Record nav_link : Type := mk_nav_link {
  link_text : string;
  link_href : string;
  link_class : string
}.

(** [MainNav]: the logo link to ["/"], then [navigation.map(..)]. *)
Definition MainNav (pathname : string) : string * list nav_link :=
  ("/", map (fun item => mk_nav_link (name item) (href item) (nav_class (isActive pathname item))) navigation).

(** A feature card of the home page. *)
Record home_card : Type := mk_home_card {
  card_title : string;
  card_button : string;
  card_href : string
}.

(** [HomePage] *)
Definition HomePage : list home_card :=
  [mk_home_card "Gestión de Proveedores" "Gestionar Proveedores" "/suppliers";
   mk_home_card "Catálogo de Productos" "Gestionar Productos" "/products";
   mk_home_card "Recepción de Productos" "Gestionar Recepciones" "/receptions"].

(** [RootLayout]: the navigation bar above the page. *)
Definition RootLayout {A : Type} (pathname : string) (page : A) : (string * list nav_link) * A :=
  (MainNav pathname, page).

(** Every [href] the layout and the home page render. *)
Definition all_hrefs (pathname : string) : list string :=
  fst (MainNav pathname) :: map link_href (snd (MainNav pathname)) ++ map card_href HomePage.

End Navigation.

Module NavigationFacts.

Import Navigation.

(** The number of links rendered as active. *)
Definition active_links (pathname : string) : nat :=
  length (List.filter (fun l => String.eqb (link_class l) (nav_class true)) (snd (MainNav pathname))).

(** The entries' [href]s are distinct, so one path activates at most
    one of them. *)
Lemma active_links_count (pathname : string) :
  active_links pathname = if existsb (String.eqb pathname) app_routes then 1 else 0.
Proof.
  unfold active_links, MainNav, app_routes, nav_class, isActive. simpl.
  destruct (String.eqb_spec pathname "/"), (String.eqb_spec pathname "/suppliers"),
    (String.eqb_spec pathname "/products"), (String.eqb_spec pathname "/receptions"); subst;
    simpl; try congruence; reflexivity.
Qed.

(** C32: the navigation bar shows at most one active link: exactly one
    on each of the four routes, none on any other path. *)
Theorem nav_active_bounds (pathname : string) :
  active_links pathname <= 1 /\ (active_links pathname = 1 <-> In pathname app_routes).
Proof.
  rewrite active_links_count. destruct (existsb (String.eqb pathname) app_routes) eqn:E.
  - apply existsb_exists in E as (r & Hr & ->%String.eqb_eq). split; [lia | tauto].
  - split; [lia|]. split; [discriminate|]. intros Hin.
    assert (existsb (String.eqb pathname) app_routes = true) by
      (apply existsb_exists; exists pathname; split; [done | apply String.eqb_refl]).
    congruence.
Qed.

End NavigationFacts.
