(* ===== verification/PageViews.v ===== *)
(** * PageViews: the data pages as they render, and the refresh after a dialog

    [products/page.tsx], [suppliers/page.tsx] and [receptions/page.tsx]
    render, below the loaders of Pages.v:

    - a heading block: the page title, its subtitle and the add dialog's
      trigger button ([header]);
    - for the receptions page, the add dialog given [products || []] and
      [suppliers || []]: its product and supplier selects offer
      [AddReceptionDialog.options];
    - the list component given the loaded rows.  The list keeps its own
      client state ([ListScreen.state]): [ListScreen.initial] on the first
      render.

    Every dialog calls [router.refresh()] after a successful write: the
    server component runs its loader again on the store the write left,
    and React keeps the client state of the list.  [ProductsPageView] and
    the like take the store and the list state, so a refresh is the view
    of the same list state on the new store.  [PageViewFacts] composes the
    product and supplier dialogs with the refreshed pages.  Whether the
    database deletes the receptions of a deleted product or supplier is
    not in the repository (no schema); the theorem about the receptions
    page holds either way. *)

From Stdlib Require Import String List Permutation Lia.
From stdpp Require Import base list strings.
From S2P Require Import Prelude Entities Store Services Pages ProductDialogs SupplierEditDialogs ReceptionDialogs ListFilters ListScreens.

Local Open Scope js_scope.

Module PageViews.

Import Pages.

(** The heading block of a data page. *)
Record header : Type := mk_header {
  heading : string;         (* [<h1>] *)
  subheading : string;      (* [<p className="text-muted-foreground mt-2">] *)
  add_label : string        (* the text of the add dialog's trigger [<Button>] *)
}.

Definition products_header : header :=
  mk_header "Gestión de Productos" "Administra el catálogo de productos farmacéuticos" "Nuevo Producto".

Definition suppliers_header : header :=
  mk_header "Gestión de Proveedores" "Administra la información de tus proveedores farmacéuticos"
    "Nuevo Proveedor".

Definition receptions_header : header :=
  mk_header "Recepción de Productos" "Registra y gestiona las recepciones de productos farmacéuticos"
    "Nueva Recepción".

(** A rendered data page: its heading block and what its list shows
    (the cards and the hint under an empty list). *)
Record page (C : Type) : Type := mk_page {
  page_header : header;
  cards : list C;
  hint_line : option string
}.
Arguments mk_page {C} _ _ _.
Arguments page_header {C} _.
Arguments cards {C} _.
Arguments hint_line {C} _.

Definition of_view {C : Type} (h : header) (v : list C * option string) : page C :=
  mk_page h (fst v) (snd v).

(** [ProductsPage]: the loader, then the heading and [<ProductsList>]. *)
Definition ProductsPageView (locale_date : string -> string) (ls : ListScreen.state) (d : db) (rq : request)
  : js_result (page ProductsList.card) :=
  await! products := ProductsPage d rq in
  Ok (of_view products_header (ProductsList.view locale_date ls products)).

(** [SuppliersPage] *)
Definition SuppliersPageView (json_parse : string -> option EditSupplierDialog.js_value)
  (ls : ListScreen.state) (d : db) (rq : request) : js_result (page SuppliersList.card) :=
  await! suppliers := SuppliersPage d rq in
  Ok (of_view suppliers_header (SuppliersList.view json_parse ls suppliers)).

(** What the receptions page renders: the page, and the values the add
    dialog's product and supplier selects offer. *)
Record receptions_view : Type := mk_receptions_view {
  receptions_page : page ReceptionsList.card;
  product_choices : list string;
  supplier_choices : list string
}.

(** [ReceptionsPage] *)
Definition ReceptionsPageView (locale_date locale_datetime : string -> string) (ls : ListScreen.state)
  (d : db) (rq1 rq2 rq3 : request) : js_result receptions_view :=
  await! props := ReceptionsPage d rq1 rq2 rq3 in
  Ok (mk_receptions_view
        (of_view receptions_header
           (ReceptionsList.view locale_date locale_datetime ls (Pages.receptions props)))
        (AddReceptionDialog.options (Pages.products props) (Pages.suppliers props) AddReceptionDialog.CProduct)
        (AddReceptionDialog.options (Pages.products props) (Pages.suppliers props) AddReceptionDialog.CSupplier)).

End PageViews.

(** ** The pages after a dialog's write and the refresh *)

Module PageViewFacts.

Import Pages PageViews ListScreen ListFilters.

(** Opening the delete dialog of a product, confirming, and the store's
    answer to the delete. *)
Definition delete_events (rq : request) : list DeleteProductDialog.event :=
  [DeleteProductDialog.SetOpen true; DeleteProductDialog.ClickDelete; DeleteProductDialog.DeleteDone rq].

(** The same for the delete dialog of a supplier. *)
Definition supplier_delete_events (rq : request) : list DeleteSupplierDialog.event :=
  [DeleteSupplierDialog.SetOpen true; DeleteSupplierDialog.ClickDelete; DeleteSupplierDialog.DeleteDone rq].

(** Example data: the store of the reception dialogs' examples with a
    second product. *)
Definition ibuprofen : Product.t := Product.mk "p2" "MED-002" "Ibuprofeno" None None active "t2" "t2".
Definition shop_db : db :=
  mk_db ReceptionDialogFacts.example_suppliers (ibuprofen :: ReceptionDialogFacts.example_products)
    [ReceptionDialogFacts.example_reception].
Definition acetaminofen : Product.t := Product.mk "p1" "MED-001" "Acetaminofen" None None active "t" "t".
Definition drogueria : Supplier.t :=
  Supplier.mk "s1" "NIT" "900123456-7" "Drogueria Central" None None None None None active "t" "t".

(** A card list is the image of the rows it shows. *)
Lemma in_map_inj {A C : Type} (g : A -> C) (h : C -> A) (l : list A) (c : C) :
  (forall x, h (g x) = x) -> In c (map g l) <-> In (h c) l /\ c = g (h c).
Proof.
  intros Hhg. rewrite in_map_iff. split.
  - intros (x & <- & Hx). by rewrite Hhg.
  - intros [Hx ->]. eauto.
Qed.

Lemma delete_product_run (prod : Product.t) (d : db) (rq : request) :
  refused rq = None ->
  DeleteProductDialog.run prod d (delete_events rq) =
  Some (DeleteProductDialog.mk_dialog false false,
        set_products d (delete_where_id Product.id (Product.id prod) (Store.products d))).
Proof. intros Hr. unfold DeleteProductDialog.run, delete_events, run_events; simpl. unfold DeleteProductDialog.delete_done. by rewrite Hr. Qed.

(** A product page's cards, on the rows the loader gives. *)
Lemma products_view_cards (ld : string -> string) (ls : state) (l : list Product.t) (c : ProductsList.card) :
  In c (fst (ProductsList.view ld ls l)) <->
  In (ProductsList.card_product c) (filteredProducts (searchTerm ls) (statusFilter ls) l) /\
  c = ProductsList.card_of ld (ProductsList.card_product c).
Proof. by apply in_map_inj. Qed.

(** The products page loads whenever its request succeeds. *)
Lemma products_page_loads (ld : string -> string) (ls : state) (d : db) (rq : request) :
  refused rq = None ->
  ProductsPageView ld ls d rq =
  Ok (of_view products_header (ProductsList.view ld ls (sort_by product_created_desc (Store.products d)))).
Proof. intros Hr. unfold ProductsPageView, ProductsPage, ProductsServerService.getAll. by rewrite Hr. Qed.

(** C18: after the delete dialog of a product succeeds and the page is
    refreshed, the products page, in the same list state, shows exactly
    the cards it showed before except those of the deleted product's
    id. *)
Theorem products_page_after_delete (ld : string -> string) (ls : state) (prod : Product.t) (d : db)
  (rq rq0 rq1 : request) (v0 : page ProductsList.card) :
  refused rq = None -> refused rq1 = None -> ProductsPageView ld ls d rq0 = Ok v0 ->
  exists s d' v1,
    DeleteProductDialog.run prod d (delete_events rq) = Some (s, d') /\ DeleteProductDialog.open s = false /\
    ProductsPageView ld ls d' rq1 = Ok v1 /\
    forall c, In c (cards v1) <-> In c (cards v0) /\ Product.id (ProductsList.card_product c) <> Product.id prod.
Proof.
  intros Hr Hr1 H0. unfold ProductsPageView, ProductsPage, ProductsServerService.getAll in H0.
  destruct (refused rq0); [discriminate|]. injection H0 as <-.
  do 3 eexists. split; [by apply delete_product_run|]. split; [done|].
  split; [by apply products_page_loads|]. intros c. unfold of_view; cbn [cards].
  rewrite !products_view_cards. unfold filteredProducts. rewrite !filter_In, !sorted_perm_in.
  simpl. rewrite delete_where_id_spec. tauto.
Qed.

(** C21: filling the add-product form with a code and a name and a
    successful insert close the dialog and append the row; the refreshed
    products page, in its initial state, shows one card more than the
    store had rows, among them the new row's card, and no hint. *)
Theorem products_page_after_add (ld : string -> string) (fd : AddProductDialog.form_data) (d : db)
  (rq rq1 : request) :
  str_truthy (AddProductDialog.code fd) = true -> str_truthy (AddProductDialog.name fd) = true ->
  refused rq = None -> refused rq1 = None ->
  exists s d' v,
    AddProductDialog.run d (ProductDialogFacts.fill_and_submit fd rq) = Some (s, d') /\
    AddProductDialog.open s = false /\
    Store.products d' = Store.products d ++ [AddProductDialog.inserted_row fd rq] /\
    ProductsPageView ld initial d' rq1 = Ok v /\
    In (ProductsList.card_of ld (AddProductDialog.inserted_row fd rq)) (cards v) /\
    length (cards v) = S (length (Store.products d)) /\ hint_line v = None.
Proof.
  intros Hc Hn Hr Hr1. do 3 eexists.
  split; [by apply ProductDialogFacts.add_product_stores_form|]. split; [done|]. split; [reflexivity|].
  split; [by apply products_page_loads|].
  unfold ProductsList.view, of_view; cbn [cards hint_line fst snd searchTerm statusFilter initial].
  rewrite (proj1 (ListFilterFacts.list_filters_show_all _ [] [])).
  set (l := sort_by _ _). assert (Hin : In (AddProductDialog.inserted_row fd rq) l).
  { apply sorted_perm_in. simpl. apply in_app_iff. right. by left. }
  split; [by apply in_map|]. split.
  - rewrite length_map. unfold l. rewrite (Permutation_length (sort_by_perm _ _)). simpl.
    rewrite length_app. simpl. lia.
  - by destruct l.
Qed.

Lemma delete_supplier_run (sup : Supplier.t) (d : db) (rq : request) :
  refused rq = None ->
  DeleteSupplierDialog.run sup d (supplier_delete_events rq) =
  Some (DeleteSupplierDialog.mk_dialog false false,
        set_suppliers d (delete_where_id Supplier.id (Supplier.id sup) (Store.suppliers d))).
Proof.
  intros Hr. unfold DeleteSupplierDialog.run, supplier_delete_events, run_events; simpl.
  unfold DeleteSupplierDialog.delete_done. by rewrite Hr.
Qed.

(** A receptions card shows a reception the page loaded. *)
Lemma receptions_view_cards (ld ldt : string -> string) (ls : state) (l : list ProductReception.t)
  (c : ReceptionsList.card) :
  In c (fst (ReceptionsList.view ld ldt ls l)) -> exists x, In x l /\ c = ReceptionsList.card_of ld ldt x.
Proof.
  unfold ReceptionsList.view. simpl. intros (x & <- & Hx)%in_map_iff.
  apply filter_In in Hx as [Hx _]. eauto.
Qed.

(** No row of a table without the id [k] is found under [k]. *)
Lemma find_deleted {R : Type} (row_id : R -> string) (k : string) (t : list R) :
  find_by_id row_id k (delete_where_id row_id k t) = None.
Proof. apply find_by_id_none. intros q Hq. by apply delete_where_id_spec in Hq as [_ ?]. Qed.

(** C16: after the delete dialog of a product or of a supplier succeeds
    and the receptions page is refreshed, in any list state, no card
    names the deleted row: every card of a reception that referenced the
    deleted product has no product title (the supplier's: no supplier
    name), and the add dialog no longer offers it.  This holds whatever
    the database does with those receptions (the schema is not in the
    repository): the page embeds the relations when it loads. *)
Theorem receptions_page_after_delete (ld ldt : string -> string) (ls : state) (prod : Product.t)
  (sup : Supplier.t) (d : db) (rq rq1 rq2 rq3 : request) :
  refused rq = None -> refused rq1 = None -> refused rq2 = None -> refused rq3 = None ->
  (exists s d' v,
    DeleteProductDialog.run prod d (delete_events rq) = Some (s, d') /\
    ReceptionsPageView ld ldt ls d' rq1 rq2 rq3 = Ok v /\
    (forall c, In c (cards (receptions_page v)) ->
       ProductReception.product_id (ReceptionsList.card_reception c) = Product.id prod ->
       ReceptionsList.title c = None) /\
    ~ In (Product.id prod) (product_choices v)) /\
  (exists s d' v,
    DeleteSupplierDialog.run sup d (supplier_delete_events rq) = Some (s, d') /\
    ReceptionsPageView ld ldt ls d' rq1 rq2 rq3 = Ok v /\
    (forall c, In c (cards (receptions_page v)) ->
       ProductReception.supplier_id (ReceptionsList.card_reception c) = Supplier.id sup ->
       ReceptionsList.supplier_name c = None) /\
    ~ In (Supplier.id sup) (supplier_choices v)).
Proof.
  intros Hr Hr1 Hr2 Hr3.
  unfold ReceptionsPageView, ReceptionsPage, ReceptionsServerService.getAll,
    ProductsServerService.getActive, SuppliersServerService.getAll.
  rewrite Hr1, Hr2, Hr3. split; do 3 eexists.
  - split; [by apply delete_product_run|]. split; [reflexivity|]. split.
    + intros c Hc Hpid. apply receptions_view_cards in Hc as (x & (r & <- & _)%in_map_iff & ->).
      unfold ReceptionsList.card_of, embed_relations in *.
      cbn [ReceptionsList.card_reception ReceptionsList.title ReceptionsList.supplier_name
        ProductReception.product_id ProductReception.supplier_id ProductReception.product
        ProductReception.supplier Store.products Store.suppliers set_products set_suppliers] in *.
      rewrite Hpid. by rewrite find_deleted.
    + cbn [product_choices]. unfold AddReceptionDialog.options. rewrite in_map_iff.
      intros (q & Hq & Hin). apply sorted_perm_in, filter_In in Hin as [Hin _].
      apply delete_where_id_spec in Hin. tauto.
  - split; [by apply delete_supplier_run|]. split; [reflexivity|]. split.
    + intros c Hc Hsid. apply receptions_view_cards in Hc as (x & (r & <- & _)%in_map_iff & ->).
      unfold ReceptionsList.card_of, embed_relations in *.
      cbn [ReceptionsList.card_reception ReceptionsList.title ReceptionsList.supplier_name
        ProductReception.product_id ProductReception.supplier_id ProductReception.product
        ProductReception.supplier Store.products Store.suppliers set_products set_suppliers] in *.
      rewrite Hsid. by rewrite find_deleted.
    + cbn [supplier_choices]. unfold AddReceptionDialog.options. rewrite in_map_iff.
      intros (q & Hq & Hin). apply sorted_perm_in, delete_where_id_spec in Hin. tauto.
Qed.

Lemma deactivate_run (prod : Product.t) (d : db) (now : string) (rq : request) :
  refused rq = None -> str_truthy (Product.code prod) = true -> str_truthy (Product.name prod) = true ->
  EditProductDialog.run prod d (ProductDialogFacts.deactivate now rq) =
  Some (EditProductDialog.mk_dialog false false
          (EditProductDialog.set_status (EditProductDialog.form_of prod) inactive) None,
        set_products d (update_where_id Product.id (Product.id prod)
          (EditProductDialog.updated_row (EditProductDialog.set_status (EditProductDialog.form_of prod) inactive) now)
          (Store.products d))).
Proof.
  intros Hr Hc Hn. unfold EditProductDialog.run, ProductDialogFacts.deactivate, run_events; simpl.
  unfold EditProductDialog.form_submittable; simpl. rewrite Hc, Hn. simpl.
  unfold EditProductDialog.submit_done. by rewrite Hr.
Qed.

(** C17: deactivating a product in its edit dialog (status select on
    "inactive", save, successful update) and refreshing: the receptions
    page's add dialog no longer offers the product, while the products
    page, in its initial state, still shows its card with the
    "Inactivo" badge. *)
Theorem product_deactivation_on_pages (ld ldt : string -> string) (ls : state) (prod : Product.t) (d : db)
  (now : string) (rq rq1 rq2 rq3 rq4 : request) :
  refused rq = None -> refused rq1 = None -> refused rq2 = None -> refused rq3 = None ->
  refused rq4 = None ->
  str_truthy (Product.code prod) = true -> str_truthy (Product.name prod) = true ->
  In prod (Store.products d) ->
  exists s d' v1 v2,
    EditProductDialog.run prod d (ProductDialogFacts.deactivate now rq) = Some (s, d') /\
    ReceptionsPageView ld ldt ls d' rq1 rq2 rq3 = Ok v1 /\ ~ In (Product.id prod) (product_choices v1) /\
    ProductsPageView ld initial d' rq4 = Ok v2 /\
    exists c, In c (cards v2) /\ Product.id (ProductsList.card_product c) = Product.id prod /\
      ProductsList.badge c = ("secondary", "Inactivo").
Proof.
  intros Hr Hr1 Hr2 Hr3 Hr4 Hc Hn Hin. do 4 eexists. split; [by apply deactivate_run|].
  unfold ReceptionsPageView, ReceptionsPage, ReceptionsServerService.getAll,
    ProductsServerService.getActive, SuppliersServerService.getAll.
  rewrite Hr1, Hr2, Hr3. split; [reflexivity|]. split.
  - cbn [product_choices]. unfold AddReceptionDialog.options. rewrite in_map_iff.
    intros (q & Hq & Hq_in). apply sorted_perm_in, filter_In in Hq_in as [Hq_in Hact].
    destruct (update_where_id_in Product.id _ _ _ q (ProductDialogFacts.updated_row_id _ now) Hq_in Hq)
      as (r & _ & ->).
    by apply bool_decide_eq_true in Hact.
  - split; [by apply products_page_loads|].
    exists (ProductsList.card_of ld (EditProductDialog.updated_row
      (EditProductDialog.set_status (EditProductDialog.form_of prod) inactive) now prod)).
    split; [|done]. unfold ProductsList.view, of_view; cbn [cards fst searchTerm statusFilter initial].
    rewrite (proj1 (ListFilterFacts.list_filters_show_all _ [] [])).
    apply in_map, sorted_perm_in. by apply update_where_id_this.
Qed.

(** ** Witnesses *)

Lemma products_page_after_delete_witness :
  exists s d' v1,
    DeleteProductDialog.run acetaminofen shop_db (delete_events ReceptionDialogFacts.ok_request) = Some (s, d') /\
    DeleteProductDialog.open s = false /\
    ProductsPageView (fun t => t) initial d' ReceptionDialogFacts.ok_request = Ok v1 /\
    cards v1 = [ProductsList.card_of (fun t => t) ibuprofen].
Proof.
  destruct (products_page_after_delete (fun t => t) initial acetaminofen shop_db ReceptionDialogFacts.ok_request
    ReceptionDialogFacts.ok_request ReceptionDialogFacts.ok_request _ eq_refl eq_refl eq_refl)
    as (s & d' & v1 & H1 & H2 & H3 & _).
  exists s, d', v1. split_and!; try assumption.
  vm_compute in H1. injection H1 as <- <-. vm_compute in H3. injection H3 as <-. reflexivity.
Defined.

Lemma products_page_after_add_witness :
  exists s d' v,
    AddProductDialog.run shop_db
      (ProductDialogFacts.fill_and_submit (AddProductDialog.mk_form "ME" "A" "" "") ReceptionDialogFacts.ok_request)
      = Some (s, d') /\
    AddProductDialog.open s = false /\
    Store.products d' = Store.products shop_db ++
      [AddProductDialog.inserted_row (AddProductDialog.mk_form "ME" "A" "" "") ReceptionDialogFacts.ok_request] /\
    ProductsPageView (fun t => t) initial d' ReceptionDialogFacts.ok_request = Ok v /\
    In (ProductsList.card_of (fun t => t)
          (AddProductDialog.inserted_row (AddProductDialog.mk_form "ME" "A" "" "") ReceptionDialogFacts.ok_request))
       (cards v) /\
    length (cards v) = S (length (Store.products shop_db)) /\ hint_line v = None.
Proof. apply products_page_after_add; reflexivity. Defined.

Lemma receptions_page_after_delete_witness :
  exists s d' v,
    DeleteProductDialog.run acetaminofen shop_db (delete_events ReceptionDialogFacts.ok_request) = Some (s, d') /\
    ReceptionsPageView (fun t => t) (fun t => t) initial d' ReceptionDialogFacts.ok_request
      ReceptionDialogFacts.ok_request ReceptionDialogFacts.ok_request = Ok v /\
    map ReceptionsList.title (cards (receptions_page v)) = [None] /\ product_choices v = ["p2"].
Proof.
  destruct (receptions_page_after_delete (fun t => t) (fun t => t) initial acetaminofen drogueria shop_db
    ReceptionDialogFacts.ok_request ReceptionDialogFacts.ok_request ReceptionDialogFacts.ok_request
    ReceptionDialogFacts.ok_request eq_refl eq_refl eq_refl eq_refl)
    as [(s & d' & v & H1 & H2 & _ & _) _].
  exists s, d', v. split_and!; try assumption;
    vm_compute in H1; injection H1 as <- <-; vm_compute in H2; injection H2 as <-; reflexivity.
Defined.

Lemma product_deactivation_on_pages_witness :
  exists s d' v1 v2,
    EditProductDialog.run acetaminofen shop_db (ProductDialogFacts.deactivate "t3" ReceptionDialogFacts.ok_request)
      = Some (s, d') /\
    ReceptionsPageView (fun t => t) (fun t => t) initial d' ReceptionDialogFacts.ok_request
      ReceptionDialogFacts.ok_request ReceptionDialogFacts.ok_request = Ok v1 /\
    product_choices v1 = ["p2"] /\
    ProductsPageView (fun t => t) initial d' ReceptionDialogFacts.ok_request = Ok v2 /\
    map ProductsList.badge (cards v2) = [("default", "Activo"); ("secondary", "Inactivo")].
Proof.
  destruct (product_deactivation_on_pages (fun t => t) (fun t => t) initial acetaminofen shop_db "t3"
    ReceptionDialogFacts.ok_request ReceptionDialogFacts.ok_request ReceptionDialogFacts.ok_request
    ReceptionDialogFacts.ok_request ReceptionDialogFacts.ok_request eq_refl eq_refl eq_refl eq_refl eq_refl
    eq_refl eq_refl (or_intror (or_introl eq_refl))) as (s & d' & v1 & v2 & H1 & H2 & _ & H4 & _).
  exists s, d', v1, v2. split_and!; try assumption;
    vm_compute in H1; injection H1 as <- <-;
    first [vm_compute in H2; injection H2 as <-; reflexivity | vm_compute in H4; injection H4 as <-; reflexivity].
Defined.

End PageViewFacts.
