(* ===== verification/DeleteDialogs.v ===== *)
(** * DeleteDialogs: what the three delete dialogs have in common

    [delete-product-dialog.tsx], [delete-supplier-dialog.tsx] and
    [delete-reception-dialog.tsx] are the same component over three
    tables: [open] and [loading] state, a Cancel button and
    [onOpenChange] that set [open], a delete button [disabled={loading}]
    whose [handleDelete] sets [loading], awaits
    [delete().eq("id", x.id)], closes the dialog on success and clears
    [loading] in [finally].

    The class [DeleteDialog] is that shape as an interface: a state built
    from [open] and [loading], the three kinds of event, and the table's
    delete.  [spec_step] is the step every delete dialog should take;
    [DeleteDialogLaws] asks that a dialog's own [step] is [spec_step]
    and that deleting twice is deleting once.  The three modules of
    ProductDialogs.v, SupplierEditDialogs.v and ReceptionDialogs.v are
    instances, and the theorems are proved once, against the class. *)

From Stdlib Require Import String List Lia.
From stdpp Require Import base list strings.
From S2P Require Import Prelude Entities Store Services ProductDialogs SupplierEditDialogs ReceptionDialogs.

(** The three kinds of event of a delete dialog. *)
Inductive dd_event : Type :=
| DSetOpen (b : bool)         (* [onOpenChange], the Cancel button *)
| DClick                      (* the delete button *)
| DDone (rq : request).       (* the store's answer to the delete *)

Class DeleteDialog (S E : Type) := {
  dd_mk : bool -> bool -> S;           (* the state of [open] and [loading] *)
  dd_open : S -> bool;
  dd_loading : S -> bool;
  dd_classify : E -> dd_event;
  dd_done_event : request -> E;
  dd_remove : string -> db -> db;      (* [delete().eq("id", id)] on the dialog's table *)
  dd_step : string -> S * db -> E -> option (S * db)
}.

Section Spec.

Context {S E : Type} `{DeleteDialog S E}.

(** The step of a delete dialog over the row [id]. *)
Definition spec_step (id : string) (w : S * db) (ev : dd_event) : option (S * db) :=
  let '(s, d) := w in
  match ev with
  | DSetOpen b => Some (dd_mk b (dd_loading s), d)
  | DClick => if dd_open s && negb (dd_loading s) then Some (dd_mk (dd_open s) true, d) else None
  | DDone rq =>
      if dd_loading s then
        Some (match refused rq with
              | Some _ => (dd_mk (dd_open s) false, d)
              | None => (dd_mk false false, dd_remove id d)
              end)
      else None
  end.

Definition is_click (ev : dd_event) : bool := if ev is DClick then true else false.
Definition is_done (ev : dd_event) : bool := if ev is DDone _ then true else false.

(** The delete requests a sequence of events sends, and the answers it
    receives. *)
Definition clicks (evs : list E) : nat := length (List.filter (fun ev => is_click (dd_classify ev)) evs).
Definition dones (evs : list E) : nat := length (List.filter (fun ev => is_done (dd_classify ev)) evs).

End Spec.

Class DeleteDialogLaws (S E : Type) `{DeleteDialog S E} := {
  dd_open_mk : forall o l, dd_open (dd_mk o l) = o;
  dd_loading_mk : forall o l, dd_loading (dd_mk o l) = l;
  dd_classify_done : forall rq, dd_classify (dd_done_event rq) = DDone rq;
  dd_step_spec : forall id w ev, dd_step id w ev = spec_step id w (dd_classify ev);
  dd_remove_idem : forall id d, dd_remove id (dd_remove id d) = dd_remove id d
}.

(** ** The three dialogs *)

Definition classify_product (ev : DeleteProductDialog.event) : dd_event :=
  match ev with
  | DeleteProductDialog.SetOpen b => DSetOpen b
  | DeleteProductDialog.ClickDelete => DClick
  | DeleteProductDialog.DeleteDone rq => DDone rq
  end.

#[export] Instance delete_product_dialog : DeleteDialog DeleteProductDialog.dialog DeleteProductDialog.event := {
  dd_mk := DeleteProductDialog.mk_dialog;
  dd_open := DeleteProductDialog.open;
  dd_loading := DeleteProductDialog.loading;
  dd_classify := classify_product;
  dd_done_event := DeleteProductDialog.DeleteDone;
  dd_remove id d := set_products d (delete_where_id Product.id id (products d));
  dd_step := DeleteProductDialog.step
}.

Definition classify_supplier (ev : DeleteSupplierDialog.event) : dd_event :=
  match ev with
  | DeleteSupplierDialog.SetOpen b => DSetOpen b
  | DeleteSupplierDialog.ClickDelete => DClick
  | DeleteSupplierDialog.DeleteDone rq => DDone rq
  end.

#[export] Instance delete_supplier_dialog : DeleteDialog DeleteSupplierDialog.dialog DeleteSupplierDialog.event := {
  dd_mk := DeleteSupplierDialog.mk_dialog;
  dd_open := DeleteSupplierDialog.open;
  dd_loading := DeleteSupplierDialog.loading;
  dd_classify := classify_supplier;
  dd_done_event := DeleteSupplierDialog.DeleteDone;
  dd_remove id d := set_suppliers d (delete_where_id Supplier.id id (suppliers d));
  dd_step := DeleteSupplierDialog.step
}.

Definition classify_reception (ev : DeleteReceptionDialog.event) : dd_event :=
  match ev with
  | DeleteReceptionDialog.SetOpen b => DSetOpen b
  | DeleteReceptionDialog.ClickDelete => DClick
  | DeleteReceptionDialog.DeleteDone rq => DDone rq
  end.

#[export] Instance delete_reception_dialog :
  DeleteDialog DeleteReceptionDialog.dialog DeleteReceptionDialog.event := {
  dd_mk := DeleteReceptionDialog.mk_dialog;
  dd_open := DeleteReceptionDialog.open;
  dd_loading := DeleteReceptionDialog.loading;
  dd_classify := classify_reception;
  dd_done_event := DeleteReceptionDialog.DeleteDone;
  dd_remove id d := set_receptions d (delete_where_id ProductReception.id id (product_receptions d));
  dd_step := DeleteReceptionDialog.step
}.

(** ** The dialogs implement the interface *)

#[export] Instance delete_product_dialog_laws :
  DeleteDialogLaws DeleteProductDialog.dialog DeleteProductDialog.event.
Proof.
  split; try done.
  - by intros id [s d] [b| |rq].
  - intros id d. simpl. by rewrite delete_where_id_idem.
Qed.

#[export] Instance delete_supplier_dialog_laws :
  DeleteDialogLaws DeleteSupplierDialog.dialog DeleteSupplierDialog.event.
Proof.
  split; try done.
  - by intros id [s d] [b| |rq].
  - intros id d. simpl. by rewrite delete_where_id_idem.
Qed.

#[export] Instance delete_reception_dialog_laws :
  DeleteDialogLaws DeleteReceptionDialog.dialog DeleteReceptionDialog.event.
Proof.
  split; try done.
  - by intros id [s d] [b| |rq].
  - intros id d. simpl. by rewrite delete_where_id_idem.
Qed.

(** ** What every delete dialog does *)

Section Generic.

Context {S E : Type} `{DeleteDialogLaws S E}.

(** Along any run from a state whose store is [d0] or [d0] without the
    row, the store stays one of the two, and the clicks the dialog accepts
    exceed the answers it receives by one exactly while [loading]. *)
Lemma dd_run_inv (id : string) (d0 : db) (evs : list E) (s0 s : S) (d d' : db) :
  (d = d0 \/ d = dd_remove id d0) ->
  run_events (dd_step id) (s0, d) evs = Some (s, d') ->
  (d' = d0 \/ d' = dd_remove id d0) /\
  clicks evs + (if dd_loading s0 then 1 else 0) = dones evs + (if dd_loading s then 1 else 0).
Proof.
  revert s0 d. induction evs as [|ev evs IH]; simpl; intros s0 d Hd Hrun.
  - injection Hrun as <- <-. split; [done | lia].
  - rewrite dd_step_spec in Hrun. unfold clicks, dones in *. simpl.
    destruct (dd_classify ev) as [b| |rq]; simpl in Hrun |- *.
    + apply IH in Hrun as [Hd' Hc]; [|done]. rewrite dd_loading_mk in Hc. split; [done | lia].
    + destruct (dd_open s0), (dd_loading s0); simpl in Hrun; try discriminate.
      apply IH in Hrun as [Hd' Hc]; [|done]. rewrite dd_loading_mk in Hc. split; [done | lia].
    + destruct (dd_loading s0); [|discriminate].
      assert (Hd2 : dd_remove id d = d0 \/ dd_remove id d = dd_remove id d0).
      { destruct Hd as [-> | ->]; [by right | right; apply dd_remove_idem]. }
      destruct (refused rq); apply IH in Hrun as [Hd' Hc]; try done;
        rewrite dd_loading_mk in Hc; split; [done | lia | done | lia].
Qed.

(** From the dialog's initial state. *)
Lemma dd_run_initial (id : string) (d : db) (evs : list E) (s : S) (d' : db) :
  run_events (dd_step id) (dd_mk false false, d) evs = Some (s, d') ->
  (d' = d \/ d' = dd_remove id d) /\ clicks evs = dones evs + (if dd_loading s then 1 else 0).
Proof.
  intros Hrun. apply (dd_run_inv id d) in Hrun as [Hd Hc]; [|by left].
  rewrite dd_loading_mk in Hc. split; [done | lia].
Qed.

End Generic.

(** C19: each of the three delete dialogs, whatever the user does (clicks,
    cancels, reopenings, refused deletes), leaves its table untouched or
    with exactly the rows of its item's id removed, and sends one delete
    at a time: the deletes sent are the answers received, plus one while
    [loading]. *)
Theorem delete_dialogs_one_request_at_a_time :
  (forall prod d evs s d', DeleteProductDialog.run prod d evs = Some (s, d') ->
     (d' = d \/ d' = set_products d (delete_where_id Product.id (Product.id prod) (products d))) /\
     clicks evs = dones evs + (if DeleteProductDialog.loading s then 1 else 0)) /\
  (forall sup d evs s d', DeleteSupplierDialog.run sup d evs = Some (s, d') ->
     (d' = d \/ d' = set_suppliers d (delete_where_id Supplier.id (Supplier.id sup) (suppliers d))) /\
     clicks evs = dones evs + (if DeleteSupplierDialog.loading s then 1 else 0)) /\
  (forall r d evs s d', DeleteReceptionDialog.run r d evs = Some (s, d') ->
     (d' = d \/ d' = set_receptions d (delete_where_id ProductReception.id (ProductReception.id r)
                                        (product_receptions d))) /\
     clicks evs = dones evs + (if DeleteReceptionDialog.loading s then 1 else 0)).
Proof. split_and!; intros x d evs s d' Hrun; exact (dd_run_initial _ d evs s d' Hrun). Qed.

(** ** Witnesses *)

(** A delete refused by the store, then a second click that succeeds. *)
Definition retry_events : list DeleteProductDialog.event :=
  [DeleteProductDialog.SetOpen true; DeleteProductDialog.ClickDelete;
   DeleteProductDialog.DeleteDone (mk_request (Some (JsError "offline")) "x" "t");
   DeleteProductDialog.ClickDelete; DeleteProductDialog.DeleteDone ReceptionDialogFacts.ok_request].

Lemma delete_dialogs_one_request_at_a_time_witness :
  (set_products ReceptionDialogFacts.page_db [] = ReceptionDialogFacts.page_db \/
   set_products ReceptionDialogFacts.page_db [] =
   set_products ReceptionDialogFacts.page_db
     (delete_where_id Product.id "p1" (products ReceptionDialogFacts.page_db))) /\
  clicks retry_events = dones retry_events + 0.
Proof.
  apply (proj1 delete_dialogs_one_request_at_a_time
           (Product.mk "p1" "MED-001" "Acetaminofen" None None active "t" "t")
           ReceptionDialogFacts.page_db retry_events (DeleteProductDialog.mk_dialog false false)).
  reflexivity.
Defined.
