(* ===== verification/StoreOrder.v ===== *)
(** * StoreOrder: the pages and the order the store keeps its rows in

    A table of the store is a set of rows: SQL gives a [select] without
    [order by] in no particular order, and the model's lists fix one.
    [db_equiv] relates two stores whose tables hold the same rows in any
    order.  This file shows which answers of the services do not depend on
    that order:

    - every loader returns the same rows up to order ([result_perm]):
      [Proper] instances for [getAll] and [getActive];
    - [.order(column)] is a sort ([sort_by]), and a sort of a list whose
      keys are distinct has only one result, so with distinct keys and
      unique ids the three pages render exactly the same on both stores;
    - with equal keys the order is not determined: the model's stable
      sort keeps the store's order, PostgreSQL leaves the order of ties
      unspecified, so the theorem asks for distinct keys.  The receptions
      page sorts on a [datetime-local] value of minute precision, where
      ties are ordinary (a finding of the manifest).

    [sort_by] compares with [String.leb], the code-unit order; the
    database compares text under its collation.  The theorem holds for
    any total order, and uses only totality, transitivity and
    antisymmetry of the comparison.

    The order on strings is [String.leb]; its transitivity is proved
    here from [Ascii.compare]. *)

From Stdlib Require Import Ascii String List Sorted Permutation NArith Lia.
From stdpp Require Import base list strings.
From S2P Require Import Prelude Entities Store Services Pages.

(** ** The order on strings *)

Lemma string_compare_not_gt_trans (a b c : string) :
  String.compare a b <> Gt -> String.compare b c <> Gt -> String.compare a c <> Gt.
Proof.
  revert b c. induction a as [|x a IH]; intros [|y b] [|z c]; simpl; try congruence.
  unfold Ascii.compare.
  destruct (N.compare_spec (N_of_ascii x) (N_of_ascii y)),
    (N.compare_spec (N_of_ascii y) (N_of_ascii z)),
    (N.compare_spec (N_of_ascii x) (N_of_ascii z)); try congruence; try lia.
  apply IH.
Qed.

Lemma string_leb_not_gt (a b : string) : String.leb a b = true <-> String.compare a b <> Gt.
Proof. unfold String.leb. destruct (String.compare a b); split; congruence. Qed.

Lemma string_leb_trans (a b c : string) :
  String.leb a b = true -> String.leb b c = true -> String.leb a c = true.
Proof. rewrite !string_leb_not_gt. apply string_compare_not_gt_trans. Qed.

(** ** A sort has one result *)

(** After [StronglySorted_Permutation_unique] of fiat-crypto, with the
    antisymmetry asked only of the list's elements. *)
Lemma StronglySorted_perm_unique {A : Type} (R : A -> A -> Prop) (xs ys : list A) :
  (forall x y, In x xs -> In y xs -> R x y -> R y x -> x = y) ->
  StronglySorted R xs -> StronglySorted R ys -> Permutation xs ys -> xs = ys.
Proof.
  intros Hanti Hx. revert ys Hanti. induction Hx as [|x xs Hxs IH Hhd]; intros ys Hanti Hy Hp.
  { symmetry. by apply Permutation_nil. }
  destruct Hy as [|y ys Hys Hhd']; [by apply Permutation_sym, Permutation_nil in Hp|].
  assert (x = y) as <-.
  { assert (Hyx : In y (x :: xs)) by (apply (Permutation_in _ (Permutation_sym Hp)); left; done).
    assert (Hxy : In x (y :: ys)) by (apply (Permutation_in _ Hp); left; done).
    destruct Hyx as [->|Hyx]; [done|]. destruct Hxy as [<-|Hxy]; [done|].
    apply (Hanti x y); [left; reflexivity | right; exact Hyx | |].
    - by apply (proj1 (List.Forall_forall _ _) Hhd).
    - by apply (proj1 (List.Forall_forall _ _) Hhd'). }
  f_equal. apply IH; [|done | by apply Permutation_cons_inv in Hp].
  intros a b Ha Hb. apply Hanti; by right.
Qed.

Section Canonical.

Context {R : Type} (le : R -> R -> bool).
Context (le_total : forall a b, le a b = false -> le b a = true).
Context (le_trans : forall a b c, le a b = true -> le b c = true -> le a c = true).

(** Sorting two orderings of the same rows gives the same list when no
    two distinct rows are equivalent for the order. *)
Lemma sort_by_canonical (l1 l2 : list R) :
  Permutation l1 l2 ->
  (forall a b, In a l1 -> In b l1 -> le a b = true -> le b a = true -> a = b) ->
  sort_by le l1 = sort_by le l2.
Proof.
  intros Hp Hanti. apply (StronglySorted_perm_unique (fun a b => le a b = true)).
  - intros a b Ha Hb. apply Hanti; by apply (sorted_perm_in le).
  - apply Sorted_StronglySorted; [intros a b c; apply le_trans | by apply sort_by_sorted].
  - apply Sorted_StronglySorted; [intros a b c; apply le_trans | by apply sort_by_sorted].
  - by rewrite !sort_by_perm.
Qed.

End Canonical.

(** Two rows of a list that agree on a key without duplicates are the
    same row. *)
Lemma NoDup_map_same {A B : Type} (f : A -> B) (l : list A) (a b : A) :
  NoDup (map f l) -> In a l -> In b l -> f a = f b -> a = b.
Proof.
  induction l as [|x l IH]; simpl; [done|]. intros Hnd Ha Hb Hf.
  apply NoDup_cons in Hnd as [Hx Hnd]. rewrite list_elem_of_In in Hx.
  destruct Ha as [<-|Ha], Hb as [<-|Hb]; [done | | | by apply IH].
  - destruct Hx. rewrite Hf. by apply in_map.
  - destruct Hx. rewrite <- Hf. by apply in_map.
Qed.

Lemma Permutation_List_filter {A : Type} (f : A -> bool) (l1 l2 : list A) :
  Permutation l1 l2 -> Permutation (List.filter f l1) (List.filter f l2).
Proof.
  induction 1; simpl; [done | | | by etransitivity].
  - destruct (f x); [by constructor | done].
  - destruct (f x), (f y); [apply perm_swap | constructor | constructor | done]; done.
Qed.

(** An [.order(column)] on a string column, ascending or descending. *)
Definition key_le {R : Type} (desc : bool) (key : R -> string) (a b : R) : bool :=
  if desc then String.leb (key b) (key a) else String.leb (key a) (key b).

(** Sorting on a column whose values are distinct gives one list,
    whatever the order of the rows. *)
Lemma sort_by_key_unique {R : Type} (desc : bool) (key : R -> string) (l1 l2 : list R) :
  Permutation l1 l2 -> NoDup (map key l1) -> sort_by (key_le desc key) l1 = sort_by (key_le desc key) l2.
Proof.
  intros Hp Hnd. apply sort_by_canonical; [| | done |].
  - intros a b. unfold key_le. destruct desc; intros H;
      destruct (String.leb_total (key a) (key b)); congruence.
  - intros a b c. unfold key_le. destruct desc; intros H1 H2; eapply string_leb_trans; eauto.
  - intros a b Ha Hb. unfold key_le. intros H1 H2. apply (NoDup_map_same key l1); [done..|].
    destruct desc; by apply String.leb_antisym.
Qed.

(** ** Stores equal up to the order of their rows *)

Record db_equiv (d1 d2 : db) : Prop := {
  suppliers_perm : Permutation (suppliers d1) (suppliers d2);
  products_perm : Permutation (products d1) (products d2);
  receptions_perm : Permutation (product_receptions d1) (product_receptions d2)
}.

#[export] Instance db_equiv_equivalence : Equivalence db_equiv.
Proof.
  split.
  - intros d. by split.
  - intros d1 d2 []. split; by symmetry.
  - intros d1 d2 d3 [] []. split; by etransitivity.
Qed.

(** Two stores equal up to row order whose ids are unique. *)
Definition wf_equiv (d1 d2 : db) : Prop :=
  db_equiv d1 d2 /\ ids_unique Product.id (products d1) /\ ids_unique Supplier.id (suppliers d1).

(** Two answers of a loader equal up to the order of the rows. *)
Definition result_perm {A : Type} (r1 r2 : js_result (list A)) : Prop :=
  match r1, r2 with
  | Ok l1, Ok l2 => Permutation l1 l2
  | Throw e1, Throw e2 => e1 = e2
  | _, _ => False
  end.

(** [find_by_id] on a key without duplicates does not see the order. *)
Lemma find_by_id_perm {R : Type} (row_id : R -> string) (k : string) (l1 l2 : list R) :
  NoDup (map row_id l1) -> Permutation l1 l2 -> find_by_id row_id k l1 = find_by_id row_id k l2.
Proof.
  intros Hnd Hp. unfold find_by_id.
  destruct (List.find _ l1) as [x|] eqn:E1, (List.find _ l2) as [y|] eqn:E2.
  - apply find_some in E1 as [Hx Ex], E2 as [Hy Ey].
    apply String.eqb_eq in Ex, Ey. f_equal.
    apply (NoDup_map_same row_id l1); [done | done | | congruence].
    by apply (Permutation_in _ (Permutation_sym Hp)).
  - apply find_some in E1 as [Hx Ex]. pose proof (find_none _ _ E2 x (Permutation_in _ Hp Hx)). congruence.
  - apply find_some in E2 as [Hy Ey].
    pose proof (find_none _ _ E1 y (Permutation_in _ (Permutation_sym Hp) Hy)). congruence.
  - done.
Qed.

(** The relations a reception embeds are the same on both stores. *)
Lemma embed_relations_equiv (d1 d2 : db) (r : ProductReception.t) :
  wf_equiv d1 d2 -> embed_relations d1 r = embed_relations d2 r.
Proof.
  intros [Hd [Hp Hs]]. unfold embed_relations.
  rewrite (find_by_id_perm Product.id _ _ _ Hp (products_perm _ _ Hd)),
    (find_by_id_perm Supplier.id _ _ _ Hs (suppliers_perm _ _ Hd)). done.
Qed.

(** Every loader gives the same rows, up to order, on stores equal up to
    row order. *)
#[export] Instance products_getAll_proper :
  Proper (db_equiv ==> eq ==> result_perm) ProductsServerService.getAll.
Proof.
  intros d1 d2 Hd rq ? <-. unfold ProductsServerService.getAll.
  destruct (refused rq); simpl; [done|]. by rewrite !sort_by_perm, (products_perm _ _ Hd).
Qed.

#[export] Instance products_getActive_proper :
  Proper (db_equiv ==> eq ==> result_perm) ProductsServerService.getActive.
Proof.
  intros d1 d2 Hd rq ? <-. unfold ProductsServerService.getActive.
  destruct (refused rq); simpl; [done|]. rewrite !sort_by_perm.
  apply Permutation_List_filter, (products_perm _ _ Hd).
Qed.

#[export] Instance suppliers_getAll_proper :
  Proper (db_equiv ==> eq ==> result_perm) SuppliersServerService.getAll.
Proof.
  intros d1 d2 Hd rq ? <-. unfold SuppliersServerService.getAll.
  destruct (refused rq); simpl; [done|]. by rewrite !sort_by_perm, (suppliers_perm _ _ Hd).
Qed.

#[export] Instance receptions_getAll_proper :
  Proper (wf_equiv ==> eq ==> result_perm) ReceptionsServerService.getAll.
Proof.
  intros d1 d2 Hd rq ? <-. unfold ReceptionsServerService.getAll.
  destruct (refused rq); simpl; [done|].
  rewrite (map_ext (embed_relations d1) (embed_relations d2)) by (intros; by apply embed_relations_equiv).
  apply Permutation_map. rewrite !sort_by_perm. apply (receptions_perm _ _ (proj1 Hd)).
Qed.

(** ** The pages on stores equal up to row order *)

Local Open Scope js_scope.

(** C13: on two stores that hold the same rows in different orders, with
    unique ids and distinct values in the columns the pages sort on
    ([created_at] of products and suppliers, [reception_date], and the
    names of the active products), the three data pages load exactly the
    same lists, embedded relations included. *)
Theorem pages_independent_of_row_order (d1 d2 : db) (rq rq1 rq2 rq3 : request) :
  db_equiv d1 d2 ->
  ids_unique Product.id (products d1) -> ids_unique Supplier.id (suppliers d1) ->
  NoDup (map Product.created_at (products d1)) -> NoDup (map Supplier.created_at (suppliers d1)) ->
  NoDup (map ProductReception.reception_date (product_receptions d1)) ->
  NoDup (map Product.name (List.filter (fun p => bool_decide (Product.status p = active)) (products d1))) ->
  Pages.ProductsPage d1 rq = Pages.ProductsPage d2 rq /\
  Pages.SuppliersPage d1 rq = Pages.SuppliersPage d2 rq /\
  Pages.ReceptionsPage d1 rq1 rq2 rq3 = Pages.ReceptionsPage d2 rq1 rq2 rq3.
Proof.
  intros Hd Hpid Hsid Hpc Hsc Hrd Hpn.
  unfold Pages.ProductsPage, Pages.SuppliersPage, Pages.ReceptionsPage, ProductsServerService.getAll,
    SuppliersServerService.getAll, ReceptionsServerService.getAll, ProductsServerService.getActive.
  change product_created_desc with (key_le true Product.created_at).
  change supplier_created_desc with (key_le true Supplier.created_at).
  change reception_date_desc with (key_le true ProductReception.reception_date).
  change product_name_asc with (key_le false Product.name).
  rewrite (sort_by_key_unique true Product.created_at _ _ (products_perm _ _ Hd) Hpc),
    (sort_by_key_unique true Supplier.created_at _ _ (suppliers_perm _ _ Hd) Hsc),
    (sort_by_key_unique true ProductReception.reception_date _ _ (receptions_perm _ _ Hd) Hrd),
    (sort_by_key_unique false Product.name _ _
       (Permutation_List_filter _ _ _ (products_perm _ _ Hd)) Hpn).
  rewrite (map_ext (embed_relations d1) (embed_relations d2)) by (intros; by apply embed_relations_equiv).
  done.
Qed.

(** ** Witnesses *)

Definition paracetamol : Product.t :=
  Product.mk "p1" "MED-001" "Paracetamol" None None active "2025-01-01T08:00:00" "2025-01-01T08:00:00".
Definition loratadina : Product.t :=
  Product.mk "p2" "MED-002" "Loratadina" None None active "2025-01-02T08:00:00" "2025-01-02T08:00:00".
Definition store_ab : db := mk_db [] [paracetamol; loratadina] [].
Definition store_ba : db := mk_db [] [loratadina; paracetamol] [].
Definition read_request : request := mk_request None "x" "2025-03-01T12:00:00".

Lemma pages_independent_of_row_order_witness :
  Pages.ProductsPage store_ab read_request = Pages.ProductsPage store_ba read_request /\
  Pages.SuppliersPage store_ab read_request = Pages.SuppliersPage store_ba read_request /\
  Pages.ReceptionsPage store_ab read_request read_request read_request =
  Pages.ReceptionsPage store_ba read_request read_request read_request.
Proof.
  apply pages_independent_of_row_order;
    [split; [done | apply perm_swap | done] | unfold ids_unique; refine (bool_decide_unpack _ _); vm_compute; reflexivity..].
Defined.

